(** * Freelance billing system: invoice lifecycle and payment reconciliation

    A shallow embedding of the model classes (models/invoice.py,
    models/payment.py, models/project.py, models/client.py), of the
    services and of the repositories they use (services/, repositories/),
    and of the report of the outstanding invoices (cli/report_menu.py),
    with the properties of the specification stated over them.

    Conventions of the embedding.
    - A Python float is a binary64 value: the primitive [float] with its
      IEEE operations.  Python's [sum] and SQL's SUM are folds of the
      addition from 0, left to right.
    - A [str] is a [string]; its characters are code points below 256.
    - A [date] is its day number and a [datetime] its instant, both in [Z];
      the wall clock is an input of the operations that read it.
    - An identifier is an integer that SQLite stores, written in [Z].
    - An exception is its class; message texts are not kept.  A raised
      exception carries the state reached when it was raised, because what
      was committed before stays committed.
    - What Python resolves by name when the code runs is resolved by name
      here as well, in the members, fields and methods that the classes
      declare: a member of an enumeration, a keyword of a dataclass
      constructor, a method of a repository or of a service.  A name that
      is not declared raises what the interpreter raises.  A class that a
      module imports and that the module it names does not define is a
      parameter of the definitions that raise it.
    - A table is the list of its rows in insertion order.  The payments
      table holds the values of its columns, and the repository builds the
      object of a row with [from_dict], which calls the constructor.  A
      row of the invoices table is written as the invoice that was stored;
      the payment service reads the invoice that [_row_to_model] builds of
      it, and the invoice service, which reads the status, the row. *)

From Stdlib Require Import Floats ZArith List String Ascii Bool Lia.
Import ListNotations.

Local Open Scope string_scope.
Local Open Scope Z_scope.

(** ** Python values and control *)

Module Py.

(** The exception classes the embedded code raises.  [AttributeError] and
    [TypeError] are the interpreter's own: an attribute that the object or
    class does not have, a keyword that a constructor does not take, an
    operation between a float and a Decimal.  [DecimalInvalidOperation]
    is the signal InvalidOperation of the decimal module.  [Unknown] is a
    class of which only the name is known. *)
Inductive exn : Type :=
| ValidationError
| InvoiceNotFoundError
| DatabaseError
| AttributeError
| TypeError
| DecimalInvalidOperation
| Unknown (name : string).

Definition class_name (e : exn) : string :=
  match e with
  | ValidationError => "ValidationError"
  | InvoiceNotFoundError => "InvoiceNotFoundError"
  | DatabaseError => "DatabaseError"
  | AttributeError => "AttributeError"
  | TypeError => "TypeError"
  | DecimalInvalidOperation => "decimal.InvalidOperation"
  | Unknown name => name
  end.

(** The outcome of running a piece of code on a mutable state [S]: it
    returns [v] or raises [e], and in both cases leaves a state behind. *)
Inductive outcome (S A : Type) : Type :=
| Return (v : A) (s : S)
| Raise (e : exn) (s : S).
Arguments Return {S A} v s.
Arguments Raise {S A} e s.

Definition M (S A : Type) : Type := S -> outcome S A.

Definition ret {S A} (v : A) : M S A := fun s => Return v s.

Definition raise {S A} (e : exn) : M S A := fun s => Raise e s.

Definition bind {S A B} (c : M S A) (k : A -> M S B) : M S B :=
  fun s => match c s with
           | Return v s' => k v s'
           | Raise e s' => Raise e s'
           end.

Definition final_state {S A} (o : outcome S A) : S :=
  match o with Return _ s => s | Raise _ s => s end.

Definition raised {S A} (o : outcome S A) : option exn :=
  match o with Return _ _ => None | Raise e _ => Some e end.

(** [x.attr] where [x] may be [None]. *)
Definition attr {S A B} (x : option A) (f : A -> B) : M S B :=
  match x with
  | Some a => ret (f a)
  | None => raise AttributeError
  end.

(** [try: c except Exception as e: h e] *)
Definition catch {S A} (c : M S A) (h : exn -> M S A) : M S A :=
  fun s => match c s with
           | Return v s' => Return v s'
           | Raise e s' => h e s'
           end.

(** A method call [obj.m(...)] on a local object inside code that runs on
    the state [S]: the object is updated in place, an exception
    propagates. *)
Definition call {S O A} (m : outcome O A) : M S (A * O) :=
  match m with
  | Return v o => ret (v, o)
  | Raise e _ => raise e
  end.

(** [bool(x)] for a float: zero of either sign is false, NaN is true. *)
Definition truthy (x : float) : bool := negb (PrimFloat.eqb x 0%float).

(** [bool(x)] for an optional float. *)
Definition truthy_opt (x : option float) : bool :=
  match x with
  | Some v => truthy v
  | None => false
  end.

(** [bool(s)] for a string. *)
Definition nonempty (s : string) : bool :=
  match s with
  | EmptyString => false
  | String _ _ => true
  end.

Definition nonempty_opt (s : option string) : bool :=
  match s with
  | Some v => nonempty v
  | None => false
  end.

(** [sum(xs)]: the start value is 0. *)
Definition sum (xs : list float) : float :=
  fold_left PrimFloat.add xs 0%float.

(** [str.isspace] on one character (code points below 256). *)
Definition isspace (c : ascii) : bool :=
  let n := Z.of_nat (nat_of_ascii c) in
  ((9 <=? n) && (n <=? 13)) || ((28 <=? n) && (n <=? 32))
  || (n =? 133) || (n =? 160).

Fixpoint lstrip (s : string) : string :=
  match s with
  | EmptyString => EmptyString
  | String c s' => if isspace c then lstrip s' else s
  end.

Fixpoint reverse (s acc : string) : string :=
  match s with
  | EmptyString => acc
  | String c s' => reverse s' (String c acc)
  end.

Definition rstrip (s : string) : string :=
  reverse (lstrip (reverse s EmptyString)) EmptyString.

(** [s.strip()] *)
Definition strip (s : string) : string := rstrip (lstrip s).

End Py.

Import Py.

Declare Scope py_scope.
Delimit Scope py_scope with py.
Notation "x <- c ;; k" := (bind c (fun x => k))
  (at level 61, c at next level, right associativity) : py_scope.
Notation "c ;;; k" := (bind c (fun _ => k))
  (at level 61, right associativity) : py_scope.

(** ** config/settings.py *)

Module Settings.

Record InvoiceConfig : Type := {
  tax_rate : float;
  currency : string;
  invoice_prefix : string
}.

(** The defaults of the dataclass.  The literal 0.18 denotes the binary64
    value written here in hexadecimal. *)
Definition invoice : InvoiceConfig := {|
  tax_rate := 0x1.70a3d70a3d70ap-3%float;
  currency := "INR";
  invoice_prefix := "INV"
|}.

End Settings.


(** ** Constructors and the clock *)

Module Obj.

(** What a constructor call gives: the object, or the exception its
    [__init__] or [__post_init__] raised. *)
Inductive result (A : Type) : Type :=
| Ok (v : A)
| Err (e : exn).
Arguments Ok {A} v.
Arguments Err {A} e.

(** From the run of [__post_init__] on the freshly initialised object to
    the result of the constructor call. *)
Definition constructed {O : Type} (o : outcome O unit) : result O :=
  match o with
  | Return _ self => Ok self
  | Raise e _ => Err e
  end.

(** A constructor call inside code that runs on the state [S]. *)
Definition new {S O : Type} (r : result O) : M S O :=
  match r with
  | Ok o => ret o
  | Err e => raise e
  end.

(** The [__init__] that [@dataclass] generates takes the declared fields as
    keywords and no other: a call with another keyword raises TypeError
    before any field is set. *)
Definition init_accepts (fields keywords : list string) : bool :=
  forallb (fun k => existsb (String.eqb k) fields) keywords.

(** The readings of the wall clock: [datetime.now()], [date.today()] and
    [datetime.now().strftime("%Y%m%d%H%M%S")]. *)
Record Clock : Type := {
  now : Z;
  today : Z;
  stamp : string
}.

End Obj.

Import Obj.

(** ** models/invoice.py *)

Module InvoiceStatus.

Inductive t : Type := DRAFT | SENT | PAID | OVERDUE | CANCELLED.

Definition eqb (a b : t) : bool :=
  match a, b with
  | DRAFT, DRAFT | SENT, SENT | PAID, PAID
  | OVERDUE, OVERDUE | CANCELLED, CANCELLED => true
  | _, _ => false
  end.

(** The members of the enumeration, as the class body declares them. *)
Definition members : list (string * t) :=
  [("DRAFT", DRAFT); ("SENT", SENT); ("PAID", PAID);
   ("OVERDUE", OVERDUE); ("CANCELLED", CANCELLED)].

Fixpoint lookup (name : string) (ms : list (string * t)) : option t :=
  match ms with
  | [] => None
  | (n, v) :: ms' => if String.eqb n name then Some v else lookup name ms'
  end.

(** [InvoiceStatus.<name>]: the member of that name, AttributeError when the
    class has none. *)
Definition getattr {S : Type} (name : string) : M S t :=
  match lookup name members with
  | Some v => ret v
  | None => raise AttributeError
  end.

End InvoiceStatus.

Module InvoiceItem.

Record t : Type := {
  description : string;
  quantity : float;
  rate : float;
  amount : float
}.

(** [InvoiceItem(description, quantity, rate)]: [amount] is not an argument
    of the constructor, [__post_init__] sets it. *)
Definition init (description : string) (quantity rate : float) : t := {|
  description := description;
  quantity := quantity;
  rate := rate;
  amount := (quantity * rate)%float
|}.

End InvoiceItem.

Module Invoice.

Record t : Type := {
  id : option Z;
  created_at : option Z;
  updated_at : option Z;
  invoice_number : string;
  client_id : Z;
  project_id : option Z;
  items : list InvoiceItem.t;
  subtotal : float;
  tax_amount : float;
  total_amount : float;
  status : InvoiceStatus.t;
  issue_date : Z;
  due_date : Z;
  notes : option string
}.

Definition with_updated_at (v : option Z) (self : t) : t :=
  {| id := id self; created_at := created_at self; updated_at := v;
     invoice_number := invoice_number self; client_id := client_id self;
     project_id := project_id self; items := items self;
     subtotal := subtotal self; tax_amount := tax_amount self;
     total_amount := total_amount self; status := status self;
     issue_date := issue_date self; due_date := due_date self;
     notes := notes self |}.

Definition with_invoice_number (v : string) (self : t) : t :=
  {| id := id self; created_at := created_at self;
     updated_at := updated_at self;
     invoice_number := v; client_id := client_id self;
     project_id := project_id self; items := items self;
     subtotal := subtotal self; tax_amount := tax_amount self;
     total_amount := total_amount self; status := status self;
     issue_date := issue_date self; due_date := due_date self;
     notes := notes self |}.

Definition with_items (v : list InvoiceItem.t) (self : t) : t :=
  {| id := id self; created_at := created_at self;
     updated_at := updated_at self;
     invoice_number := invoice_number self; client_id := client_id self;
     project_id := project_id self; items := v;
     subtotal := subtotal self; tax_amount := tax_amount self;
     total_amount := total_amount self; status := status self;
     issue_date := issue_date self; due_date := due_date self;
     notes := notes self |}.

Definition with_totals (sub tax total : float) (self : t) : t :=
  {| id := id self; created_at := created_at self;
     updated_at := updated_at self;
     invoice_number := invoice_number self; client_id := client_id self;
     project_id := project_id self; items := items self;
     subtotal := sub; tax_amount := tax;
     total_amount := total; status := status self;
     issue_date := issue_date self; due_date := due_date self;
     notes := notes self |}.

Definition with_status (v : InvoiceStatus.t) (self : t) : t :=
  {| id := id self; created_at := created_at self;
     updated_at := updated_at self;
     invoice_number := invoice_number self; client_id := client_id self;
     project_id := project_id self; items := items self;
     subtotal := subtotal self; tax_amount := tax_amount self;
     total_amount := total_amount self; status := v;
     issue_date := issue_date self; due_date := due_date self;
     notes := notes self |}.

(** BaseModel.update_timestamp *)
Definition update_timestamp (clk : Clock) (self : t) : t :=
  with_updated_at (Some (now clk)) self.

Definition generate_invoice_number (clk : Clock) (self : t) : string :=
  Settings.invoice_prefix Settings.invoice ++ "-" ++ stamp clk.

(** The three assignments of [calculate_totals] follow one another: the
    tax reads the subtotal just stored, the total both. *)
Definition calculate_totals (clk : Clock) (self : t) : t :=
  let sub := Py.sum (map InvoiceItem.amount (items self)) in
  let tax := (sub * Settings.tax_rate Settings.invoice)%float in
  let total := (sub + tax)%float in
  update_timestamp clk (with_totals sub tax total self).

Definition post_init (clk : Clock) (self : t) : outcome t unit :=
  let self1 :=
    if negb (Py.nonempty (invoice_number self))
    then with_invoice_number (generate_invoice_number clk self) self
    else self in
  if client_id self1 <=? 0 then Raise ValidationError self1
  else Return tt (calculate_totals clk self1).

(** [Invoice.from_dict(data)]: the items are not among the arguments of
    the constructor, which starts from its default, the empty list. *)
Definition from_dict (clk : Clock) (data : t) : result t :=
  constructed (post_init clk (with_items [] data)).

Definition add_item (clk : Clock) (description : string)
    (quantity rate : float) (self : t) : outcome t unit :=
  if negb (Py.nonempty (Py.strip description)) then Raise ValidationError self
  else if (quantity <=? 0)%float then Raise ValidationError self
  else if (rate <? 0)%float then Raise ValidationError self
  else
    let item := InvoiceItem.init description quantity rate in
    let self1 := with_items (items self ++ [item]) self in
    Return tt (calculate_totals clk self1).

Definition mark_as_paid (clk : Clock) (self : t) : t :=
  update_timestamp clk (with_status InvoiceStatus.PAID self).

Definition is_overdue (clk : Clock) (self : t) : bool :=
  negb (existsb (InvoiceStatus.eqb (status self))
          [InvoiceStatus.PAID; InvoiceStatus.CANCELLED])
  && (due_date self <? today clk).

End Invoice.


(** ** decimal.Decimal and the amounts of a payment *)

Module Decimal.

(** A decimal: finite, with its sign, coefficient and exponent, or an
    infinity, or a NaN. *)
Inductive t : Type :=
| Finite (negative : bool) (coefficient : N) (exponent : Z)
| Infinity (negative : bool)
| NaN.

(** [Decimal('0.00')] *)
Definition zero_00 : t := Finite false 0 (-2).

(** [d <= 0].  Ordering a NaN signals InvalidOperation, which the default
    context traps. *)
Definition le_zero (d : t) : result bool :=
  match d with
  | Finite negative coefficient _ => Ok ((coefficient =? 0)%N || negative)
  | Infinity negative => Ok negative
  | NaN => Err DecimalInvalidOperation
  end.

(** The two operations of the module whose digits the embedding does not
    compute; they are taken as given.  [of_float_text x] is
    [Decimal(str(x))] for a float [x]; [sub a b] is [a - b] in the default
    context, which can signal. *)
Record arithmetic : Type := {
  of_float_text : float -> t;
  sub : t -> t -> result t
}.

End Decimal.

(** The value of a field that the Payment dataclass annotates Decimal: a
    decimal, or the float that the payment service passes, since a
    dataclass does not check its annotations. *)
Module Number.

Inductive t : Type :=
| Float (x : float)
| Dec (d : Decimal.t).

(** [v <= 0] *)
Definition le_zero (v : t) : result bool :=
  match v with
  | Float x => Ok (x <=? 0)%float
  | Dec d => Decimal.le_zero d
  end.

(** [a - b]: Python subtracts two floats and two decimals, and raises
    TypeError for a float and a Decimal. *)
Definition sub (decimal : Decimal.arithmetic) (a b : t) : result t :=
  match a, b with
  | Float x, Float y => Ok (Float (x - y)%float)
  | Dec x, Dec y =>
      match Decimal.sub decimal x y with
      | Ok d => Ok (Dec d)
      | Err e => Err e
      end
  | _, _ => Err TypeError
  end.

(** [x - b] for a float [x], when the result is to be a float. *)
Definition float_minus (x : float) (b : t) : result float :=
  match b with
  | Float y => Ok (x - y)%float
  | Dec _ => Err TypeError
  end.

End Number.

(** ** models/payment.py *)

Module PaymentMethod.

Inductive t : Type := CASH | BANK_TRANSFER | CHEQUE | UPI | CARD | OTHER.

End PaymentMethod.

Module PaymentStatus.

Inductive t : Type := PENDING | COMPLETED | FAILED | CANCELLED.

Definition eqb (a b : t) : bool :=
  match a, b with
  | PENDING, PENDING | COMPLETED, COMPLETED
  | FAILED, FAILED | CANCELLED, CANCELLED => true
  | _, _ => false
  end.

End PaymentStatus.

(** A row of the payments table of config/database.py.  Its columns are
    id, invoice_id, amount (REAL NOT NULL), payment_date (DATE NOT NULL),
    payment_method, transaction_id, notes and created_at: the table has no
    column for the client, the status, the reference number, the fee, the
    net amount or the time of the last update.  The method is NULL or the
    value of a member of PaymentMethod. *)
Module PaymentRow.

Record t : Type := {
  id : Z;
  invoice_id : Z;
  amount : float;
  payment_date : Z;
  payment_method : option PaymentMethod.t;
  transaction_id : option string;
  notes : option string;
  created_at : option Z
}.

End PaymentRow.

Module Payment.

(** The fields of the dataclass, those of BaseModel first. *)
Definition fields : list string :=
  ["id"; "created_at"; "updated_at"; "invoice_id"; "client_id"; "amount";
   "payment_date"; "payment_method"; "status"; "reference_number"; "notes";
   "transaction_fee"; "net_amount"].

(** A payment object.  [transaction_id] is not a field of the dataclass:
    it is an attribute that the object has once [update_payment] has
    assigned it, and that the repository reads when it writes the row;
    [None] is the object without the attribute. *)
Record t : Type := {
  id : option Z;
  created_at : option Z;
  updated_at : option Z;
  invoice_id : Z;
  client_id : Z;
  amount : Number.t;
  payment_date : Z;
  payment_method : option PaymentMethod.t;
  status : PaymentStatus.t;
  reference_number : option string;
  notes : option string;
  transaction_fee : Number.t;
  net_amount : Number.t;
  transaction_id : option (option string)
}.

Definition with_id (v : option Z) (self : t) : t :=
  {| id := v; created_at := created_at self;
     updated_at := updated_at self; invoice_id := invoice_id self;
     client_id := client_id self; amount := amount self;
     payment_date := payment_date self;
     payment_method := payment_method self; status := status self;
     reference_number := reference_number self; notes := notes self;
     transaction_fee := transaction_fee self;
     net_amount := net_amount self;
     transaction_id := transaction_id self |}.

Definition with_updated_at (v : option Z) (self : t) : t :=
  {| id := id self; created_at := created_at self; updated_at := v;
     invoice_id := invoice_id self; client_id := client_id self;
     amount := amount self; payment_date := payment_date self;
     payment_method := payment_method self; status := status self;
     reference_number := reference_number self; notes := notes self;
     transaction_fee := transaction_fee self;
     net_amount := net_amount self;
     transaction_id := transaction_id self |}.

Definition with_amount (v : Number.t) (self : t) : t :=
  {| id := id self; created_at := created_at self;
     updated_at := updated_at self; invoice_id := invoice_id self;
     client_id := client_id self; amount := v;
     payment_date := payment_date self;
     payment_method := payment_method self; status := status self;
     reference_number := reference_number self; notes := notes self;
     transaction_fee := transaction_fee self;
     net_amount := net_amount self;
     transaction_id := transaction_id self |}.

Definition with_payment_date (v : Z) (self : t) : t :=
  {| id := id self; created_at := created_at self;
     updated_at := updated_at self; invoice_id := invoice_id self;
     client_id := client_id self; amount := amount self;
     payment_date := v; payment_method := payment_method self;
     status := status self; reference_number := reference_number self;
     notes := notes self; transaction_fee := transaction_fee self;
     net_amount := net_amount self;
     transaction_id := transaction_id self |}.

Definition with_payment_method (v : option PaymentMethod.t) (self : t) : t :=
  {| id := id self; created_at := created_at self;
     updated_at := updated_at self; invoice_id := invoice_id self;
     client_id := client_id self; amount := amount self;
     payment_date := payment_date self; payment_method := v;
     status := status self; reference_number := reference_number self;
     notes := notes self; transaction_fee := transaction_fee self;
     net_amount := net_amount self;
     transaction_id := transaction_id self |}.

Definition with_status (v : PaymentStatus.t) (self : t) : t :=
  {| id := id self; created_at := created_at self;
     updated_at := updated_at self; invoice_id := invoice_id self;
     client_id := client_id self; amount := amount self;
     payment_date := payment_date self;
     payment_method := payment_method self; status := v;
     reference_number := reference_number self; notes := notes self;
     transaction_fee := transaction_fee self;
     net_amount := net_amount self;
     transaction_id := transaction_id self |}.

Definition with_reference_number (v : option string) (self : t) : t :=
  {| id := id self; created_at := created_at self;
     updated_at := updated_at self; invoice_id := invoice_id self;
     client_id := client_id self; amount := amount self;
     payment_date := payment_date self;
     payment_method := payment_method self; status := status self;
     reference_number := v; notes := notes self;
     transaction_fee := transaction_fee self;
     net_amount := net_amount self;
     transaction_id := transaction_id self |}.

Definition with_notes (v : option string) (self : t) : t :=
  {| id := id self; created_at := created_at self;
     updated_at := updated_at self; invoice_id := invoice_id self;
     client_id := client_id self; amount := amount self;
     payment_date := payment_date self;
     payment_method := payment_method self; status := status self;
     reference_number := reference_number self; notes := v;
     transaction_fee := transaction_fee self;
     net_amount := net_amount self;
     transaction_id := transaction_id self |}.

Definition with_net_amount (v : Number.t) (self : t) : t :=
  {| id := id self; created_at := created_at self;
     updated_at := updated_at self; invoice_id := invoice_id self;
     client_id := client_id self; amount := amount self;
     payment_date := payment_date self;
     payment_method := payment_method self; status := status self;
     reference_number := reference_number self; notes := notes self;
     transaction_fee := transaction_fee self; net_amount := v;
     transaction_id := transaction_id self |}.

(** [self.transaction_id = v] *)
Definition with_transaction_id (v : option string) (self : t) : t :=
  {| id := id self; created_at := created_at self;
     updated_at := updated_at self; invoice_id := invoice_id self;
     client_id := client_id self; amount := amount self;
     payment_date := payment_date self;
     payment_method := payment_method self; status := status self;
     reference_number := reference_number self; notes := notes self;
     transaction_fee := transaction_fee self;
     net_amount := net_amount self; transaction_id := Some v |}.

Definition update_timestamp (clk : Clock) (self : t) : t :=
  with_updated_at (Some (now clk)) self.

(** [self.net_amount = self.amount - self.transaction_fee], then the
    timestamp. *)
Definition calculate_net_amount (decimal : Decimal.arithmetic) (clk : Clock)
    (self : t) : outcome t unit :=
  match Number.sub decimal (amount self) (transaction_fee self) with
  | Ok v => Return tt (update_timestamp clk (with_net_amount v self))
  | Err e => Raise e self
  end.

Definition post_init (decimal : Decimal.arithmetic) (clk : Clock) (self : t)
    : outcome t unit :=
  if invoice_id self <=? 0 then Raise ValidationError self
  else if client_id self <=? 0 then Raise ValidationError self
  else
    match Number.le_zero (amount self) with
    | Err e => Raise e self
    | Ok true => Raise ValidationError self
    | Ok false => calculate_net_amount decimal clk self
    end.

(** [Payment(...)]: the generated [__init__] stores the fields, then
    [__post_init__] validates them. *)
Definition init (decimal : Decimal.arithmetic) (clk : Clock) (self : t)
    : result t :=
  constructed (post_init decimal clk self).

(** The arguments that [from_dict] passes to the constructor for the
    dictionary of a row.  The keys that are not columns take the default
    of [data.get]: 0 for the client, 'pending' for the status, None for the
    reference number and the time of the last update, '0.00' for the fee
    and the net amount.  The amount of the row, a float, becomes
    [Decimal(str(amount))]. *)
Definition of_dict (decimal : Decimal.arithmetic) (data : PaymentRow.t) : t :=
  {| id := Some (PaymentRow.id data);
     created_at := PaymentRow.created_at data;
     updated_at := None;
     invoice_id := PaymentRow.invoice_id data;
     client_id := 0;
     amount :=
       Number.Dec (Decimal.of_float_text decimal (PaymentRow.amount data));
     payment_date := PaymentRow.payment_date data;
     payment_method := PaymentRow.payment_method data;
     status := PaymentStatus.PENDING;
     reference_number := None;
     notes := PaymentRow.notes data;
     transaction_fee := Number.Dec Decimal.zero_00;
     net_amount := Number.Dec Decimal.zero_00;
     transaction_id := None |}.

(** [Payment.from_dict(data)]: the constructor call, hence
    [__post_init__]. *)
Definition from_dict (decimal : Decimal.arithmetic) (clk : Clock)
    (data : PaymentRow.t) : result t :=
  init decimal clk (of_dict decimal data).

(** The text a status change leaves in [notes]:
    [f"<label>: {reason}" if not self.notes else f"{self.notes}. <label>: {reason}"] *)
Definition annotate (label reason : string) (self : t) : t :=
  if negb (Py.nonempty_opt (notes self))
  then with_notes (Some (label ++ ": " ++ reason)) self
  else with_notes
         (Some (match notes self with Some n => n | None => "" end
                ++ ". " ++ label ++ ": " ++ reason)) self.

Definition mark_as_completed (clk : Clock) (reference_number : option string)
    (self : t) : t :=
  let self1 := with_status PaymentStatus.COMPLETED self in
  let self2 :=
    if Py.nonempty_opt reference_number
    then with_reference_number reference_number self1 else self1 in
  update_timestamp clk self2.

Definition mark_as_failed (clk : Clock) (reason : option string)
    (self : t) : t :=
  let self1 := with_status PaymentStatus.FAILED self in
  let self2 :=
    match reason with
    | Some r => if Py.nonempty r then annotate "Failed" r self1 else self1
    | None => self1
    end in
  update_timestamp clk self2.

Definition cancel_payment (clk : Clock) (reason : option string)
    (self : t) : outcome t unit :=
  if PaymentStatus.eqb (status self) PaymentStatus.COMPLETED
  then Raise ValidationError self
  else
    let self1 := with_status PaymentStatus.CANCELLED self in
    let self2 :=
      match reason with
      | Some r => if Py.nonempty r then annotate "Cancelled" r self1 else self1
      | None => self1
      end in
    Return tt (update_timestamp clk self2).

End Payment.

(** ** models/project.py *)

Module ProjectStatus.

Inductive t : Type := ACTIVE | COMPLETED | ON_HOLD | CANCELLED.

End ProjectStatus.

Module Project.

Record t : Type := {
  id : option Z;
  created_at : option Z;
  updated_at : option Z;
  client_id : Z;
  name : string;
  description : option string;
  hourly_rate : option float;
  fixed_rate : option float;
  hours_worked : float;
  status : ProjectStatus.t
}.

Definition with_updated_at (v : option Z) (self : t) : t :=
  {| id := id self; created_at := created_at self; updated_at := v;
     client_id := client_id self; name := name self;
     description := description self; hourly_rate := hourly_rate self;
     fixed_rate := fixed_rate self; hours_worked := hours_worked self;
     status := status self |}.

Definition with_hours_worked (v : float) (self : t) : t :=
  {| id := id self; created_at := created_at self;
     updated_at := updated_at self; client_id := client_id self;
     name := name self; description := description self;
     hourly_rate := hourly_rate self; fixed_rate := fixed_rate self;
     hours_worked := v; status := status self |}.

Definition update_timestamp (clk : Clock) (self : t) : t :=
  with_updated_at (Some (now clk)) self.

(** [x and x < 0] for an optional rate: the comparison is made only when
    [x] is true, hence neither None nor zero. *)
Definition set_and_negative (x : option float) : bool :=
  match x with
  | Some v => Py.truthy v && (v <? 0)%float
  | None => false
  end.

Definition post_init (self : t) : outcome t unit :=
  if negb (Py.nonempty (Py.strip (name self))) then Raise ValidationError self
  else if client_id self <=? 0 then Raise ValidationError self
  else if negb (Py.truthy_opt (hourly_rate self))
          && negb (Py.truthy_opt (fixed_rate self))
       then Raise ValidationError self
  else if set_and_negative (hourly_rate self) then Raise ValidationError self
  else if set_and_negative (fixed_rate self) then Raise ValidationError self
  else Return tt self.

(** [Project(...)]: the generated [__init__] stores the fields, then
    [__post_init__] validates them. *)
Definition init (self : t) : result t := constructed (post_init self).

(** [if self.fixed_rate: ... elif self.hourly_rate: ... return 0.0] *)
Definition calculate_amount (self : t) : float :=
  match fixed_rate self, hourly_rate self with
  | Some f, Some r =>
      if Py.truthy f then f
      else if Py.truthy r then (r * hours_worked self)%float
      else 0%float
  | Some f, None => if Py.truthy f then f else 0%float
  | None, Some r =>
      if Py.truthy r then (r * hours_worked self)%float else 0%float
  | None, None => 0%float
  end.

Definition add_hours (clk : Clock) (hours : float) (self : t)
    : outcome t unit :=
  if (hours <? 0)%float then Raise ValidationError self
  else
    Return tt (update_timestamp clk
                 (with_hours_worked (hours_worked self + hours)%float self)).

End Project.


(** ** The store and the repositories *)

Module Store.

(** The invoices and payments tables, rows in insertion order.  A row of
    the invoices table is written as the invoice that was stored, with its
    items, which are the rows of invoice_items.  A row of the payments
    table holds the values of its columns; the table declares
    [id INTEGER PRIMARY KEY AUTOINCREMENT], and [payment_seq] is the last
    identifier that its sequence gave. *)
Record t : Type := {
  invoices : list Invoice.t;
  payments : list PaymentRow.t;
  payment_seq : Z
}.

Definition with_invoices (v : list Invoice.t) (s : t) : t :=
  {| invoices := v; payments := payments s; payment_seq := payment_seq s |}.

Definition with_payments (v : list PaymentRow.t) (seq : Z) (s : t) : t :=
  {| invoices := invoices s; payments := v; payment_seq := seq |}.

(** [WHERE id = ?] on a row identifier. *)
Definition has_id (i : Z) (row_id : option Z) : bool :=
  match row_id with
  | Some j => j =? i
  | None => false
  end.

End Store.

(** repositories/invoice_repository.py with repositories/base_repository.py *)
Module InvoiceRepository.

(** The row that [SELECT * FROM invoices WHERE id = ?] fetches. *)
Definition row (i : Z) (s : Store.t) : option Invoice.t :=
  find (fun r => Store.has_id i (Invoice.id r)) (Store.invoices s).

(** [find_by_id] as the invoice service is embedded over it: the row
    stands for the invoice that is built of it.  The service reads the
    status of the invoice, which is that of the row, and a row that the
    program wrote has a client above zero, so that it loads.
    [InvoiceLoader.find_by_id] below builds the object as [_row_to_model]
    does, with its totals computed again; the payment service, which
    reads the total, is embedded over that. *)
Definition find_by_id (i : Z) : M Store.t (option Invoice.t) :=
  fun s => Return (row i s) s.

(** [UPDATE invoices SET status = ?, updated_at = CURRENT_TIMESTAMP
    WHERE id = ?]; the result is [rowcount > 0]. *)
Definition update_status (clk : Clock) (invoice_id : Z)
    (status : InvoiceStatus.t) : M Store.t bool :=
  fun s =>
    let hit := fun r => Store.has_id invoice_id (Invoice.id r) in
    let write := fun r =>
      if hit r
      then Invoice.with_updated_at (Some (now clk)) (Invoice.with_status status r)
      else r in
    Return (existsb hit (Store.invoices s))
           (Store.with_invoices (map write (Store.invoices s)) s).

Definition next_id (rows : list Invoice.t) : Z :=
  1 + fold_left Z.max
        (map (fun r => match Invoice.id r with Some j => j | None => 0 end) rows)
        0.

(** [create]: the row is inserted and the object receives its identifier,
    taken above the identifiers present. *)
Definition create (invoice : Invoice.t) : M Store.t Invoice.t :=
  fun s =>
    let invoice1 :=
      {| Invoice.id := Some (next_id (Store.invoices s));
         Invoice.created_at := Invoice.created_at invoice;
         Invoice.updated_at := Invoice.updated_at invoice;
         Invoice.invoice_number := Invoice.invoice_number invoice;
         Invoice.client_id := Invoice.client_id invoice;
         Invoice.project_id := Invoice.project_id invoice;
         Invoice.items := Invoice.items invoice;
         Invoice.subtotal := Invoice.subtotal invoice;
         Invoice.tax_amount := Invoice.tax_amount invoice;
         Invoice.total_amount := Invoice.total_amount invoice;
         Invoice.status := Invoice.status invoice;
         Invoice.issue_date := Invoice.issue_date invoice;
         Invoice.due_date := Invoice.due_date invoice;
         Invoice.notes := Invoice.notes invoice |} in
    Return invoice1 (Store.with_invoices (Store.invoices s ++ [invoice1]) s).

(** The methods of the class, BaseRepository's included, that take an
    invoice and give one back.  The others are [get_connection],
    [_row_to_model], [_load_invoice_items], [find_by_id], [find_all],
    [delete], [count], [update_status], [find_by_client], [find_overdue]
    and [get_monthly_revenue]. *)
Definition invoice_methods
    : list (string * (Invoice.t -> M Store.t Invoice.t)) :=
  [("create", create)].

Fixpoint lookup (name : string)
    (ms : list (string * (Invoice.t -> M Store.t Invoice.t)))
    : option (Invoice.t -> M Store.t Invoice.t) :=
  match ms with
  | [] => None
  | (n, m) :: ms' => if String.eqb n name then Some m else lookup name ms'
  end.

(** [self.repository.<name>] for a method applied to an invoice:
    AttributeError when the repository has no method of that name. *)
Definition getattr (name : string)
    : M Store.t (Invoice.t -> M Store.t Invoice.t) :=
  match lookup name invoice_methods with
  | Some m => ret m
  | None => raise AttributeError
  end.

End InvoiceRepository.

(** repositories/invoice_repository.py: the invoice that [find_by_id]
    builds from a row *)
Module InvoiceLoader.

(** The rows that [_load_invoice_items] selects for an invoice:
    description, quantity and rate, in the order of insertion. *)
Definition item_rows (row : Invoice.t) : list (string * float * float) :=
  map (fun item => (InvoiceItem.description item, InvoiceItem.quantity item,
                    InvoiceItem.rate item))
      (Invoice.items row).

(** [_row_to_model]: the invoice from the row, then its items, each built
    from the description, the quantity and the rate of its row. *)
Definition _row_to_model (clk : Clock) (row : Invoice.t)
    (item_rows : list (string * float * float)) : result Invoice.t :=
  match Invoice.from_dict clk row with
  | Ok invoice =>
      Ok (Invoice.with_items
            (map (fun r => InvoiceItem.init (fst (fst r)) (snd (fst r))
                             (snd r)) item_rows)
            invoice)
  | Err e => Err e
  end.

(** [find_by_id]: [self._row_to_model(row) if row else None] *)
Definition find_by_id (clk : Clock) (i : Z) : M Store.t (option Invoice.t) :=
  fun s =>
    match InvoiceRepository.row i s with
    | Some row =>
        match _row_to_model clk row (item_rows row) with
        | Ok invoice => Return (Some invoice) s
        | Err e => Raise e s
        end
    | None => Return None s
    end.

End InvoiceLoader.

(** repositories/payment_repository.py with repositories/base_repository.py *)
Module PaymentRepository.

Local Open Scope py_scope.

(** The row that [SELECT * FROM payments WHERE id = ?] fetches. *)
Definition row (i : Z) (s : Store.t) : option PaymentRow.t :=
  find (fun r => PaymentRow.id r =? i) (Store.payments s).

Definition _row_to_model (decimal : Decimal.arithmetic) (clk : Clock)
    (row : PaymentRow.t) : M Store.t Payment.t :=
  new (Payment.from_dict decimal clk row).

(** [self._row_to_model(row) if row else None] *)
Definition fetched (decimal : Decimal.arithmetic) (clk : Clock)
    (row : option PaymentRow.t) : M Store.t (option Payment.t) :=
  match row with
  | Some r => payment <- _row_to_model decimal clk r ;; ret (Some payment)
  | None => ret None
  end.

Definition find_by_id (decimal : Decimal.arithmetic) (clk : Clock) (i : Z)
    : M Store.t (option Payment.t) :=
  fun s => fetched decimal clk (row i s) s.

Definition has_transaction_id (tid : string) (r : PaymentRow.t) : bool :=
  match PaymentRow.transaction_id r with
  | Some t => String.eqb t tid
  | None => false
  end.

(** [SELECT * FROM payments WHERE transaction_id = ?], of which the first
    row is fetched. *)
Definition find_by_transaction_id (decimal : Decimal.arithmetic)
    (clk : Clock) (tid : string) : M Store.t (option Payment.t) :=
  fun s =>
    fetched decimal clk (find (has_transaction_id tid) (Store.payments s)) s.

(** The identifier that AUTOINCREMENT gives the next row: one above the
    sequence and the identifiers present. *)
Definition next_id (s : Store.t) : Z :=
  1 + fold_left Z.max (map PaymentRow.id (Store.payments s))
        (Store.payment_seq s).

(** The amount that sqlite3 binds for the column, a REAL NOT NULL.  It
    refuses a Decimal as a parameter, and the table refuses the NULL that
    a NaN is stored as; both errors leave [get_connection] as
    DatabaseError. *)
Definition bound_amount (v : Number.t) : M Store.t float :=
  match v with
  | Number.Float x =>
      if PrimFloat.is_nan x then raise DatabaseError else ret x
  | Number.Dec _ => raise DatabaseError
  end.

(** [create]: the parameters of the INSERT are read from the object first,
    [payment.transaction_id] among them, which raises AttributeError on an
    object without that attribute.  The row is inserted, with the time of
    the insertion for [created_at], and the object receives its
    identifier. *)
Definition create (clk : Clock) (payment : Payment.t) : M Store.t Payment.t :=
  transaction_id <- attr (Payment.transaction_id payment) (fun v => v) ;;
  amount <- bound_amount (Payment.amount payment) ;;
  fun s =>
    let i := next_id s in
    let inserted :=
      {| PaymentRow.id := i;
         PaymentRow.invoice_id := Payment.invoice_id payment;
         PaymentRow.amount := amount;
         PaymentRow.payment_date := Payment.payment_date payment;
         PaymentRow.payment_method := Payment.payment_method payment;
         PaymentRow.transaction_id := transaction_id;
         PaymentRow.notes := Payment.notes payment;
         PaymentRow.created_at := Some (now clk) |} in
    Return (Payment.with_id (Some i) payment)
           (Store.with_payments (Store.payments s ++ [inserted]) i s).

(** [UPDATE payments SET amount, payment_date, payment_method,
    transaction_id, notes WHERE id = ?], committed; then DatabaseError when
    no row was touched. *)
Definition update (payment : Payment.t) : M Store.t Payment.t :=
  transaction_id <- attr (Payment.transaction_id payment) (fun v => v) ;;
  amount <- bound_amount (Payment.amount payment) ;;
  fun s =>
    let hit := fun r =>
      match Payment.id payment with
      | Some i => PaymentRow.id r =? i
      | None => false
      end in
    let write := fun r =>
      if hit r
      then {| PaymentRow.id := PaymentRow.id r;
              PaymentRow.invoice_id := PaymentRow.invoice_id r;
              PaymentRow.amount := amount;
              PaymentRow.payment_date := Payment.payment_date payment;
              PaymentRow.payment_method := Payment.payment_method payment;
              PaymentRow.transaction_id := transaction_id;
              PaymentRow.notes := Payment.notes payment;
              PaymentRow.created_at := PaymentRow.created_at r |}
      else r in
    let s1 :=
      Store.with_payments (map write (Store.payments s))
        (Store.payment_seq s) s in
    if existsb hit (Store.payments s) then Return payment s1
    else Raise DatabaseError s1.

(** [DELETE FROM payments WHERE id = ?]; the result is [rowcount > 0]. *)
Definition delete (i : Z) : M Store.t bool :=
  fun s =>
    let hit := fun r => PaymentRow.id r =? i in
    Return (existsb hit (Store.payments s))
           (Store.with_payments
              (filter (fun r => negb (hit r)) (Store.payments s))
              (Store.payment_seq s) s).

(** The rows that [WHERE invoice_id = ?] selects. *)
Definition rows_of_invoice (invoice_id : Z) (s : Store.t)
    : list PaymentRow.t :=
  filter (fun r => PaymentRow.invoice_id r =? invoice_id) (Store.payments s).

(** [SELECT SUM(amount) ... WHERE invoice_id = ?] and then
    [result['total_paid'] or 0.0].  SUM is NULL without rows, and it is
    NULL when the sum is not a number, of an infinity and its opposite; a
    sum of zero is replaced by 0.0 as well. *)
Definition total_paid (invoice_id : Z) (s : Store.t) : float :=
  let amounts := map PaymentRow.amount (rows_of_invoice invoice_id s) in
  match amounts with
  | [] => 0%float
  | _ :: _ =>
      let t := Py.sum amounts in
      if PrimFloat.is_nan t then 0%float
      else if Py.truthy t then t else 0%float
  end.

Definition get_total_paid_for_invoice (invoice_id : Z) : M Store.t float :=
  fun s => Return (total_paid invoice_id s) s.

End PaymentRepository.


(** ** services/invoice_service.py *)

Module InvoiceService.

Local Open Scope py_scope.

Definition add_invoice_item (clk : Clock) (invoice_id : Z)
    (description : string) (quantity rate : float) : M Store.t Invoice.t :=
  found <- InvoiceRepository.find_by_id invoice_id ;;
  match found with
  | None => raise InvoiceNotFoundError
  | Some invoice =>
      if negb (InvoiceStatus.eqb (Invoice.status invoice) InvoiceStatus.DRAFT)
      then raise ValidationError
      else
        added <- call (Invoice.add_item clk description quantity rate invoice) ;;
        let invoice1 := snd added in
        update <- InvoiceRepository.getattr "update" ;;
        updated_invoice <- update invoice1 ;;
        ret updated_invoice
  end.

Definition mark_invoice_paid (clk : Clock) (invoice_id : Z)
    : M Store.t Invoice.t :=
  found <- InvoiceRepository.find_by_id invoice_id ;;
  match found with
  | None => raise InvoiceNotFoundError
  | Some invoice =>
      if InvoiceStatus.eqb (Invoice.status invoice) InvoiceStatus.PAID
      then raise ValidationError
      else
        let invoice1 := Invoice.mark_as_paid clk invoice in
        InvoiceRepository.update_status clk invoice_id InvoiceStatus.PAID ;;;
        ret invoice1
  end.

End InvoiceService.

(** ** services/payment_service.py *)

Module PaymentService.

Local Open Scope py_scope.

(** [x.strip() if x else None] *)
Definition strip_or_none (x : option string) : option string :=
  match x with
  | Some v => if Py.nonempty v then Some (Py.strip v) else None
  | None => None
  end.

(** The dictionary that [get_invoice_payment_status] returns. *)
Record InvoicePaymentStatus : Type := {
  invoice_id : Z;
  invoice_number : string;
  total_amount : float;
  amount_paid : float;
  amount_remaining : float;
  is_fully_paid : bool;
  payment_percentage : float
}.

Section Service.

(** The two operations of [decimal] that the Payment class uses. *)
Variable decimal : Decimal.arithmetic.

(** The class that the module imports from utils/exceptions.py under the
    name PaymentNotFoundError.  utils/exceptions.py defines no class of
    that name. *)
Variable PaymentNotFoundError : exn.

(** The object that the generated [__init__] of Payment fills from the
    keywords of [record_payment], the other fields at their defaults: the
    amount is the float of the call, the fee and the net amount are
    [Decimal('0.00')]. *)
Definition payment_of_keywords (clk : Clock) (invoice_id : Z) (amount : float)
    (payment_date : Z) (payment_method : option PaymentMethod.t)
    (transaction_id notes : option string) : Payment.t :=
  {| Payment.id := None;
     Payment.created_at := Some (now clk);
     Payment.updated_at := Some (now clk);
     Payment.invoice_id := invoice_id;
     Payment.client_id := 0;
     Payment.amount := Number.Float amount;
     Payment.payment_date := payment_date;
     Payment.payment_method := payment_method;
     Payment.status := PaymentStatus.PENDING;
     Payment.reference_number := None;
     Payment.notes := notes;
     Payment.transaction_fee := Number.Dec Decimal.zero_00;
     Payment.net_amount := Number.Dec Decimal.zero_00;
     Payment.transaction_id := Some transaction_id |}.

(** [Payment(invoice_id=..., amount=..., payment_date=...,
    payment_method=..., transaction_id=..., notes=...)] *)
Definition new_payment (clk : Clock) (invoice_id : Z) (amount : float)
    (payment_date : Z) (payment_method : option PaymentMethod.t)
    (transaction_id notes : option string) : result Payment.t :=
  if init_accepts Payment.fields
       ["invoice_id"; "amount"; "payment_date"; "payment_method";
        "transaction_id"; "notes"]
  then Payment.init decimal clk
         (payment_of_keywords clk invoice_id amount payment_date
            payment_method transaction_id notes)
  else Err TypeError.

Definition record_payment (clk : Clock) (invoice_id : Z) (amount : float)
    (payment_date : option Z) (payment_method : option PaymentMethod.t)
    (transaction_id notes : option string) : M Store.t Payment.t :=
  found <- InvoiceLoader.find_by_id clk invoice_id ;;
  match found with
  | None => raise InvoiceNotFoundError
  | Some invoice =>
      if InvoiceStatus.eqb (Invoice.status invoice) InvoiceStatus.CANCELLED
      then raise ValidationError
      else if (amount <=? 0)%float then raise ValidationError
      else
        total_paid <- PaymentRepository.get_total_paid_for_invoice invoice_id ;;
        let remaining_amount := (Invoice.total_amount invoice - total_paid)%float in
        if (remaining_amount <? amount)%float then raise ValidationError
        else
          (match transaction_id with
           | Some tid =>
               if Py.nonempty tid then
                 existing_payment <-
                   PaymentRepository.find_by_transaction_id decimal clk tid ;;
                 match existing_payment with
                 | Some _ => raise ValidationError
                 | None => ret tt
                 end
               else ret tt
           | None => ret tt
           end) ;;;
          payment <- new (new_payment clk invoice_id amount
                            (match payment_date with
                             | Some d => d
                             | None => today clk
                             end)
                            payment_method
                            (strip_or_none transaction_id)
                            (strip_or_none notes)) ;;
          created_payment <- PaymentRepository.create clk payment ;;
          let new_total_paid := (total_paid + amount)%float in
          (if (Invoice.total_amount invoice <=? new_total_paid)%float then
             InvoiceRepository.update_status clk invoice_id InvoiceStatus.PAID ;;;
             ret tt
           else if InvoiceStatus.eqb (Invoice.status invoice) InvoiceStatus.DRAFT
           then
             partially_paid <- InvoiceStatus.getattr "PARTIALLY_PAID" ;;
             InvoiceRepository.update_status clk invoice_id partially_paid ;;;
             ret tt
           else ret tt) ;;;
          ret created_payment
  end.

Definition _update_invoice_payment_status (clk : Clock) (invoice_id : Z)
    : M Store.t unit :=
  invoice <- InvoiceLoader.find_by_id clk invoice_id ;;
  total_paid <- PaymentRepository.get_total_paid_for_invoice invoice_id ;;
  new_status <-
    (if (total_paid =? 0)%float then
       status <- attr invoice Invoice.status ;;
       partially_paid <- InvoiceStatus.getattr "PARTIALLY_PAID" ;;
       if InvoiceStatus.eqb status partially_paid
       then ret InvoiceStatus.SENT
       else attr invoice Invoice.status
     else
       total_amount <- attr invoice Invoice.total_amount ;;
       if (total_amount <=? total_paid)%float then ret InvoiceStatus.PAID
       else InvoiceStatus.getattr "PARTIALLY_PAID") ;;
  status <- attr invoice Invoice.status ;;
  if negb (InvoiceStatus.eqb new_status status) then
    InvoiceRepository.update_status clk invoice_id new_status ;;;
    ret tt
  else ret tt.

Definition update_payment (clk : Clock) (payment_id : Z)
    (amount : option float) (payment_date : option Z)
    (payment_method : option PaymentMethod.t)
    (transaction_id notes : option string) : M Store.t Payment.t :=
  found <- PaymentRepository.find_by_id decimal clk payment_id ;;
  match found with
  | None => raise PaymentNotFoundError
  | Some payment =>
      let original_amount := Payment.amount payment in
      payment1 <-
        (match amount with
         | Some amount =>
             if (amount <=? 0)%float then raise ValidationError
             else
               invoice <- InvoiceLoader.find_by_id clk
                            (Payment.invoice_id payment) ;;
               total_paid <- PaymentRepository.get_total_paid_for_invoice
                               (Payment.invoice_id payment) ;;
               difference <-
                 new (Number.float_minus total_paid original_amount) ;;
               let new_total := (difference + amount)%float in
               total_amount <- attr invoice Invoice.total_amount ;;
               if (total_amount <? new_total)%float then raise ValidationError
               else ret (Payment.with_amount (Number.Float amount) payment)
         | None => ret payment
         end) ;;
      let payment2 :=
        match payment_date with
        | Some d => Payment.with_payment_date d payment1
        | None => payment1
        end in
      let payment3 :=
        match payment_method with
        | Some m => Payment.with_payment_method (Some m) payment2
        | None => payment2
        end in
      payment4 <-
        (match transaction_id with
         | Some tid =>
             existing <-
               PaymentRepository.find_by_transaction_id decimal clk
                 (Py.strip tid) ;;
             match existing with
             | Some e =>
                 if negb (Store.has_id payment_id (Payment.id e))
                 then raise ValidationError
                 else ret (Payment.with_transaction_id
                             (strip_or_none transaction_id) payment3)
             | None => ret (Payment.with_transaction_id
                              (strip_or_none transaction_id) payment3)
             end
         | None => ret payment3
         end) ;;
      let payment5 :=
        match notes with
        | Some _ => Payment.with_notes (strip_or_none notes) payment4
        | None => payment4
        end in
      updated_payment <- PaymentRepository.update payment5 ;;
      _update_invoice_payment_status clk (Payment.invoice_id payment5) ;;;
      ret updated_payment
  end.

Definition delete_payment (clk : Clock) (payment_id : Z) : M Store.t bool :=
  found <- PaymentRepository.find_by_id decimal clk payment_id ;;
  match found with
  | None => raise PaymentNotFoundError
  | Some payment =>
      let invoice_id := Payment.invoice_id payment in
      success <- PaymentRepository.delete payment_id ;;
      if success then
        _update_invoice_payment_status clk invoice_id ;;;
        ret success
      else ret success
  end.

Definition get_payment (clk : Clock) (payment_id : Z) : M Store.t Payment.t :=
  found <- PaymentRepository.find_by_id decimal clk payment_id ;;
  match found with
  | None => raise PaymentNotFoundError
  | Some payment => ret payment
  end.

(** [get_invoice_payment_status].  The quotient is taken only of a total
    above zero, so that the division cannot fail. *)
Definition get_invoice_payment_status (clk : Clock) (invoice_id : Z)
    : M Store.t InvoicePaymentStatus :=
  found <- InvoiceLoader.find_by_id clk invoice_id ;;
  match found with
  | None => raise InvoiceNotFoundError
  | Some invoice =>
      total_paid <- PaymentRepository.get_total_paid_for_invoice invoice_id ;;
      let remaining := (Invoice.total_amount invoice - total_paid)%float in
      ret {| invoice_id := invoice_id;
             invoice_number := Invoice.invoice_number invoice;
             total_amount := Invoice.total_amount invoice;
             amount_paid := total_paid;
             amount_remaining := remaining;
             is_fully_paid := (remaining <=? 0)%float;
             payment_percentage :=
               if (0 <? Invoice.total_amount invoice)%float
               then (total_paid / Invoice.total_amount invoice * 100)%float
               else 0%float |}
  end.

End Service.

End PaymentService.


(** ** services/report_service.py and cli/report_menu.py: the report of
    the outstanding invoices *)

Module ReportService.

(** The methods of the class that take no argument and give a list of
    invoices: it has none.  The class defines [__init__],
    [get_monthly_report], [get_client_revenue_report] and
    [get_outstanding_payments_report], which returns a dictionary. *)
Definition invoice_list_methods : list (string * M Store.t (list Invoice.t)) :=
  [].

Fixpoint lookup (name : string)
    (ms : list (string * M Store.t (list Invoice.t)))
    : option (M Store.t (list Invoice.t)) :=
  match ms with
  | [] => None
  | (n, m) :: ms' => if String.eqb n name then Some m else lookup name ms'
  end.

(** [self.report_service.<name>] for such a method: AttributeError when
    the service has no method of that name. *)
Definition getattr (name : string) : M Store.t (M Store.t (list Invoice.t)) :=
  match lookup name invoice_list_methods with
  | Some m => ret m
  | None => raise AttributeError
  end.

End ReportService.

Module ReportMenu.

Local Open Scope py_scope.

(** The four lists the loop fills. *)
Record Aging : Type := {
  current : list Invoice.t;
  overdue_30 : list Invoice.t;
  overdue_60 : list Invoice.t;
  overdue_90_plus : list Invoice.t
}.

Definition no_invoices : Aging :=
  {| current := []; overdue_30 := []; overdue_60 := [];
     overdue_90_plus := [] |}.

(** [(today - invoice.due_date).days] *)
Definition days_overdue (today : Z) (invoice : Invoice.t) : Z :=
  today - Invoice.due_date invoice.

(** One turn of the loop: the invoice is appended to one list. *)
Definition categorize (today : Z) (acc : Aging) (invoice : Invoice.t)
    : Aging :=
  let days := days_overdue today invoice in
  if days <=? 0 then
    {| current := current acc ++ [invoice]; overdue_30 := overdue_30 acc;
       overdue_60 := overdue_60 acc; overdue_90_plus := overdue_90_plus acc |}
  else if days <=? 30 then
    {| current := current acc; overdue_30 := overdue_30 acc ++ [invoice];
       overdue_60 := overdue_60 acc; overdue_90_plus := overdue_90_plus acc |}
  else if days <=? 60 then
    {| current := current acc; overdue_30 := overdue_30 acc;
       overdue_60 := overdue_60 acc ++ [invoice];
       overdue_90_plus := overdue_90_plus acc |}
  else
    {| current := current acc; overdue_30 := overdue_30 acc;
       overdue_60 := overdue_60 acc;
       overdue_90_plus := overdue_90_plus acc ++ [invoice] |}.

(** The loop over the outstanding invoices. *)
Definition categorize_all (today : Z) (outstanding : list Invoice.t)
    : Aging :=
  fold_left (categorize today) outstanding no_invoices.

(** The labelled categories, in the order they are printed. *)
Definition categories (today : Z) (outstanding : list Invoice.t)
    : list (string * list Invoice.t) :=
  let a := categorize_all today outstanding in
  [("Current (Not Yet Due)", current a);
   ("1-30 Days Overdue", overdue_30 a);
   ("31-60 Days Overdue", overdue_60 a);
   ("60+ Days Overdue", overdue_90_plus a)].

(** The category of a given label. *)
Fixpoint category (label : string) (cs : list (string * list Invoice.t))
    : list Invoice.t :=
  match cs with
  | [] => []
  | (l, invs) :: cs' => if String.eqb l label then invs else category label cs'
  end.

(** What [_outstanding_invoices] prints after its heading: that there are
    no outstanding invoices, the categories with their invoices, or the
    error that the [except Exception] clause caught. *)
Inductive report : Type :=
| NoOutstanding
| Categories (cs : list (string * list Invoice.t))
| Failed (e : exn).

(** [_outstanding_invoices]: the list is asked of the report service by
    the name [get_outstanding_invoices], inside the [try]. *)
Definition _outstanding_invoices (clk : Clock) : M Store.t report :=
  catch
    (get_outstanding_invoices <-
       ReportService.getattr "get_outstanding_invoices" ;;
     outstanding <- get_outstanding_invoices ;;
     match outstanding with
     | [] => ret NoOutstanding
     | _ :: _ => ret (Categories (categories (today clk) outstanding))
     end)
    (fun e => ret (Failed e)).

End ReportMenu.


(** ** Concrete objects for the examples *)

Module Examples.

Definition clock : Clock :=
  {| now := 1718000000; today := 19900; stamp := "20240610061320" |}.

(** An invoice without items. *)
Definition blank_invoice (i : Z) (status : InvoiceStatus.t) (due : Z)
    : Invoice.t :=
  {| Invoice.id := Some i;
     Invoice.created_at := Some 1717000000;
     Invoice.updated_at := Some 1717000000;
     Invoice.invoice_number := "INV-20240529162640";
     Invoice.client_id := 1;
     Invoice.project_id := None;
     Invoice.items := [];
     Invoice.subtotal := 0%float;
     Invoice.tax_amount := 0%float;
     Invoice.total_amount := 0%float;
     Invoice.status := status;
     Invoice.issue_date := 19872;
     Invoice.due_date := due;
     Invoice.notes := None |}.

(** The items of the specification's example: 10 x 100.00 and 5 x 200.00. *)
Definition design_and_dev : list InvoiceItem.t :=
  [InvoiceItem.init "Design" 10%float 100%float;
   InvoiceItem.init "Dev" 5%float 200%float].

(** The invoice with these two items, hence a total of 2360.00, in a given
    status. *)
Definition invoice_of (i : Z) (status : InvoiceStatus.t) : Invoice.t :=
  Invoice.with_status status
    (Invoice.calculate_totals clock
       (Invoice.with_items design_and_dev
          (blank_invoice i InvoiceStatus.DRAFT 19902))).

(** A row of the payments table. *)
Definition payment_row (i invoice_id : Z) (amount : float) : PaymentRow.t :=
  {| PaymentRow.id := i;
     PaymentRow.invoice_id := invoice_id;
     PaymentRow.amount := amount;
     PaymentRow.payment_date := 19880;
     PaymentRow.payment_method := Some PaymentMethod.UPI;
     PaymentRow.transaction_id := None;
     PaymentRow.notes := None;
     PaymentRow.created_at := Some 1717500000 |}.

(** A sent invoice of 2360.00 with two payments, 1360.00 and 1000.00. *)
Definition sent_with_two_payments : Store.t :=
  {| Store.invoices := [invoice_of 1 InvoiceStatus.SENT];
     Store.payments := [payment_row 1 1 1360%float;
                        payment_row 2 1 1000%float];
     Store.payment_seq := 2 |}.

(** A sent invoice of 2360.00 with one payment of 1360.00. *)
Definition sent_with_one_payment : Store.t :=
  {| Store.invoices := [invoice_of 1 InvoiceStatus.SENT];
     Store.payments := [payment_row 1 1 1360%float];
     Store.payment_seq := 1 |}.

(** A draft invoice of 2360.00 with one payment of 1000.00. *)
Definition draft_with_payment : Store.t :=
  {| Store.invoices := [invoice_of 1 InvoiceStatus.DRAFT];
     Store.payments := [payment_row 1 1 1000%float];
     Store.payment_seq := 1 |}.

(** A cancelled invoice of 2360.00 without payments. *)
Definition cancelled_invoice : Store.t :=
  {| Store.invoices := [invoice_of 1 InvoiceStatus.CANCELLED];
     Store.payments := [];
     Store.payment_seq := 0 |}.

(** An invoice due 45 days before the day of the clock, not paid. *)
Definition overdue_45 : Store.t :=
  {| Store.invoices := [blank_invoice 7 InvoiceStatus.SENT (19900 - 45)];
     Store.payments := [];
     Store.payment_seq := 0 |}.

(** A project with a given pricing. *)
Definition project_priced (hourly fixed : option float) : Project.t :=
  {| Project.id := None;
     Project.created_at := Some 1717000000;
     Project.updated_at := Some 1717000000;
     Project.client_id := 1;
     Project.name := "Website";
     Project.description := None;
     Project.hourly_rate := hourly;
     Project.fixed_rate := fixed;
     Project.hours_worked := 0%float;
     Project.status := ProjectStatus.ACTIVE |}.

(** A project priced both by the hour and at a fixed rate. *)
Definition doubly_priced : Project.t :=
  project_priced (Some 50%float) (Some 1000%float).

(** A decimal arithmetic to run the examples with; the properties are
    proved for every arithmetic.  [exact x] is the decimal expansion of
    the float [x], which is [Decimal(str(x))] up to the digits that [str]
    rounds away and to the exponent; [difference a b] is the difference of
    two decimals before the context rounds it. *)
Definition exact (x : float) : Decimal.t :=
  match Prim2SF x with
  | S754_zero s => Decimal.Finite s 0 0
  | S754_infinity s => Decimal.Infinity s
  | S754_nan => Decimal.NaN
  | S754_finite s m e =>
      if 0 <=? e then Decimal.Finite s (Z.to_N (Z.pos m * 2 ^ e)) 0
      else Decimal.Finite s (Z.to_N (Z.pos m * 5 ^ (- e))) e
  end.

Definition signed (negative : bool) (coefficient : N) : Z :=
  if negative then - Z.of_N coefficient else Z.of_N coefficient.

Definition difference (a b : Decimal.t) : result Decimal.t :=
  match a, b with
  | Decimal.NaN, _ | _, Decimal.NaN => Ok Decimal.NaN
  | Decimal.Infinity sa, Decimal.Infinity sb =>
      if Bool.eqb sa sb then Err DecimalInvalidOperation
      else Ok (Decimal.Infinity sa)
  | Decimal.Infinity sa, Decimal.Finite _ _ _ => Ok (Decimal.Infinity sa)
  | Decimal.Finite _ _ _, Decimal.Infinity sb =>
      Ok (Decimal.Infinity (negb sb))
  | Decimal.Finite sa ca ea, Decimal.Finite sb cb eb =>
      let e := Z.min ea eb in
      let v := signed sa ca * 10 ^ (ea - e) - signed sb cb * 10 ^ (eb - e) in
      Ok (Decimal.Finite (v <? 0) (Z.abs_N v) e)
  end.

Definition decimal : Decimal.arithmetic :=
  {| Decimal.of_float_text := exact; Decimal.sub := difference |}.

(** A class to stand for the one that services/payment_service.py names
    PaymentNotFoundError. *)
Definition not_found : exn := Unknown "PaymentNotFoundError".

End Examples.

(** ** Notions the properties are stated with *)

(** An item as [InvoiceItem(...)] leaves it. *)
Definition built (i : InvoiceItem.t) : Prop :=
  InvoiceItem.amount i = (InvoiceItem.quantity i * InvoiceItem.rate i)%float.

(** Quantity times rate of an item. *)
Definition line_total (i : InvoiceItem.t) : float :=
  (InvoiceItem.quantity i * InvoiceItem.rate i)%float.

(** The three totals of an invoice. *)
Definition totals (inv : Invoice.t) : float * float * float :=
  (Invoice.subtotal inv, Invoice.tax_amount inv, Invoice.total_amount inv).

(** The stored status of an invoice. *)
Definition stored_status (invoice_id : Z) (s : Store.t)
    : option InvoiceStatus.t :=
  option_map Invoice.status (InvoiceRepository.row invoice_id s).

(** The four aging categories and the one a number of days belongs to. *)
Inductive bucket : Type := Current | Upto30 | Upto60 | Beyond.

Definition bucket_of (days : Z) : bucket :=
  if days <=? 0 then Current
  else if days <=? 30 then Upto30
  else if days <=? 60 then Upto60
  else Beyond.

Definition select (b : bucket) (a : ReportMenu.Aging) : list Invoice.t :=
  match b with
  | Current => ReportMenu.current a
  | Upto30 => ReportMenu.overdue_30 a
  | Upto60 => ReportMenu.overdue_60 a
  | Beyond => ReportMenu.overdue_90_plus a
  end.

(** ** Objects as the model classes make them *)

(** An invoice that the constructor returned for items built by their own
    constructor, and that the methods of the class have changed since. *)
Inductive made_invoice : Invoice.t -> Prop :=
| made_by_init (clk : Clock) (self inv : Invoice.t) :
    Forall built (Invoice.items self) ->
    Invoice.post_init clk self = Return tt inv ->
    made_invoice inv
| made_by_add_item (clk : Clock) (d : string) (q r : float)
    (inv inv' : Invoice.t) :
    made_invoice inv ->
    Invoice.add_item clk d q r inv = Return tt inv' ->
    made_invoice inv'
| made_by_calculate_totals (clk : Clock) (inv : Invoice.t) :
    made_invoice inv ->
    made_invoice (Invoice.calculate_totals clk inv)
| made_by_mark_as_paid (clk : Clock) (inv : Invoice.t) :
    made_invoice inv ->
    made_invoice (Invoice.mark_as_paid clk inv).

(** ** The operations of the payment service *)

(** A call of one of the three operations that record, change and remove
    payments, with its arguments. *)
Inductive payment_operation : Type :=
| RecordPayment (invoice_id : Z) (amount : float) (payment_date : option Z)
    (payment_method : option PaymentMethod.t)
    (transaction_id notes : option string)
| UpdatePayment (payment_id : Z) (amount : option float)
    (payment_date : option Z) (payment_method : option PaymentMethod.t)
    (transaction_id notes : option string)
| DeletePayment (payment_id : Z).

(** The store that a call leaves, whether it returns or raises. *)
Definition performed (decimal : Decimal.arithmetic) (not_found : exn)
    (s : Store.t) (call : Clock * payment_operation) : Store.t :=
  let clk := fst call in
  match snd call with
  | RecordPayment invoice_id amount payment_date payment_method
      transaction_id notes =>
      final_state
        (PaymentService.record_payment decimal clk invoice_id amount
           payment_date payment_method transaction_id notes s)
  | UpdatePayment payment_id amount payment_date payment_method
      transaction_id notes =>
      final_state
        (PaymentService.update_payment decimal not_found clk payment_id
           amount payment_date payment_method transaction_id notes s)
  | DeletePayment payment_id =>
      final_state
        (PaymentService.delete_payment decimal not_found clk payment_id s)
  end.

(** The store that a sequence of calls leaves, each made at its own
    reading of the clock. *)
Definition performed_all (decimal : Decimal.arithmetic) (not_found : exn)
    (calls : list (Clock * payment_operation)) (s : Store.t) : Store.t :=
  fold_left (performed decimal not_found) calls s.

(** The amounts that the payments table holds for an invoice, in the
    order of the rows. *)
Fixpoint amounts_paid (invoice_id : Z) (rows : list PaymentRow.t)
    : list float :=
  match rows with
  | [] => []
  | r :: rows' =>
      if PaymentRow.invoice_id r =? invoice_id
      then PaymentRow.amount r :: amounts_paid invoice_id rows'
      else amounts_paid invoice_id rows'
  end.

(** The float that Python gets for an SQL sum: 0.0 for NULL, which a sum
    that is not a number is, and for zero. *)
Definition or_zero (t : float) : float :=
  if PrimFloat.is_nan t || (t =? 0)%float then 0%float else t.

(** The sum of the payments of an invoice. *)
Definition sum_paid (invoice_id : Z) (s : Store.t) : float :=
  or_zero (Py.sum (amounts_paid invoice_id (Store.payments s))).


(** A float that is not below zero: zero, above zero, or not a number. *)
Definition not_below_zero (x : float) : Prop :=
  (0 <=? x)%float = true \/ PrimFloat.is_nan x = true.

(** The checks of [record_payment] on an invoice that is found: it loads,
    it is not cancelled, the amount is not zero or below and does not
    exceed what the service takes for the remaining balance, which is the
    total of the loaded invoice, zero, less the total paid; and a
    transaction id that is given and not empty is not that of a stored
    payment. *)
Definition record_checks_pass (invoice_id : Z) (amount : float)
    (transaction_id : option string) (s : Store.t) (row : Invoice.t)
    : bool :=
  (0 <? Invoice.client_id row)
  && negb (InvoiceStatus.eqb (Invoice.status row) InvoiceStatus.CANCELLED)
  && negb (amount <=? 0)%float
  && negb ((0 - sum_paid invoice_id s) <? amount)%float
  && match transaction_id with
     | Some tid =>
         negb (Py.nonempty tid)
         || negb (existsb (PaymentRepository.has_transaction_id tid)
                    (Store.payments s))
     | None => true
     end.

(** ** Further exception classes *)

Module Wide.

(** The classes of [Py.exn], the two other not-found classes of
    utils/exceptions.py, and the interpreter's OverflowError. *)
Inductive exn : Type :=
| Known (e : Py.exn)
| ClientNotFoundError
| ProjectNotFoundError
| OverflowError.

Inductive outcome (S A : Type) : Type :=
| Return (v : A) (s : S)
| Raise (e : exn) (s : S).
Arguments Return {S A} v s.
Arguments Raise {S A} e s.

Definition M (S A : Type) : Type := S -> outcome S A.

Definition ret {S A} (v : A) : M S A := fun s => Return v s.

Definition raise {S A} (e : exn) : M S A := fun s => Raise e s.

Definition bind {S A B} (c : M S A) (k : A -> M S B) : M S B :=
  fun s => match c s with
           | Return v s' => k v s'
           | Raise e s' => Raise e s'
           end.

Definition final_state {S A} (o : outcome S A) : S :=
  match o with Return _ s => s | Raise _ s => s end.

Definition raised {S A} (o : outcome S A) : option exn :=
  match o with Return _ _ => None | Raise e _ => Some e end.

(** A method call on a local object, and a constructor call. *)
Definition call {S O A} (m : Py.outcome O A) : M S (A * O) :=
  match m with
  | Py.Return v o => ret (v, o)
  | Py.Raise e _ => raise (Known e)
  end.

Definition new {S O : Type} (r : Obj.result O) : M S O :=
  match r with
  | Ok o => ret o
  | Err e => raise (Known e)
  end.

End Wide.

Declare Scope wide_scope.
Delimit Scope wide_scope with wide.
Notation "x <- c ;; k" := (Wide.bind c (fun x => k))
  (at level 61, c at next level, right associativity) : wide_scope.
Notation "c ;;; k" := (Wide.bind c (fun _ => k))
  (at level 61, right associativity) : wide_scope.

(** ** Clients and projects

    The clients and projects tables hold the column values of their rows.
    A repository builds the object of a row with [from_dict], which calls
    the constructor, so that [__post_init__] validates the row each time
    it is loaded.  Both tables declare [id INTEGER PRIMARY KEY
    AUTOINCREMENT]: a new row takes the identifier after the largest of
    the table's sequence, which remembers the last one given, and of the
    identifiers present.  The
    database is opened without [PRAGMA foreign_keys], so that the
    references between the tables are not enforced. *)

Module Text.

(** [str.lower] on one character (code points below 256): the capital
    letters of ASCII and of Latin-1, the multiplication sign apart. *)
Definition lower_char (c : ascii) : ascii :=
  let n := Z.of_nat (nat_of_ascii c) in
  if ((65 <=? n) && (n <=? 90))
     || ((192 <=? n) && (n <=? 222) && negb (n =? 215))
  then ascii_of_nat (nat_of_ascii c + 32)
  else c.

Fixpoint lower (s : string) : string :=
  match s with
  | EmptyString => EmptyString
  | String c s' => String (lower_char c) (lower s')
  end.

(** [c in s] for a character [c]. *)
Fixpoint contains (c : ascii) (s : string) : bool :=
  match s with
  | EmptyString => false
  | String c' s' => Ascii.eqb c c' || contains c s'
  end.

(** A string that does not begin with white space. *)
Definition trimmed_left (s : string) : bool :=
  match s with
  | EmptyString => true
  | String c _ => negb (Py.isspace c)
  end.

End Text.

(** models/client.py *)
Module Client.

Record t : Type := {
  id : option Z;
  created_at : option Z;
  updated_at : option Z;
  name : string;
  email : string;
  phone : option string;
  company : option string;
  address : option string
}.

Definition with_id (v : option Z) (self : t) : t :=
  {| id := v; created_at := created_at self; updated_at := updated_at self;
     name := name self; email := email self; phone := phone self;
     company := company self; address := address self |}.

Definition with_updated_at (v : option Z) (self : t) : t :=
  {| id := id self; created_at := created_at self; updated_at := v;
     name := name self; email := email self; phone := phone self;
     company := company self; address := address self |}.

Definition with_name (v : string) (self : t) : t :=
  {| id := id self; created_at := created_at self;
     updated_at := updated_at self;
     name := v; email := email self; phone := phone self;
     company := company self; address := address self |}.

Definition with_email (v : string) (self : t) : t :=
  {| id := id self; created_at := created_at self;
     updated_at := updated_at self;
     name := name self; email := v; phone := phone self;
     company := company self; address := address self |}.

Definition with_phone (v : option string) (self : t) : t :=
  {| id := id self; created_at := created_at self;
     updated_at := updated_at self;
     name := name self; email := email self; phone := v;
     company := company self; address := address self |}.

Definition with_company (v : option string) (self : t) : t :=
  {| id := id self; created_at := created_at self;
     updated_at := updated_at self;
     name := name self; email := email self; phone := phone self;
     company := v; address := address self |}.

Definition with_address (v : option string) (self : t) : t :=
  {| id := id self; created_at := created_at self;
     updated_at := updated_at self;
     name := name self; email := email self; phone := phone self;
     company := company self; address := v |}.

(** BaseModel.update_timestamp *)
Definition update_timestamp (clk : Clock) (self : t) : t :=
  with_updated_at (Some (now clk)) self.

Definition post_init (self : t) : outcome t unit :=
  if negb (Py.nonempty (Py.strip (name self))) then Raise ValidationError self
  else if negb (Py.nonempty (Py.strip (email self)))
       then Raise ValidationError self
  else if negb (Text.contains "@" (email self)) then Raise ValidationError self
  else Return tt self.

(** [Client(...)] *)
Definition init (self : t) : result t := constructed (post_init self).

(** [Client.from_dict(data)]: the constructor on the values of the row. *)
Definition from_dict (data : t) : result t := init data.

(** [f"{self.name} ({self.company})" if self.company else self.name] *)
Definition display_name (self : t) : string :=
  if Py.nonempty_opt (company self)
  then match company self with
       | Some c => name self ++ " (" ++ c ++ ")"
       | None => name self
       end
  else name self.

End Client.

(** The setters of a project's fields that the services assign. *)
Module ProjectFields.

Definition with_id (v : option Z) (self : Project.t) : Project.t :=
  {| Project.id := v; Project.created_at := Project.created_at self;
     Project.updated_at := Project.updated_at self;
     Project.client_id := Project.client_id self;
     Project.name := Project.name self;
     Project.description := Project.description self;
     Project.hourly_rate := Project.hourly_rate self;
     Project.fixed_rate := Project.fixed_rate self;
     Project.hours_worked := Project.hours_worked self;
     Project.status := Project.status self |}.

Definition with_name (v : string) (self : Project.t) : Project.t :=
  {| Project.id := Project.id self;
     Project.created_at := Project.created_at self;
     Project.updated_at := Project.updated_at self;
     Project.client_id := Project.client_id self;
     Project.name := v;
     Project.description := Project.description self;
     Project.hourly_rate := Project.hourly_rate self;
     Project.fixed_rate := Project.fixed_rate self;
     Project.hours_worked := Project.hours_worked self;
     Project.status := Project.status self |}.

Definition with_description (v : option string) (self : Project.t)
    : Project.t :=
  {| Project.id := Project.id self;
     Project.created_at := Project.created_at self;
     Project.updated_at := Project.updated_at self;
     Project.client_id := Project.client_id self;
     Project.name := Project.name self;
     Project.description := v;
     Project.hourly_rate := Project.hourly_rate self;
     Project.fixed_rate := Project.fixed_rate self;
     Project.hours_worked := Project.hours_worked self;
     Project.status := Project.status self |}.

Definition with_hourly_rate (v : option float) (self : Project.t)
    : Project.t :=
  {| Project.id := Project.id self;
     Project.created_at := Project.created_at self;
     Project.updated_at := Project.updated_at self;
     Project.client_id := Project.client_id self;
     Project.name := Project.name self;
     Project.description := Project.description self;
     Project.hourly_rate := v;
     Project.fixed_rate := Project.fixed_rate self;
     Project.hours_worked := Project.hours_worked self;
     Project.status := Project.status self |}.

Definition with_fixed_rate (v : option float) (self : Project.t)
    : Project.t :=
  {| Project.id := Project.id self;
     Project.created_at := Project.created_at self;
     Project.updated_at := Project.updated_at self;
     Project.client_id := Project.client_id self;
     Project.name := Project.name self;
     Project.description := Project.description self;
     Project.hourly_rate := Project.hourly_rate self;
     Project.fixed_rate := v;
     Project.hours_worked := Project.hours_worked self;
     Project.status := Project.status self |}.

Definition with_status (v : ProjectStatus.t) (self : Project.t) : Project.t :=
  {| Project.id := Project.id self;
     Project.created_at := Project.created_at self;
     Project.updated_at := Project.updated_at self;
     Project.client_id := Project.client_id self;
     Project.name := Project.name self;
     Project.description := Project.description self;
     Project.hourly_rate := Project.hourly_rate self;
     Project.fixed_rate := Project.fixed_rate self;
     Project.hours_worked := Project.hours_worked self;
     Project.status := v |}.

Definition status_eqb (a b : ProjectStatus.t) : bool :=
  match a, b with
  | ProjectStatus.ACTIVE, ProjectStatus.ACTIVE
  | ProjectStatus.COMPLETED, ProjectStatus.COMPLETED
  | ProjectStatus.ON_HOLD, ProjectStatus.ON_HOLD
  | ProjectStatus.CANCELLED, ProjectStatus.CANCELLED => true
  | _, _ => false
  end.

(** [Project.from_dict(data)]: the status text of the row names a member
    of the enumeration, and the constructor runs on the values. *)
Definition from_dict (data : Project.t) : result Project.t :=
  Project.init data.

End ProjectFields.

(** config/database.py: the tables *)
Module Database.

Record t : Type := {
  clients : list Client.t;
  client_seq : Z;
  projects : list Project.t;
  project_seq : Z;
  billing : Store.t
}.

Definition with_clients (v : list Client.t) (seq : Z) (d : t) : t :=
  {| clients := v; client_seq := seq; projects := projects d;
     project_seq := project_seq d; billing := billing d |}.

Definition with_projects (v : list Project.t) (seq : Z) (d : t) : t :=
  {| clients := clients d; client_seq := client_seq d; projects := v;
     project_seq := seq; billing := billing d |}.

Definition with_billing (v : Store.t) (d : t) : t :=
  {| clients := clients d; client_seq := client_seq d;
     projects := projects d; project_seq := project_seq d; billing := v |}.

(** The largest identifier among rows. *)
Definition max_id (ids : list (option Z)) : Z :=
  fold_left Z.max
    (map (fun i => match i with Some j => j | None => 0 end) ids) 0.

(** Code of the invoice and payment repositories, run on the whole
    database. *)
Definition on_billing {A} (c : Py.M Store.t A) : Wide.M t A :=
  fun d => match c (billing d) with
           | Py.Return v s' => Wide.Return v (with_billing s' d)
           | Py.Raise e s' => Wide.Raise (Wide.Known e) (with_billing s' d)
           end.

End Database.

(** repositories/client_repository.py with repositories/base_repository.py *)
Module ClientRepository.

Local Open Scope wide_scope.

Definition row (i : Z) (d : Database.t) : option Client.t :=
  find (fun r => Store.has_id i (Client.id r)) (Database.clients d).

Definition has_email (email : string) (r : Client.t) : bool :=
  String.eqb (Client.email r) email.

Definition _row_to_model (row : Client.t) : Wide.M Database.t Client.t :=
  Wide.new (Client.from_dict row).

(** [self._row_to_model(row) if row else None] *)
Definition fetched (row : option Client.t)
    : Wide.M Database.t (option Client.t) :=
  match row with
  | Some r => client <- _row_to_model r ;; Wide.ret (Some client)
  | None => Wide.ret None
  end.

Definition find_by_id (i : Z) : Wide.M Database.t (option Client.t) :=
  fun d => fetched (row i d) d.

Definition find_by_email (email : string)
    : Wide.M Database.t (option Client.t) :=
  fun d => fetched (find (has_email email) (Database.clients d)) d.

Definition next_id (d : Database.t) : Z :=
  1 + Z.max (Database.client_seq d)
            (Database.max_id (map Client.id (Database.clients d))).

(** [INSERT INTO clients]: the column [email] is UNIQUE, and the
    IntegrityError of a second row with the same email leaves
    [get_connection] as DatabaseError, nothing inserted. *)
Definition create (client : Client.t) : Wide.M Database.t Client.t :=
  fun d =>
    if existsb (has_email (Client.email client)) (Database.clients d)
    then Wide.Raise (Wide.Known DatabaseError) d
    else
      let client1 := Client.with_id (Some (next_id d)) client in
      Wide.Return client1
        (Database.with_clients (Database.clients d ++ [client1]) (next_id d) d).

(** [UPDATE clients SET name, email, phone, company, address,
    updated_at = CURRENT_TIMESTAMP WHERE id = ?]: DatabaseError for the
    email of another row, and when no row was touched. *)
Definition update (clk : Clock) (client : Client.t)
    : Wide.M Database.t Client.t :=
  fun d =>
    let hit := fun r =>
      match Client.id client with
      | Some i => Store.has_id i (Client.id r)
      | None => false
      end in
    let clash := fun r => negb (hit r) && has_email (Client.email client) r in
    let write := fun r =>
      if hit r
      then Client.with_updated_at (Some (now clk))
             (Client.with_address (Client.address client)
                (Client.with_company (Client.company client)
                   (Client.with_phone (Client.phone client)
                      (Client.with_email (Client.email client)
                         (Client.with_name (Client.name client) r)))))
      else r in
    if existsb hit (Database.clients d) then
      if existsb clash (Database.clients d)
      then Wide.Raise (Wide.Known DatabaseError) d
      else Wide.Return client
             (Database.with_clients (map write (Database.clients d))
                (Database.client_seq d) d)
    else Wide.Raise (Wide.Known DatabaseError) d.

(** [DELETE FROM clients WHERE id = ?]; the result is [rowcount > 0]. *)
Definition delete (i : Z) : Wide.M Database.t bool :=
  fun d =>
    let hit := fun r => Store.has_id i (Client.id r) in
    Wide.Return (existsb hit (Database.clients d))
      (Database.with_clients
         (filter (fun r => negb (hit r)) (Database.clients d))
         (Database.client_seq d) d).

End ClientRepository.

(** services/client_service.py *)
Module ClientService.

Local Open Scope wide_scope.

(** [email.strip().lower()] *)
Definition normalise (email : string) : string := Text.lower (Py.strip email).

(** The object that the generated [__init__] of Client fills from the
    keywords of [create_client], the other fields at their defaults. *)
Definition client_of_keywords (clk : Clock) (name email : string)
    (phone company address : option string) : Client.t :=
  {| Client.id := None;
     Client.created_at := Some (now clk);
     Client.updated_at := Some (now clk);
     Client.name := Py.strip name;
     Client.email := normalise email;
     Client.phone := PaymentService.strip_or_none phone;
     Client.company := PaymentService.strip_or_none company;
     Client.address := PaymentService.strip_or_none address |}.

Definition create_client (clk : Clock) (name email : string)
    (phone company address : option string) : Wide.M Database.t Client.t :=
  existing <- ClientRepository.find_by_email email ;;
  match existing with
  | Some _ => Wide.raise (Wide.Known ValidationError)
  | None =>
      client <- Wide.new (Client.init
        (client_of_keywords clk name email phone company address)) ;;
      ClientRepository.create client
  end.

(** [if x is not None: client.x = x.strip() if x else None] *)
Definition assign (x : option string)
    (set : option string -> Client.t -> Client.t) (client : Client.t)
    : Client.t :=
  match x with
  | Some _ => set (PaymentService.strip_or_none x) client
  | None => client
  end.

Definition update_client (clk : Clock) (client_id : Z)
    (name email phone company address : option string)
    : Wide.M Database.t Client.t :=
  found <- ClientRepository.find_by_id client_id ;;
  match found with
  | None => Wide.raise Wide.ClientNotFoundError
  | Some client =>
      let client1 :=
        match name with
        | Some v => Client.with_name (Py.strip v) client
        | None => client
        end in
      client2 <-
        match email with
        | Some v =>
            existing <- ClientRepository.find_by_email (normalise v) ;;
            match existing with
            | Some other =>
                if negb (Store.has_id client_id (Client.id other))
                then Wide.raise (Wide.Known ValidationError)
                else Wide.ret (Client.with_email (normalise v) client1)
            | None => Wide.ret (Client.with_email (normalise v) client1)
            end
        | None => Wide.ret client1
        end ;;
      let client3 := assign phone Client.with_phone client2 in
      let client4 := assign company Client.with_company client3 in
      let client5 := assign address Client.with_address client4 in
      ClientRepository.update clk (Client.update_timestamp clk client5)
  end.

Definition delete_client (client_id : Z) : Wide.M Database.t bool :=
  found <- ClientRepository.find_by_id client_id ;;
  match found with
  | None => Wide.raise Wide.ClientNotFoundError
  | Some _ => ClientRepository.delete client_id
  end.

Definition get_client (client_id : Z) : Wide.M Database.t Client.t :=
  found <- ClientRepository.find_by_id client_id ;;
  match found with
  | None => Wide.raise Wide.ClientNotFoundError
  | Some client => Wide.ret client
  end.

End ClientService.

(** repositories/project_repository.py with repositories/base_repository.py

    A REAL column holds no NaN: SQLite stores a NaN as NULL, be it a
    parameter or the result of an addition.  A rate of a row is therefore
    a number or NULL, which is None.  The column [hours_worked] of a row
    is a number or NULL as well; in a row, and in the object loaded from
    it, the NaN of the embedding stands for this NULL, where Python has
    None.  The sum of SQL, which is NULL when an operand is, is then the
    sum of the floats. *)
Module ProjectRepository.

Local Open Scope wide_scope.

Definition real (x : option float) : option float :=
  match x with
  | Some v => if PrimFloat.is_nan v then None else Some v
  | None => None
  end.

(** The values of an object as the columns of a row take them. *)
Definition columns (project : Project.t) : Project.t :=
  ProjectFields.with_fixed_rate (real (Project.fixed_rate project))
    (ProjectFields.with_hourly_rate (real (Project.hourly_rate project))
       project).

Definition row (i : Z) (d : Database.t) : option Project.t :=
  find (fun r => Store.has_id i (Project.id r)) (Database.projects d).

Definition _row_to_model (row : Project.t) : Wide.M Database.t Project.t :=
  Wide.new (ProjectFields.from_dict row).

(** [self._row_to_model(row) if row else None] *)
Definition fetched (row : option Project.t)
    : Wide.M Database.t (option Project.t) :=
  match row with
  | Some r => project <- _row_to_model r ;; Wide.ret (Some project)
  | None => Wide.ret None
  end.

Definition find_by_id (i : Z) : Wide.M Database.t (option Project.t) :=
  fun d => fetched (row i d) d.

Definition next_id (d : Database.t) : Z :=
  1 + Z.max (Database.project_seq d)
            (Database.max_id (map Project.id (Database.projects d))).

(** [INSERT INTO projects]: the object receives the identifier of the new
    row. *)
Definition create (project : Project.t) : Wide.M Database.t Project.t :=
  fun d =>
    let project1 := ProjectFields.with_id (Some (next_id d)) project in
    Wide.Return project1
      (Database.with_projects (Database.projects d ++ [columns project1])
         (next_id d) d).

(** [UPDATE projects SET name, description, hourly_rate, fixed_rate,
    hours_worked, status, updated_at = CURRENT_TIMESTAMP WHERE id = ?],
    committed; then DatabaseError when no row was touched. *)
Definition update (clk : Clock) (project : Project.t)
    : Wide.M Database.t Project.t :=
  fun d =>
    let hit := fun r =>
      match Project.id project with
      | Some i => Store.has_id i (Project.id r)
      | None => false
      end in
    let write := fun r =>
      if hit r
      then Project.with_updated_at (Some (now clk))
             (ProjectFields.with_status (Project.status project)
                (Project.with_hours_worked (Project.hours_worked project)
                   (ProjectFields.with_fixed_rate
                      (real (Project.fixed_rate project))
                      (ProjectFields.with_hourly_rate
                         (real (Project.hourly_rate project))
                         (ProjectFields.with_description
                            (Project.description project)
                            (ProjectFields.with_name (Project.name project)
                               r))))))
      else r in
    if existsb hit (Database.projects d)
    then Wide.Return project
           (Database.with_projects (map write (Database.projects d))
              (Database.project_seq d) d)
    else Wide.Raise (Wide.Known DatabaseError) d.

(** [UPDATE projects SET hours_worked = hours_worked + ?,
    updated_at = CURRENT_TIMESTAMP WHERE id = ?]; the result is
    [rowcount > 0]. *)
Definition update_hours_worked (clk : Clock) (project_id : Z) (hours : float)
    : Wide.M Database.t bool :=
  fun d =>
    let hit := fun r => Store.has_id project_id (Project.id r) in
    let write := fun r =>
      if hit r
      then Project.with_updated_at (Some (now clk))
             (Project.with_hours_worked (Project.hours_worked r + hours)%float
                r)
      else r in
    Wide.Return (existsb hit (Database.projects d))
      (Database.with_projects (map write (Database.projects d))
         (Database.project_seq d) d).

(** [project.hourly_rate * project.hours_worked] on a loaded project:
    TypeError when the hours are None. *)
Definition hourly_amount (project : Project.t) (rate : float)
    : Wide.M Database.t float :=
  if PrimFloat.is_nan (Project.hours_worked project)
  then Wide.raise (Wide.Known TypeError)
  else Wide.ret (rate * Project.hours_worked project)%float.

Definition get_project_earnings (project_id : Z) : Wide.M Database.t float :=
  found <- find_by_id project_id ;;
  match found with
  | None => Wide.ret 0%float
  | Some project =>
      match Project.fixed_rate project, Project.hourly_rate project with
      | Some f, Some r =>
          if Py.truthy f then Wide.ret f
          else if Py.truthy r then hourly_amount project r
          else Wide.ret 0%float
      | Some f, None => if Py.truthy f then Wide.ret f else Wide.ret 0%float
      | None, Some r =>
          if Py.truthy r then hourly_amount project r else Wide.ret 0%float
      | None, None => Wide.ret 0%float
      end
  end.

(** [DELETE FROM projects WHERE id = ?]; the result is [rowcount > 0]. *)
Definition delete (i : Z) : Wide.M Database.t bool :=
  fun d =>
    let hit := fun r => Store.has_id i (Project.id r) in
    Wide.Return (existsb hit (Database.projects d))
      (Database.with_projects
         (filter (fun r => negb (hit r)) (Database.projects d))
         (Database.project_seq d) d).

End ProjectRepository.

(** services/project_service.py *)
Module ProjectService.

Local Open Scope wide_scope.

(** [x and x <= 0] for an optional rate. *)
Definition set_and_nonpositive (x : option float) : bool :=
  match x with
  | Some v => Py.truthy v && (v <=? 0)%float
  | None => false
  end.

(** The object that the generated [__init__] of Project fills from the
    keywords of [create_project], the other fields at their defaults. *)
Definition project_of_keywords (clk : Clock) (client_id : Z) (name : string)
    (description : option string) (hourly_rate fixed_rate : option float)
    : Project.t :=
  {| Project.id := None;
     Project.created_at := Some (now clk);
     Project.updated_at := Some (now clk);
     Project.client_id := client_id;
     Project.name := Py.strip name;
     Project.description := PaymentService.strip_or_none description;
     Project.hourly_rate := hourly_rate;
     Project.fixed_rate := fixed_rate;
     Project.hours_worked := 0%float;
     Project.status := ProjectStatus.ACTIVE |}.

Definition create_project (clk : Clock) (client_id : Z) (name : string)
    (description : option string) (hourly_rate fixed_rate : option float)
    : Wide.M Database.t Project.t :=
  client <- ClientRepository.find_by_id client_id ;;
  match client with
  | None => Wide.raise Wide.ClientNotFoundError
  | Some _ =>
      if negb (Py.truthy_opt hourly_rate) && negb (Py.truthy_opt fixed_rate)
      then Wide.raise (Wide.Known ValidationError)
      else if Py.truthy_opt hourly_rate && Py.truthy_opt fixed_rate
      then Wide.raise (Wide.Known ValidationError)
      else if set_and_nonpositive hourly_rate
      then Wide.raise (Wide.Known ValidationError)
      else if set_and_nonpositive fixed_rate
      then Wide.raise (Wide.Known ValidationError)
      else
        project <- Wide.new (Project.init
          (project_of_keywords clk client_id name description hourly_rate
             fixed_rate)) ;;
        ProjectRepository.create project
  end.

Definition update_project (clk : Clock) (project_id : Z)
    (name description : option string) (hourly_rate fixed_rate : option float)
    (status : option ProjectStatus.t) : Wide.M Database.t Project.t :=
  found <- ProjectRepository.find_by_id project_id ;;
  match found with
  | None => Wide.raise Wide.ProjectNotFoundError
  | Some project =>
      let project1 :=
        match name with
        | Some v => ProjectFields.with_name (Py.strip v) project
        | None => project
        end in
      let project2 :=
        match description with
        | Some _ =>
            ProjectFields.with_description
              (PaymentService.strip_or_none description) project1
        | None => project1
        end in
      project3 <-
        match hourly_rate with
        | Some h =>
            if (h <=? 0)%float then Wide.raise (Wide.Known ValidationError)
            else Wide.ret (ProjectFields.with_fixed_rate None
                             (ProjectFields.with_hourly_rate (Some h)
                                project2))
        | None => Wide.ret project2
        end ;;
      project4 <-
        match fixed_rate with
        | Some f =>
            if (f <=? 0)%float then Wide.raise (Wide.Known ValidationError)
            else Wide.ret (ProjectFields.with_hourly_rate None
                             (ProjectFields.with_fixed_rate (Some f)
                                project3))
        | None => Wide.ret project3
        end ;;
      let project5 :=
        match status with
        | Some v => ProjectFields.with_status v project4
        | None => project4
        end in
      ProjectRepository.update clk (Project.update_timestamp clk project5)
  end.

Definition add_hours_to_project (clk : Clock) (project_id : Z)
    (hours : float) : Wide.M Database.t Project.t :=
  found <- ProjectRepository.find_by_id project_id ;;
  match found with
  | None => Wide.raise Wide.ProjectNotFoundError
  | Some project =>
      if negb (Py.truthy_opt (Project.hourly_rate project))
      then Wide.raise (Wide.Known ValidationError)
      else if (hours <=? 0)%float
      then Wide.raise (Wide.Known ValidationError)
      else if negb (ProjectFields.status_eqb (Project.status project)
                      ProjectStatus.ACTIVE)
      then Wide.raise (Wide.Known ValidationError)
      else
        ProjectRepository.update_hours_worked clk project_id hours ;;;
        updated_project <- ProjectRepository.find_by_id project_id ;;
        match updated_project with
        | Some updated => Wide.ret updated
        | None => Wide.raise (Wide.Known AttributeError)
        end
  end.

(** The three transitions: a guard on the status of the loaded project,
    then the new status, the timestamp and the update. *)
Definition transition (clk : Clock) (project_id : Z)
    (refused : ProjectStatus.t -> bool) (target : ProjectStatus.t)
    : Wide.M Database.t Project.t :=
  found <- ProjectRepository.find_by_id project_id ;;
  match found with
  | None => Wide.raise Wide.ProjectNotFoundError
  | Some project =>
      if refused (Project.status project)
      then Wide.raise (Wide.Known ValidationError)
      else
        ProjectRepository.update clk
          (Project.update_timestamp clk
             (ProjectFields.with_status target project))
  end.

Definition complete_project (clk : Clock) (project_id : Z)
    : Wide.M Database.t Project.t :=
  transition clk project_id
    (fun s => ProjectFields.status_eqb s ProjectStatus.COMPLETED)
    ProjectStatus.COMPLETED.

Definition pause_project (clk : Clock) (project_id : Z)
    : Wide.M Database.t Project.t :=
  transition clk project_id
    (fun s => negb (ProjectFields.status_eqb s ProjectStatus.ACTIVE))
    ProjectStatus.ON_HOLD.

Definition resume_project (clk : Clock) (project_id : Z)
    : Wide.M Database.t Project.t :=
  transition clk project_id
    (fun s => negb (ProjectFields.status_eqb s ProjectStatus.ON_HOLD))
    ProjectStatus.ACTIVE.

Definition delete_project (project_id : Z) : Wide.M Database.t bool :=
  found <- ProjectRepository.find_by_id project_id ;;
  match found with
  | None => Wide.raise Wide.ProjectNotFoundError
  | Some _ => ProjectRepository.delete project_id
  end.

Definition get_project (project_id : Z) : Wide.M Database.t Project.t :=
  found <- ProjectRepository.find_by_id project_id ;;
  match found with
  | None => Wide.raise Wide.ProjectNotFoundError
  | Some project => Wide.ret project
  end.

Definition get_project_earnings (project_id : Z) : Wide.M Database.t float :=
  ProjectRepository.get_project_earnings project_id.

End ProjectService.

(** The dates that [datetime.date] holds, as day numbers counted from
    1970-01-01, and the days that [timedelta] takes. *)
Module Dates.

Definition min_day : Z := -719162.

Definition max_day : Z := 2932896.

Definition max_delta : Z := 999999999.

(** [day + timedelta(days=n)]: OverflowError from [timedelta] for too many
    days, and from the sum for a date out of range. *)
Definition add_days {S : Type} (day n : Z) : Wide.M S Z :=
  if (n <? - max_delta) || (max_delta <? n) then Wide.raise Wide.OverflowError
  else if (day + n <? min_day) || (max_day <? day + n)
  then Wide.raise Wide.OverflowError
  else Wide.ret (day + n).

End Dates.

(** services/invoice_service.py: [create_invoice], with the rows of
    repositories/invoice_repository.py *)
Module InvoiceCreation.

Local Open Scope wide_scope.

(** [_row_to_model], for the rows that [create] writes. *)
Definition _row_to_model (clk : Clock) (row : Invoice.t)
    (item_rows : list (string * float * float)) : result Invoice.t :=
  InvoiceLoader._row_to_model clk row item_rows.

Definition has_number (number : string) (r : Invoice.t) : bool :=
  String.eqb (Invoice.invoice_number r) number.

(** [INSERT INTO invoices]: [invoice_number] is UNIQUE, [subtotal] and
    [total_amount] are NOT NULL, which a NaN would be; the IntegrityError
    leaves [get_connection] as DatabaseError, nothing inserted. *)
Definition create (invoice : Invoice.t) : Wide.M Database.t Invoice.t :=
  fun d =>
    if existsb (has_number (Invoice.invoice_number invoice))
         (Store.invoices (Database.billing d))
       || PrimFloat.is_nan (Invoice.subtotal invoice)
       || PrimFloat.is_nan (Invoice.total_amount invoice)
    then Wide.Raise (Wide.Known DatabaseError) d
    else Database.on_billing (InvoiceRepository.create invoice) d.

(** [project.calculate_amount()] on a loaded project: TypeError from the
    product when the hours are None. *)
Definition calculate_amount (project : Project.t)
    : Wide.M Database.t float :=
  if negb (Py.truthy_opt (Project.fixed_rate project))
     && Py.truthy_opt (Project.hourly_rate project)
     && PrimFloat.is_nan (Project.hours_worked project)
  then Wide.raise (Wide.Known TypeError)
  else Wide.ret (Project.calculate_amount project).

(** The object that the generated [__init__] of Invoice fills from the
    keywords of [create_invoice], the other fields at their defaults. *)
Definition invoice_of_keywords (clk : Clock) (client_id : Z)
    (project_id : option Z) (due_date : Z) (notes : option string)
    : Invoice.t :=
  {| Invoice.id := None;
     Invoice.created_at := Some (now clk);
     Invoice.updated_at := Some (now clk);
     Invoice.invoice_number := EmptyString;
     Invoice.client_id := client_id;
     Invoice.project_id := project_id;
     Invoice.items := [];
     Invoice.subtotal := 0%float;
     Invoice.tax_amount := 0%float;
     Invoice.total_amount := 0%float;
     Invoice.status := InvoiceStatus.DRAFT;
     Invoice.issue_date := today clk;
     Invoice.due_date := due_date;
     Invoice.notes := notes |}.

(** [if project_id: ...]: the project of the invoice, None when no
    identifier or zero was given. *)
Definition project_of (client_id : Z) (project_id : option Z)
    : Wide.M Database.t (option Project.t) :=
  match project_id with
  | Some pid =>
      if pid =? 0 then Wide.ret None
      else
        found <- ProjectRepository.find_by_id pid ;;
        match found with
        | None => Wide.raise (Wide.Known ValidationError)
        | Some project =>
            if negb (Project.client_id project =? client_id)
            then Wide.raise (Wide.Known ValidationError)
            else Wide.ret (Some project)
        end
  | None => Wide.ret None
  end.

Section Description.

(** The text that the f-string makes of the hours and the rate:
    [f" ({project.hours_worked} hours @ ...{project.hourly_rate}/hr)"]. *)
Variable hours_at_rate : float -> float -> string.

Definition work_description (project : Project.t) : string :=
  let description := "Work on project: " ++ Project.name project in
  match Project.hourly_rate project with
  | Some r =>
      if Py.truthy r
      then description ++ hours_at_rate (Project.hours_worked project) r
      else description
  | None => description
  end.

Definition create_invoice (clk : Clock) (client_id : Z)
    (project_id : option Z) (due_days : Z) (notes : option string)
    : Wide.M Database.t Invoice.t :=
  client <- ClientRepository.find_by_id client_id ;;
  match client with
  | None => Wide.raise Wide.ClientNotFoundError
  | Some _ =>
      project <- project_of client_id project_id ;;
      due_date <- Dates.add_days (today clk) due_days ;;
      invoice <- Wide.new (constructed (Invoice.post_init clk
                   (invoice_of_keywords clk client_id project_id due_date
                      notes))) ;;
      invoice1 <-
        match project with
        | Some p =>
            amount <- calculate_amount p ;;
            if (0 <? amount)%float then
              r <- Wide.call (Invoice.add_item clk (work_description p)
                                1%float amount invoice) ;;
              Wide.ret (snd r)
            else Wide.ret invoice
        | None => Wide.ret invoice
        end ;;
      create invoice1
  end.

End Description.

End InvoiceCreation.

(** What [__post_init__] of Project asks. *)
Definition project_loads (r : Project.t) : bool :=
  Py.nonempty (Py.strip (Project.name r))
  && (0 <? Project.client_id r)
  && (Py.truthy_opt (Project.hourly_rate r)
      || Py.truthy_opt (Project.fixed_rate r))
  && negb (Project.set_and_negative (Project.hourly_rate r))
  && negb (Project.set_and_negative (Project.fixed_rate r)).

(** A rate that is NaN. *)
Definition nan_rate (x : option float) : bool :=
  match x with
  | Some v => PrimFloat.is_nan v
  | None => false
  end.

(** An object whose rates a row can hold. *)
Definition real_rates (r : Project.t) : bool :=
  negb (nan_rate (Project.hourly_rate r))
  && negb (nan_rate (Project.fixed_rate r)).

(** A transition that is not refused: the project comes back with the new
    status and the new timestamp, and its row holds the new status. *)
Definition moved (clk : Clock) (i : Z) (p : Project.t)
    (target : ProjectStatus.t) (d : Database.t)
    (o : Wide.outcome Database.t Project.t) : Prop :=
  exists d',
    o = Wide.Return
          (Project.update_timestamp clk (ProjectFields.with_status target p))
          d'
    /\ option_map Project.status (ProjectRepository.row i d') = Some target
    /\ (forall j, j <> i ->
          ProjectRepository.row j d' = ProjectRepository.row j d)
    /\ Database.clients d' = Database.clients d
    /\ Database.billing d' = Database.billing d.

(** The constraints that the clients table declares: the primary key and
    the UNIQUE column. *)
Definition keyed_clients (d : Database.t) : Prop :=
  NoDup (map Client.id (Database.clients d))
  /\ NoDup (map Client.email (Database.clients d)).

(** What [__post_init__] of Client asks of the name and the email. *)
Definition client_loads (r : Client.t) : bool :=
  Py.nonempty (Py.strip (Client.name r))
  && Py.nonempty (Py.strip (Client.email r))
  && Text.contains "@" (Client.email r).

(** A database with two clients. *)
Module Samples.

Definition asha : Client.t :=
  {| Client.id := Some 1;
     Client.created_at := Some 1716000000;
     Client.updated_at := Some 1716000000;
     Client.name := "Asha Rao";
     Client.email := "asha@acme.example";
     Client.phone := None;
     Client.company := Some "Acme";
     Client.address := None |}.

Definition lee : Client.t :=
  {| Client.id := Some 2;
     Client.created_at := Some 1716100000;
     Client.updated_at := Some 1716100000;
     Client.name := "Lee";
     Client.email := "lee@studio.example";
     Client.phone := Some "555 0100";
     Client.company := None;
     Client.address := None |}.

(** The client that [create_client] makes at the clock of the examples
    from the name " Mira " and the email " Mira@Dock.example". *)
Definition mira : Client.t :=
  {| Client.id := Some 3;
     Client.created_at := Some 1718000000;
     Client.updated_at := Some 1718000000;
     Client.name := "Mira";
     Client.email := "mira@dock.example";
     Client.phone := None;
     Client.company := None;
     Client.address := None |}.

(** An hourly project of the first client and a project at a fixed
    price of the second. *)
Definition website : Project.t :=
  {| Project.id := Some 1;
     Project.created_at := Some 1716200000;
     Project.updated_at := Some 1716200000;
     Project.client_id := 1;
     Project.name := "Website";
     Project.description := None;
     Project.hourly_rate := Some 50%float;
     Project.fixed_rate := None;
     Project.hours_worked := 12%float;
     Project.status := ProjectStatus.ACTIVE |}.

Definition logo : Project.t :=
  {| Project.id := Some 2;
     Project.created_at := Some 1716300000;
     Project.updated_at := Some 1716300000;
     Project.client_id := 2;
     Project.name := "Logo";
     Project.description := Some "Two drafts";
     Project.hourly_rate := None;
     Project.fixed_rate := Some 800%float;
     Project.hours_worked := 0%float;
     Project.status := ProjectStatus.ON_HOLD |}.

Definition database : Database.t :=
  {| Database.clients := [asha; lee];
     Database.client_seq := 2;
     Database.projects := [website; logo];
     Database.project_seq := 2;
     Database.billing := Examples.sent_with_two_payments |}.

Definition with_mira : Database.t :=
  Database.with_clients [asha; lee; mira] 3 database.

End Samples.

(** ** Comparisons of floats with zero *)

Ltac by_float_cases v :=
  rewrite ?FloatAxioms.eqb_spec, ?FloatAxioms.ltb_spec;
  change (Prim2SF 0) with (S754_zero false);
  unfold SFeqb, SFltb;
  destruct (Prim2SF v) as [[]|[]| |[] ? ?]; simpl.

Lemma nonzero_of_negative (v : float) :
  (v <? 0)%float = true -> Py.truthy v = true.
Proof.
  unfold Py.truthy. by_float_cases v; intros H; try discriminate; reflexivity.
Qed.

Lemma positive_or_nan (v : float) :
  Py.truthy v = true -> (v <? 0)%float = false ->
  (0 <? v)%float = true \/ PrimFloat.is_nan v = true.
Proof.
  unfold Py.truthy, PrimFloat.is_nan.
  by_float_cases v; intros H1 H2; try discriminate;
    try (left; reflexivity); right; reflexivity.
Qed.

(** ** Invoice totals *)

Lemma amounts_of_built (items : list InvoiceItem.t) :
  Forall built items -> map InvoiceItem.amount items = map line_total items.
Proof.
  induction 1 as [|i items Hi _ IH]; simpl.
  - reflexivity.
  - rewrite IH. unfold built in Hi. rewrite Hi. reflexivity.
Qed.

Lemma built_init (d : string) (q r : float) : built (InvoiceItem.init d q r).
Proof. reflexivity. Qed.

Lemma add_item_returns (clk : Clock) (d : string) (q r : float)
    (inv inv' : Invoice.t) :
  Invoice.add_item clk d q r inv = Return tt inv' ->
  inv' = Invoice.calculate_totals clk
           (Invoice.with_items
              (Invoice.items inv ++ [InvoiceItem.init d q r])%list inv).
Proof.
  unfold Invoice.add_item.
  destruct (negb (nonempty (strip d))); [discriminate|].
  destruct (q <=? 0)%float; [discriminate|].
  destruct (r <? 0)%float; [discriminate|].
  intros H. injection H as <-. reflexivity.
Qed.

(** C4.  When [add_item] has added an item to an invoice whose items were
    built by the constructor, the new item is the last one, the subtotal is
    the sum of quantity times rate over the items in that order, the tax is
    the subtotal times the configured rate and the total is subtotal plus
    tax; recomputing the totals again changes none of the three; and when
    the items are ("Design", 10, 100.00) and ("Dev", 5, 200.00), at the
    configured rate 0.18, the totals are 2000.00, 360.00 and 2360.00. *)
Theorem totals_recomputed (clk : Clock) (d : string) (q r : float)
    (inv inv' : Invoice.t) :
  Forall built (Invoice.items inv) ->
  Invoice.add_item clk d q r inv = Return tt inv' ->
  Invoice.items inv' = (Invoice.items inv ++ [InvoiceItem.init d q r])%list
  /\ Invoice.subtotal inv' = Py.sum (map line_total (Invoice.items inv'))
  /\ Invoice.tax_amount inv'
     = (Invoice.subtotal inv' * Settings.tax_rate Settings.invoice)%float
  /\ Invoice.total_amount inv'
     = (Invoice.subtotal inv' + Invoice.tax_amount inv')%float
  /\ (forall clk', totals (Invoice.calculate_totals clk' inv') = totals inv')
  /\ (Invoice.items inv' = Examples.design_and_dev ->
      totals inv' = (2000%float, 360%float, 2360%float)).
Proof.
  intros Hbuilt Hadd.
  apply add_item_returns in Hadd. subst inv'.
  assert (Hall : Forall built
                   (Invoice.items inv ++ [InvoiceItem.init d q r])%list).
  { apply Forall_app. split; [assumption|].
    constructor; [apply built_init|constructor]. }
  split; [reflexivity|].
  split.
  { simpl. rewrite (amounts_of_built _ Hall). reflexivity. }
  split; [reflexivity|].
  split; [reflexivity|].
  split.
  { intros clk'. reflexivity. }
  simpl. intros Hitems. unfold totals. simpl. rewrite Hitems.
  vm_compute. reflexivity.
Qed.

Lemma totals_recomputed_witness :
  totals (Invoice.calculate_totals Examples.clock
            (Invoice.with_items Examples.design_and_dev
               (Examples.blank_invoice 1 InvoiceStatus.DRAFT 19902)))
  = (2000%float, 360%float, 2360%float).
Proof.
  refine (proj2 (proj2 (proj2 (proj2 (proj2
            (totals_recomputed Examples.clock "Dev" 5%float 200%float
               (Invoice.with_items
                  [InvoiceItem.init "Design" 10%float 100%float]
                  (Examples.blank_invoice 1 InvoiceStatus.DRAFT 19902))
               _ _ _))))) _).
  - repeat constructor.
  - vm_compute. reflexivity.
  - reflexivity.
Defined.

(** ** Payment cancellation *)

(** C9.  Cancelling a completed payment raises ValidationError and leaves
    the payment as it was; cancelling a payment in any other status returns
    and leaves it cancelled, with the same identifier, invoice and
    amount. *)
Theorem cancel_payment_outcome (clk : Clock) (reason : option string)
    (p : Payment.t) :
  match Payment.status p with
  | PaymentStatus.COMPLETED =>
      Payment.cancel_payment clk reason p = Raise ValidationError p
  | _ =>
      exists p',
        Payment.cancel_payment clk reason p = Return tt p'
        /\ Payment.status p' = PaymentStatus.CANCELLED
        /\ Payment.id p' = Payment.id p
        /\ Payment.invoice_id p' = Payment.invoice_id p
        /\ Payment.amount p' = Payment.amount p
  end.
Proof.
  unfold Payment.cancel_payment.
  destruct (Payment.status p) eqn:Hst; simpl; try reflexivity;
    (eexists; split; [reflexivity|]);
    destruct reason as [r|]; simpl;
      try (destruct (nonempty r); simpl; unfold Payment.annotate;
           try destruct (negb (nonempty_opt (Payment.notes _))); simpl);
      repeat split; reflexivity.
Qed.

(** ** Project pricing *)

(** C8, as amended.  A project that the constructor returns is the one it
    was given, has at least one of its two rates set (neither None nor
    zero), and each rate that is set is greater than zero or not a number;
    both rates may be set.  The constructor raises ValidationError when no
    rate is set and when a rate is below zero, and it raises nothing
    else. *)
Theorem project_pricing (p : Project.t) :
  (forall p', Project.init p = Ok p' ->
     p' = p
     /\ (Py.truthy_opt (Project.hourly_rate p) = true
         \/ Py.truthy_opt (Project.fixed_rate p) = true)
     /\ (forall v, Project.hourly_rate p = Some v -> Py.truthy v = true ->
         (0 <? v)%float = true \/ PrimFloat.is_nan v = true)
     /\ (forall v, Project.fixed_rate p = Some v -> Py.truthy v = true ->
         (0 <? v)%float = true \/ PrimFloat.is_nan v = true))
  /\ (Py.truthy_opt (Project.hourly_rate p) = false ->
      Py.truthy_opt (Project.fixed_rate p) = false ->
      Project.init p = Err ValidationError)
  /\ (forall v,
        Project.hourly_rate p = Some v \/ Project.fixed_rate p = Some v ->
        (v <? 0)%float = true -> Project.init p = Err ValidationError)
  /\ (forall e, Project.init p = Err e -> e = ValidationError).
Proof.
  unfold Project.init, Project.post_init, constructed.
  destruct (negb (nonempty (strip (Project.name p)))).
  { repeat split; try discriminate; try reflexivity; intros;
      match goal with H : Err _ = Err _ |- _ => injection H as <- end;
      reflexivity. }
  destruct (Project.client_id p <=? 0).
  { repeat split; try discriminate; try reflexivity; intros;
      match goal with H : Err _ = Err _ |- _ => injection H as <- end;
      reflexivity. }
  destruct (truthy_opt (Project.hourly_rate p)) eqn:Hh;
    destruct (truthy_opt (Project.fixed_rate p)) eqn:Hf; simpl;
    destruct (Project.set_and_negative (Project.hourly_rate p)) eqn:Nh;
    destruct (Project.set_and_negative (Project.fixed_rate p)) eqn:Nf; simpl.
  all: split; [intros p' Hok; try discriminate|].
  all: try (injection Hok as <-; split; [reflexivity|]; split; [tauto|];
            split; intros v Hv Ht; apply positive_or_nan; try assumption;
            [rewrite Hv in Nh|rewrite Hv in Nf]; simpl in *;
            rewrite Ht in *; simpl in *; assumption).
  all: split; [intros; try discriminate; try reflexivity|].
  all: split; [|intros e He; try discriminate; injection He as <-; reflexivity].
  all: intros v [Hv|Hv] Hneg; try reflexivity.
  all: pose proof (nonzero_of_negative v Hneg) as Ht.
  all: try (rewrite Hv in Hh; simpl in Hh; congruence).
  all: try (rewrite Hv in Hf; simpl in Hf; congruence).
  all: try (rewrite Hv in Nh; simpl in Nh; rewrite Ht, Hneg in Nh; discriminate).
  all: try (rewrite Hv in Nf; simpl in Nf; rewrite Ht, Hneg in Nf; discriminate).
Qed.

Lemma project_pricing_witness :
  Project.init (Examples.project_priced (Some (-50)%float) None)
  = Err ValidationError.
Proof.
  refine (proj1 (proj2 (proj2
            (project_pricing
               (Examples.project_priced (Some (-50)%float) None))))
            (-50)%float _ _).
  - left. reflexivity.
  - vm_compute. reflexivity.
Defined.

(** C8 as stated fails: a project with both an hourly rate and a fixed rate
    is constructed. *)
Lemma project_both_rates :
  Project.init Examples.doubly_priced = Ok Examples.doubly_priced
  /\ Project.hourly_rate Examples.doubly_priced = Some 50%float
  /\ Project.fixed_rate Examples.doubly_priced = Some 1000%float.
Proof. repeat split. Qed.

(** ** The report of the outstanding invoices *)

Lemma bucket_eq_dec (a b : bucket) : {a = b} + {a <> b}.
Proof. decide equality. Qed.

Lemma categorize_select (today : Z) (b : bucket) (acc : ReportMenu.Aging)
    (y : Invoice.t) :
  select b (ReportMenu.categorize today acc y)
  = if bucket_eq_dec (bucket_of (today - Invoice.due_date y)) b
    then (select b acc ++ [y])%list
    else select b acc.
Proof.
  unfold ReportMenu.categorize, ReportMenu.days_overdue, bucket_of.
  destruct (today - Invoice.due_date y <=? 0);
    [|destruct (today - Invoice.due_date y <=? 30);
      [|destruct (today - Invoice.due_date y <=? 60)]];
    destruct b; simpl;
    match goal with
    | |- context [bucket_eq_dec ?x ?y] => destruct (bucket_eq_dec x y)
    end; try reflexivity; congruence.
Qed.

Lemma categorize_all_select (today : Z) (b : bucket) (l : list Invoice.t)
    (acc : ReportMenu.Aging) (x : Invoice.t) :
  In x (select b (fold_left (ReportMenu.categorize today) l acc))
  <-> In x (select b acc)
      \/ (In x l /\ bucket_of (today - Invoice.due_date x) = b).
Proof.
  revert acc. induction l as [|y l IH]; intros acc; simpl.
  - tauto.
  - rewrite IH, categorize_select.
    destruct (bucket_eq_dec (bucket_of (today - Invoice.due_date y)) b)
      as [Hb|Hb].
    + rewrite in_app_iff. simpl. split.
      * intros [[H|[<-|[]]]|H]; tauto.
      * intros [H|[[<-|H] Hd]]; tauto.
    + split.
      * intros [H|H]; tauto.
      * intros [H|[[<-|H] Hd]]; [tauto|contradiction|tauto].
Qed.

Lemma bucket_of_spec (d : Z) :
  (bucket_of d = Current <-> d <= 0)
  /\ (bucket_of d = Upto30 <-> 1 <= d <= 30)
  /\ (bucket_of d = Upto60 <-> 31 <= d <= 60)
  /\ (bucket_of d = Beyond <-> 60 < d).
Proof.
  unfold bucket_of.
  destruct (d <=? 0) eqn:H0; [apply Z.leb_le in H0|apply Z.leb_gt in H0].
  { repeat split; intros; try discriminate; try lia. }
  destruct (d <=? 30) eqn:H1; [apply Z.leb_le in H1|apply Z.leb_gt in H1].
  { repeat split; intros; try discriminate; try lia. }
  destruct (d <=? 60) eqn:H2; [apply Z.leb_le in H2|apply Z.leb_gt in H2].
  { repeat split; intros; try discriminate; try lia. }
  repeat split; intros; try discriminate; try lia.
Qed.

(** The loop of [_outstanding_invoices], for the list it would be given:
    every invoice of the list is put in the category that the number of
    days from its due date to today selects, and in no other. *)
Lemma aging_loop (today : Z) (outstanding : list Invoice.t)
    (inv : Invoice.t) :
  In inv outstanding ->
  let days := today - Invoice.due_date inv in
  let cs := ReportMenu.categories today outstanding in
  (In inv (ReportMenu.category "Current (Not Yet Due)" cs) <-> days <= 0)
  /\ (In inv (ReportMenu.category "1-30 Days Overdue" cs) <-> 1 <= days <= 30)
  /\ (In inv (ReportMenu.category "31-60 Days Overdue" cs)
      <-> 31 <= days <= 60)
  /\ (In inv (ReportMenu.category "60+ Days Overdue" cs) <-> 60 < days).
Proof.
  intros Hin days cs.
  assert (Hsel : forall b,
             In inv (select b (ReportMenu.categorize_all today outstanding))
             <-> bucket_of days = b).
  { intros b. unfold ReportMenu.categorize_all.
    rewrite categorize_all_select. destruct b; simpl; tauto. }
  destruct (bucket_of_spec days) as (Hc & H30 & H60 & H90).
  assert (E0 : ReportMenu.category "Current (Not Yet Due)" cs
               = select Current (ReportMenu.categorize_all today outstanding))
    by reflexivity.
  assert (E1 : ReportMenu.category "1-30 Days Overdue" cs
               = select Upto30 (ReportMenu.categorize_all today outstanding))
    by reflexivity.
  assert (E2 : ReportMenu.category "31-60 Days Overdue" cs
               = select Upto60 (ReportMenu.categorize_all today outstanding))
    by reflexivity.
  assert (E3 : ReportMenu.category "60+ Days Overdue" cs
               = select Beyond (ReportMenu.categorize_all today outstanding))
    by reflexivity.
  rewrite E0, E1, E2, E3, !Hsel.
  repeat split; tauto.
Qed.

(** C7 does not hold of the code.  [_outstanding_invoices] asks the report
    service for [get_outstanding_invoices], a method that the service does
    not have: the AttributeError is caught by the [except] clause of the
    report, which shows the error and no category, whatever the invoices
    stored and whatever the day.  So it is for the store that holds an
    invoice that is due 45 days before today and is not paid: the invoice
    is shown in no category. *)
Theorem outstanding_invoices_report_fails (clk : Clock) (s : Store.t) :
  ReportMenu._outstanding_invoices clk s
  = Return (ReportMenu.Failed AttributeError) s
  /\ ReportMenu._outstanding_invoices Examples.clock Examples.overdue_45
     = Return (ReportMenu.Failed AttributeError) Examples.overdue_45
  /\ map Invoice.due_date (Store.invoices Examples.overdue_45)
     = [today Examples.clock - 45].
Proof. repeat split. Qed.

(** ** The store *)

Lemma status_eqb_eq (a b : InvoiceStatus.t) :
  InvoiceStatus.eqb a b = true <-> a = b.
Proof. destruct a, b; simpl; split; intros H; congruence. Qed.

Lemma status_eqb_neq (a b : InvoiceStatus.t) :
  InvoiceStatus.eqb a b = false <-> a <> b.
Proof. destruct a, b; simpl; split; intros H; congruence. Qed.

Lemma find_existsb {A : Type} (f : A -> bool) (l : list A) (x : A) :
  find f l = Some x -> existsb f l = true.
Proof.
  intros H. apply find_some in H. apply existsb_exists. exists x. exact H.
Qed.

Lemma row_update_status (clk : Clock) (i : Z) (st : InvoiceStatus.t)
    (s : Store.t) :
  InvoiceRepository.row i
    (final_state (InvoiceRepository.update_status clk i st s))
  = option_map
      (fun r => Invoice.with_updated_at (Some (now clk))
                  (Invoice.with_status st r))
      (InvoiceRepository.row i s).
Proof.
  unfold InvoiceRepository.row, InvoiceRepository.update_status. simpl.
  induction (Store.invoices s) as [|r rows IH]; simpl.
  - reflexivity.
  - destruct (Store.has_id i (Invoice.id r)) eqn:Hr; simpl.
    + rewrite Hr. reflexivity.
    + rewrite Hr. exact IH.
Qed.
(** ** The invoice service *)

(** C10.  For an invoice that exists, [mark_invoice_paid] raises
    ValidationError exactly when the status is already paid, and then
    changes nothing; in every other status, cancelled included, it returns
    the invoice with status paid and the stored status is paid. *)
Theorem mark_invoice_paid_outcome (clk : Clock) (invoice_id : Z)
    (s : Store.t) (inv : Invoice.t) :
  InvoiceRepository.row invoice_id s = Some inv ->
  (raised (InvoiceService.mark_invoice_paid clk invoice_id s)
     = Some ValidationError
   <-> Invoice.status inv = InvoiceStatus.PAID)
  /\ (Invoice.status inv = InvoiceStatus.PAID ->
      InvoiceService.mark_invoice_paid clk invoice_id s
      = Raise ValidationError s)
  /\ (Invoice.status inv <> InvoiceStatus.PAID ->
      exists inv' s',
        InvoiceService.mark_invoice_paid clk invoice_id s = Return inv' s'
        /\ Invoice.status inv' = InvoiceStatus.PAID
        /\ stored_status invoice_id s' = Some InvoiceStatus.PAID).
Proof.
  intros Hrow.
  unfold InvoiceService.mark_invoice_paid, bind, InvoiceRepository.find_by_id.
  rewrite Hrow.
  destruct (InvoiceStatus.eqb (Invoice.status inv) InvoiceStatus.PAID) eqn:Hst.
  - apply status_eqb_eq in Hst. simpl. repeat split; try tauto.
  - apply status_eqb_neq in Hst.
    assert (Hrun :
      exists inv' s',
        match InvoiceRepository.update_status clk invoice_id
                InvoiceStatus.PAID s with
        | Return _ s' => ret (Invoice.mark_as_paid clk inv) s'
        | Raise e s' => Raise e s'
        end = Return inv' s'
        /\ Invoice.status inv' = InvoiceStatus.PAID
        /\ stored_status invoice_id s' = Some InvoiceStatus.PAID).
    { eexists. eexists. split; [reflexivity|]. split; [reflexivity|].
      unfold stored_status.
      change (Store.with_invoices _ s)
        with (final_state
                (InvoiceRepository.update_status clk invoice_id
                   InvoiceStatus.PAID s)).
      rewrite row_update_status, Hrow. reflexivity. }
    split; [|split].
    + destruct Hrun as (inv' & s' & Heq & _). rewrite Heq. simpl.
      split; [discriminate|intros; contradiction].
    + intros; contradiction.
    + intros _. exact Hrun.
Qed.

Lemma mark_invoice_paid_outcome_witness :
  exists inv' s',
    InvoiceService.mark_invoice_paid Examples.clock 1
      Examples.cancelled_invoice
    = Return inv' s'
    /\ Invoice.status inv' = InvoiceStatus.PAID
    /\ stored_status 1 s' = Some InvoiceStatus.PAID.
Proof.
  refine (proj2 (proj2
            (mark_invoice_paid_outcome Examples.clock 1
               Examples.cancelled_invoice
               (Examples.invoice_of 1 InvoiceStatus.CANCELLED) _)) _).
  - reflexivity.
  - discriminate.
Defined.

(** C6, as amended.  For an invoice that exists and whose status is not
    draft, [add_invoice_item] raises ValidationError and leaves the store,
    hence the items and totals of the invoice, as it was. *)
Theorem add_invoice_item_needs_draft (clk : Clock) (invoice_id : Z)
    (description : string) (quantity rate : float) (s : Store.t)
    (inv : Invoice.t) :
  InvoiceRepository.row invoice_id s = Some inv ->
  Invoice.status inv <> InvoiceStatus.DRAFT ->
  InvoiceService.add_invoice_item clk invoice_id description quantity rate s
  = Raise ValidationError s.
Proof.
  intros Hrow Hst.
  unfold InvoiceService.add_invoice_item, bind, InvoiceRepository.find_by_id.
  rewrite Hrow.
  apply status_eqb_neq in Hst. rewrite Hst. reflexivity.
Qed.

Lemma add_invoice_item_needs_draft_witness :
  InvoiceService.add_invoice_item Examples.clock 1 "Hosting" 1%float 50%float
    Examples.sent_with_two_payments
  = Raise ValidationError Examples.sent_with_two_payments.
Proof.
  apply (add_invoice_item_needs_draft Examples.clock 1 "Hosting" 1%float
           50%float Examples.sent_with_two_payments
           (Examples.invoice_of 1 InvoiceStatus.SENT)).
  - reflexivity.
  - discriminate.
Defined.

(** C6 as stated fails: on a sent invoice the exception that
    [add_invoice_item] raises is not of a class named InvalidOperation. *)
Lemma add_invoice_item_not_invalid_operation :
  exists e s',
    InvoiceService.add_invoice_item Examples.clock 1 "Hosting" 1%float
      50%float Examples.sent_with_two_payments = Raise e s'
    /\ class_name e <> "InvalidOperation".
Proof.
  exists ValidationError, Examples.sent_with_two_payments.
  split; [vm_compute; reflexivity|discriminate].
Qed.

(** ** Loading invoices and payments *)

(** The invoice that [find_by_id] builds for a row: none when the client
    of the row is not above zero, and otherwise an invoice with the status
    of the row and with a total of zero. *)
Lemma load_invoice (clk : Clock) (i : Z) (s : Store.t) :
  match InvoiceRepository.row i s with
  | None => InvoiceLoader.find_by_id clk i s = Return None s
  | Some row =>
      if Invoice.client_id row <=? 0
      then InvoiceLoader.find_by_id clk i s = Raise ValidationError s
      else exists inv,
             InvoiceLoader.find_by_id clk i s = Return (Some inv) s
             /\ Invoice.status inv = Invoice.status row
             /\ Invoice.total_amount inv = 0%float
             /\ Invoice.client_id inv = Invoice.client_id row
  end.
Proof.
  unfold InvoiceLoader.find_by_id.
  destruct (InvoiceRepository.row i s) as [row|]; [|reflexivity].
  unfold InvoiceLoader._row_to_model, Invoice.from_dict, Invoice.post_init.
  destruct (negb (nonempty (Invoice.invoice_number
                              (Invoice.with_items [] row)))); simpl;
    destruct (Invoice.client_id row <=? 0); simpl; try reflexivity;
    eexists; (split; [reflexivity|]); repeat split; vm_compute; reflexivity.
Qed.

(** No row of the payments table loads: [from_dict] finds no client in the
    dictionary of the row and passes 0, which [__post_init__] refuses. *)
Lemma payment_never_loads (decimal : Decimal.arithmetic) (clk : Clock)
    (data : PaymentRow.t) :
  Payment.from_dict decimal clk data = Err ValidationError.
Proof.
  unfold Payment.from_dict, Payment.init, Payment.post_init. simpl.
  destruct (PaymentRow.invoice_id data <=? 0); reflexivity.
Qed.

Lemma fetched_payment (decimal : Decimal.arithmetic) (clk : Clock)
    (found : option PaymentRow.t) (s : Store.t) :
  PaymentRepository.fetched decimal clk found s
  = match found with
    | Some _ => Raise ValidationError s
    | None => Return None s
    end.
Proof.
  destruct found as [r|]; [|reflexivity].
  unfold PaymentRepository.fetched, PaymentRepository._row_to_model, bind.
  rewrite payment_never_loads. reflexivity.
Qed.

(** ** The payment service: no operation writes *)

Lemma amounts_paid_rows (i : Z) (rows : list PaymentRow.t) :
  map PaymentRow.amount
    (filter (fun r => PaymentRow.invoice_id r =? i) rows)
  = amounts_paid i rows.
Proof.
  induction rows as [|r rows IH]; simpl.
  - reflexivity.
  - destruct (PaymentRow.invoice_id r =? i); simpl; rewrite IH; reflexivity.
Qed.

(** The total paid is the sum of the amounts that the table holds for the
    invoice, or 0.0 when that sum is zero or not a number. *)
Lemma total_paid_sum (i : Z) (s : Store.t) :
  PaymentRepository.total_paid i s = sum_paid i s.
Proof.
  unfold sum_paid.
  unfold PaymentRepository.total_paid, PaymentRepository.rows_of_invoice.
  rewrite amounts_paid_rows.
  destruct (amounts_paid i (Store.payments s)) as [|a l].
  - vm_compute. reflexivity.
  - unfold or_zero, Py.truthy.
    destruct (PrimFloat.is_nan (Py.sum (a :: l))); [reflexivity|].
    destruct (PrimFloat.eqb (Py.sum (a :: l)) 0); reflexivity.
Qed.

(** The exception that [record_payment] raises: it is decided by the
    checks, and the store is left as it was. *)
Lemma record_payment_cases (decimal : Decimal.arithmetic) (clk : Clock)
    (invoice_id : Z) (amount : float) (payment_date : option Z)
    (payment_method : option PaymentMethod.t)
    (transaction_id notes : option string) (s : Store.t) :
  PaymentService.record_payment decimal clk invoice_id amount payment_date
    payment_method transaction_id notes s
  = match InvoiceRepository.row invoice_id s with
    | None => Raise InvoiceNotFoundError s
    | Some row =>
        if record_checks_pass invoice_id amount transaction_id s row
        then Raise TypeError s
        else Raise ValidationError s
    end.
Proof.
  unfold PaymentService.record_payment, bind, record_checks_pass.
  pose proof (load_invoice clk invoice_id s) as Hload.
  destruct (InvoiceRepository.row invoice_id s) as [row|];
    [|rewrite Hload; reflexivity].
  rewrite Z.ltb_antisym.
  destruct (Invoice.client_id row <=? 0); [rewrite Hload; reflexivity|].
  destruct Hload as (inv & -> & Hst & Htotal & _). rewrite Hst, Htotal.
  destruct (InvoiceStatus.eqb (Invoice.status row) InvoiceStatus.CANCELLED);
    [reflexivity|].
  destruct (amount <=? 0)%float; [reflexivity|].
  unfold PaymentRepository.get_total_paid_for_invoice.
  rewrite total_paid_sum.
  destruct (_ <? amount)%float; [reflexivity|].
  unfold PaymentRepository.find_by_transaction_id.
  destruct transaction_id as [tid|]; [|reflexivity].
  cbn [negb andb].
  destruct (nonempty tid); [|reflexivity].
  rewrite fetched_payment. cbn [negb orb].
  destruct (find (PaymentRepository.has_transaction_id tid)
              (Store.payments s)) as [r|] eqn:Hfind.
  + rewrite (find_existsb _ _ _ Hfind). reflexivity.
  + assert (He : existsb (PaymentRepository.has_transaction_id tid)
                   (Store.payments s) = false).
    { destruct (existsb _ _) eqn:He; [|reflexivity].
      apply existsb_exists in He. destruct He as (r & Hin & Hr).
      pose proof (find_none _ _ Hfind r Hin) as Hn. congruence. }
    rewrite He. reflexivity.
Qed.

(** [record_payment] raises and leaves the store as it was. *)
Lemma record_payment_raises (decimal : Decimal.arithmetic) (clk : Clock)
    (invoice_id : Z) (amount : float) (payment_date : option Z)
    (payment_method : option PaymentMethod.t)
    (transaction_id notes : option string) (s : Store.t) :
  exists e,
    PaymentService.record_payment decimal clk invoice_id amount payment_date
      payment_method transaction_id notes s = Raise e s.
Proof.
  rewrite record_payment_cases.
  destruct (InvoiceRepository.row invoice_id s) as [row|];
    [|eexists; reflexivity].
  destruct (record_checks_pass invoice_id amount transaction_id s row);
    eexists; reflexivity.
Qed.

(** [update_payment] and [delete_payment] raise and leave the store as it
    was: ValidationError for a payment that exists, since it does not
    load, and the class named PaymentNotFoundError for one that does
    not. *)
Lemma payment_mutation_raises (decimal : Decimal.arithmetic)
    (not_found : exn) (clk : Clock) (payment_id : Z)
    (amount : option float) (payment_date : option Z)
    (payment_method : option PaymentMethod.t)
    (transaction_id notes : option string) (s : Store.t) :
  let e := match PaymentRepository.row payment_id s with
           | Some _ => ValidationError
           | None => not_found
           end in
  PaymentService.update_payment decimal not_found clk payment_id amount
    payment_date payment_method transaction_id notes s = Raise e s
  /\ PaymentService.delete_payment decimal not_found clk payment_id s
     = Raise e s
  /\ PaymentService.get_payment decimal not_found clk payment_id s
     = Raise e s.
Proof.
  unfold PaymentService.update_payment, PaymentService.delete_payment,
    PaymentService.get_payment, bind, PaymentRepository.find_by_id.
  rewrite fetched_payment.
  destruct (PaymentRepository.row payment_id s); repeat split.
Qed.

(** C1 does not hold of the code.  For a payment that exists,
    [update_payment] and [delete_payment] raise ValidationError when they
    load it, before they change the payment and before they reach
    [_update_invoice_payment_status]: the payment is neither changed nor
    removed, and the status of the invoice is not derived again. *)
Theorem payment_mutations_fail (decimal : Decimal.arithmetic)
    (not_found : exn) (clk : Clock) (payment_id : Z)
    (amount : option float) (payment_date : option Z)
    (payment_method : option PaymentMethod.t)
    (transaction_id notes : option string) (s : Store.t)
    (row : PaymentRow.t) :
  PaymentRepository.row payment_id s = Some row ->
  PaymentService.update_payment decimal not_found clk payment_id amount
    payment_date payment_method transaction_id notes s
  = Raise ValidationError s
  /\ PaymentService.delete_payment decimal not_found clk payment_id s
     = Raise ValidationError s.
Proof.
  intros Hrow.
  pose proof (payment_mutation_raises decimal not_found clk payment_id amount
                payment_date payment_method transaction_id notes s) as H.
  rewrite Hrow in H. simpl in H. destruct H as (Hu & Hd & _).
  split; assumption.
Qed.

(** Deleting the payment of 1000.00 from the sent invoice of 2360.00 that
    has the payments 1360.00 and 1000.00: the payment stays and the
    invoice stays sent. *)
Lemma payment_mutations_fail_witness :
  PaymentService.delete_payment Examples.decimal Examples.not_found
    Examples.clock 2 Examples.sent_with_two_payments
  = Raise ValidationError Examples.sent_with_two_payments.
Proof.
  refine (proj2 (payment_mutations_fail Examples.decimal Examples.not_found
                   Examples.clock 2 None None None None None
                   Examples.sent_with_two_payments
                   (Examples.payment_row 2 1 1000%float) _)).
  reflexivity.
Defined.

(** A call of a payment operation leaves the store as it was. *)
Lemma performed_nothing (decimal : Decimal.arithmetic) (not_found : exn)
    (s : Store.t) (call : Clock * payment_operation) :
  performed decimal not_found s call = s.
Proof.
  destruct call as [clk [invoice_id amount payment_date payment_method
                           transaction_id notes
                        |payment_id amount payment_date payment_method
                           transaction_id notes
                        |payment_id]]; unfold performed; cbn [fst snd].
  - destruct (record_payment_raises decimal clk invoice_id amount
                payment_date payment_method transaction_id notes s)
      as [e ->].
    reflexivity.
  - rewrite (proj1 (payment_mutation_raises decimal not_found clk payment_id
                      amount payment_date payment_method transaction_id
                      notes s)).
    reflexivity.
  - rewrite (proj1 (proj2 (payment_mutation_raises decimal not_found clk
                             payment_id None None None None None s))).
    reflexivity.
Qed.

Lemma performed_all_nothing (decimal : Decimal.arithmetic) (not_found : exn)
    (calls : list (Clock * payment_operation)) (s : Store.t) :
  performed_all decimal not_found calls s = s.
Proof.
  unfold performed_all. induction calls as [|call calls IH]; simpl.
  - reflexivity.
  - rewrite performed_nothing. exact IH.
Qed.

(** C5.  Whatever payment operations are called, in whatever order and
    with whatever arguments, whether they return or raise, a draft invoice
    is a draft afterwards: the operations leave the whole store as it
    was. *)
Theorem draft_stays_draft (decimal : Decimal.arithmetic) (not_found : exn)
    (calls : list (Clock * payment_operation)) (invoice_id : Z)
    (s : Store.t) :
  stored_status invoice_id s = Some InvoiceStatus.DRAFT ->
  stored_status invoice_id (performed_all decimal not_found calls s)
  = Some InvoiceStatus.DRAFT
  /\ performed_all decimal not_found calls s = s.
Proof.
  intros Hdraft. rewrite performed_all_nothing. split; [exact Hdraft|].
  reflexivity.
Qed.

(** On the draft invoice of 2360.00 with a payment of 1000.00: recording
    the remaining 1360.00, changing the payment to 2360.00 and deleting
    it. *)
Lemma draft_stays_draft_witness :
  stored_status 1
    (performed_all Examples.decimal Examples.not_found
       [(Examples.clock,
         RecordPayment 1 1360%float None (Some PaymentMethod.UPI) None None);
        (Examples.clock,
         UpdatePayment 1 (Some 2360%float) None None None None);
        (Examples.clock, DeletePayment 1)]
       Examples.draft_with_payment)
  = Some InvoiceStatus.DRAFT.
Proof.
  refine (proj1 (draft_stays_draft Examples.decimal Examples.not_found _ 1
                   Examples.draft_with_payment _)).
  reflexivity.
Defined.

(** ** The payment service: the remaining balance *)

Lemma exceeded_is_number (r a : float) :
  (r <? a)%float = true -> PrimFloat.is_nan a = false.
Proof.
  unfold PrimFloat.is_nan.
  rewrite FloatAxioms.ltb_spec, FloatAxioms.eqb_spec. unfold SFltb, SFeqb.
  destruct (Prim2SF r) as [sr|sr| |sr mr er];
    destruct (Prim2SF a) as [sa|sa| |sa ma ea]; simpl;
    try destruct sa; intros H; try discriminate; try reflexivity;
    rewrite ?Z.compare_refl, ?Pos.compare_cont_refl; reflexivity.
Qed.

(** An amount above zero exceeds what is left of a total of zero once a
    total that is not below zero was paid. *)
Lemma below_zero_exceeded (p a : float) :
  (0 <=? p)%float = true -> (a <=? 0)%float = false ->
  PrimFloat.is_nan a = false ->
  ((0 - p) <? a)%float = true.
Proof.
  rewrite !FloatAxioms.leb_spec, FloatAxioms.ltb_spec, FloatAxioms.sub_spec.
  unfold PrimFloat.is_nan. rewrite FloatAxioms.eqb_spec.
  change (Prim2SF 0) with (S754_zero false).
  unfold SF64sub, SFleb, SFltb, SFeqb.
  destruct (Prim2SF p) as [sp|sp| |sp mp ep];
    destruct (Prim2SF a) as [sa|sa| |sa ma ea]; simpl;
    try destruct sp; try destruct sa; simpl; intros H1 H2 H3;
    try discriminate; try reflexivity.
  all: rewrite ?Z.compare_refl, ?Pos.compare_cont_refl in H3; try discriminate.
Qed.

(** Rounding keeps the sign. *)
Lemma rounded_sign (s : bool) (m : positive) (e : Z) :
  match binary_round prec emax s m e with
  | S754_zero s' | S754_infinity s' | S754_finite s' _ _ => s' = s
  | S754_nan => True
  end.
Proof.
  unfold binary_round.
  destruct (shl_align m e _) as [mz ez].
  unfold binary_round_aux.
  destruct (shr_fexp prec emax (Z.pos mz) ez loc_Exact) as [mrs' e'].
  destruct (shr_fexp prec emax _ e' loc_Exact) as [mrs'' e''].
  destruct (shr_m mrs''); [reflexivity| |exact I].
  destruct (e'' <=? emax - prec); reflexivity.
Qed.

Lemma add_not_below_zero (x y : float) :
  not_below_zero x -> (0 <=? y)%float = true -> not_below_zero (x + y).
Proof.
  unfold not_below_zero, PrimFloat.is_nan.
  rewrite !FloatAxioms.leb_spec, !FloatAxioms.eqb_spec, FloatAxioms.add_spec.
  change (Prim2SF 0) with (S754_zero false).
  unfold SF64add, SFleb, SFeqb.
  destruct (Prim2SF x) as [sx|sx| |sx mx ex];
    destruct (Prim2SF y) as [sy|sy| |sy my ey]; simpl;
    try destruct sx; try destruct sy; simpl; intros [H1|H1] H2;
    try discriminate; try (left; reflexivity); try (right; reflexivity).
  all: try (rewrite ?Z.compare_refl, ?Pos.compare_cont_refl in H1;
            discriminate).
  match goal with
  | |- context [binary_round prec emax false ?p ?e] =>
      pose proof (rounded_sign false p e) as Hs;
      destruct (binary_round prec emax false p e) as [s|s| |s m e']
  end; try subst s; simpl; try (left; reflexivity); right; reflexivity.
Qed.

Lemma sum_not_below_zero (amounts : list float) (start : float) :
  not_below_zero start ->
  (forall a, In a amounts -> (0 <=? a)%float = true) ->
  not_below_zero (fold_left PrimFloat.add amounts start).
Proof.
  revert start. induction amounts as [|a amounts IH]; intros start Hs Ha.
  - exact Hs.
  - simpl. apply IH.
    + apply add_not_below_zero; [exact Hs|]. apply Ha. left. reflexivity.
    + intros b Hb. apply Ha. right. exact Hb.
Qed.

(** The total paid is not below zero when no payment of the invoice has an
    amount below zero. *)
Lemma sum_paid_not_below_zero (i : Z) (s : Store.t) :
  (forall r, In r (Store.payments s) -> PaymentRow.invoice_id r = i ->
             (0 <=? PaymentRow.amount r)%float = true) ->
  (0 <=? sum_paid i s)%float = true.
Proof.
  intros Hrows. rewrite <- total_paid_sum.
  unfold PaymentRepository.total_paid, PaymentRepository.rows_of_invoice.
  set (amounts := map PaymentRow.amount _).
  assert (Hsum : not_below_zero (Py.sum amounts)).
  { apply sum_not_below_zero; [left; reflexivity|].
    intros a Ha. apply in_map_iff in Ha. destruct Ha as (r & <- & Hr).
    apply filter_In in Hr. destruct Hr as [Hin Hi].
    apply Hrows; [exact Hin|]. apply Z.eqb_eq. exact Hi. }
  destruct amounts as [|a l]; [reflexivity|].
  destruct (PrimFloat.is_nan (Py.sum (a :: l))) eqn:Hn; [reflexivity|].
  destruct Hsum as [Hsum|Hsum]; [|congruence].
  destruct (Py.truthy (Py.sum (a :: l))); [exact Hsum|reflexivity].
Qed.

(** What [record_payment] does once the invoice is loaded, for an amount
    that the balance it computes does not admit. *)
Lemma record_payment_refused (decimal : Decimal.arithmetic) (clk : Clock)
    (invoice_id : Z) (amount : float) (payment_date : option Z)
    (payment_method : option PaymentMethod.t)
    (transaction_id notes : option string) (s : Store.t) (row : Invoice.t) :
  InvoiceRepository.row invoice_id s = Some row ->
  (amount <=? 0)%float = true
  \/ ((0 - sum_paid invoice_id s) <? amount)%float = true ->
  PaymentService.record_payment decimal clk invoice_id amount payment_date
    payment_method transaction_id notes s
  = Raise ValidationError s.
Proof.
  intros Hrow Hover.
  unfold PaymentService.record_payment, bind.
  pose proof (load_invoice clk invoice_id s) as Hload. rewrite Hrow in Hload.
  destruct (Invoice.client_id row <=? 0); [rewrite Hload; reflexivity|].
  destruct Hload as (inv & -> & _ & Htotal & _).
  destruct (InvoiceStatus.eqb (Invoice.status inv) InvoiceStatus.CANCELLED);
    [reflexivity|].
  destruct (amount <=? 0)%float eqn:Ha; [reflexivity|].
  destruct Hover as [Hover|Hover]; [discriminate|].
  unfold PaymentRepository.get_total_paid_for_invoice.
  rewrite total_paid_sum, Htotal, Hover. reflexivity.
Qed.

(** C2.  For an invoice that exists and of which the payments do not sum
    below zero, as they do not when none has an amount below zero, a
    payment whose amount exceeds the remaining balance, the total of the
    invoice less the sum of its payments, is refused: [record_payment]
    raises ValidationError and leaves the store as it was, so that no
    payment is stored and no status changes.  In particular, when the
    remaining balance is zero, every amount above zero is refused. *)
Theorem record_payment_rejects_overpayment (decimal : Decimal.arithmetic)
    (clk : Clock) (invoice_id : Z) (amount : float) (payment_date : option Z)
    (payment_method : option PaymentMethod.t)
    (transaction_id notes : option string) (s : Store.t) (row : Invoice.t) :
  InvoiceRepository.row invoice_id s = Some row ->
  (0 <=? sum_paid invoice_id s)%float = true ->
  let remaining :=
    (Invoice.total_amount row - sum_paid invoice_id s)%float in
  ((remaining <? amount)%float = true ->
   PaymentService.record_payment decimal clk invoice_id amount payment_date
     payment_method transaction_id notes s
   = Raise ValidationError s)
  /\ ((remaining =? 0)%float = true -> (0 <? amount)%float = true ->
      PaymentService.record_payment decimal clk invoice_id amount
        payment_date payment_method transaction_id notes s
      = Raise ValidationError s).
Proof.
  intros Hrow Hpaid remaining.
  assert (Hany : forall r, (r <? amount)%float = true ->
            PaymentService.record_payment decimal clk invoice_id amount
              payment_date payment_method transaction_id notes s
            = Raise ValidationError s).
  { intros r Hr. apply (record_payment_refused _ _ _ _ _ _ _ _ _ row Hrow).
    destruct (amount <=? 0)%float eqn:Ha; [left; reflexivity|right].
    apply below_zero_exceeded; try assumption.
    apply (exceeded_is_number r). exact Hr. }
  split.
  - apply Hany.
  - intros Hzero Hpos. apply (Hany 0%float). exact Hpos.
Qed.

(** The sent invoice of 2360.00 with the payments 1360.00 and 1000.00 has
    nothing left to pay: a payment of 0.01 is refused. *)
Lemma record_payment_rejects_overpayment_witness :
  PaymentService.record_payment Examples.decimal Examples.clock 1
    0x1.47ae147ae147bp-7%float None (Some PaymentMethod.UPI) None None
    Examples.sent_with_two_payments
  = Raise ValidationError Examples.sent_with_two_payments.
Proof.
  refine (proj2 (record_payment_rejects_overpayment Examples.decimal
                   Examples.clock 1 0x1.47ae147ae147bp-7%float None
                   (Some PaymentMethod.UPI) None None
                   Examples.sent_with_two_payments
                   (Examples.invoice_of 1 InvoiceStatus.SENT) _ _) _ _).
  - reflexivity.
  - vm_compute. reflexivity.
  - vm_compute. reflexivity.
  - vm_compute. reflexivity.
Defined.

(** ** The payment service: the total paid and the status derivation *)

Lemma amount_is_counted (i : Z) (rows : list PaymentRow.t)
    (r : PaymentRow.t) :
  In r rows -> PaymentRow.invoice_id r = i ->
  In (PaymentRow.amount r) (amounts_paid i rows).
Proof.
  intros Hin Hi. rewrite <- amounts_paid_rows. apply in_map.
  apply filter_In. split; [exact Hin|]. apply Z.eqb_eq. exact Hi.
Qed.

(** What [_update_invoice_payment_status] does.  It compares the total
    paid with the total of the invoice as loaded, which is zero: it sets
    the status to paid when the total paid is above zero, and otherwise
    raises AttributeError, at the lookup of [InvoiceStatus.PARTIALLY_PAID]
    or on an invoice that is None, before it writes anything. *)
Lemma derivation_outcome (clk : Clock) (i : Z) (s : Store.t) :
  PaymentService._update_invoice_payment_status clk i s
  = match InvoiceRepository.row i s with
    | None => Raise AttributeError s
    | Some row =>
        if Invoice.client_id row <=? 0 then Raise ValidationError s
        else if (PaymentRepository.total_paid i s =? 0)%float
        then Raise AttributeError s
        else if (0 <=? PaymentRepository.total_paid i s)%float
        then
          if InvoiceStatus.eqb (Invoice.status row) InvoiceStatus.PAID
          then Return tt s
          else Return tt
                 (final_state
                    (InvoiceRepository.update_status clk i
                       InvoiceStatus.PAID s))
        else Raise AttributeError s
    end.
Proof.
  unfold PaymentService._update_invoice_payment_status, bind,
    PaymentRepository.get_total_paid_for_invoice.
  pose proof (load_invoice clk i s) as Hload.
  destruct (InvoiceRepository.row i s) as [row|].
  - destruct (Invoice.client_id row <=? 0); [rewrite Hload; reflexivity|].
    destruct Hload as (inv & -> & Hst & Htotal & _).
    destruct (PaymentRepository.total_paid i s =? 0)%float; [reflexivity|].
    simpl. rewrite Htotal, Hst.
    destruct (0 <=? PaymentRepository.total_paid i s)%float; [|reflexivity].
    simpl.
    destruct (Invoice.status row); reflexivity.
  - rewrite Hload.
    destruct (PaymentRepository.total_paid i s =? 0)%float; reflexivity.
Qed.

(** The derivation reads of the payments table the total paid and
    nothing else. *)
Lemma derivation_reads_total (clk : Clock) (i : Z) (s s' : Store.t) :
  Store.invoices s' = Store.invoices s ->
  PaymentRepository.total_paid i s' = PaymentRepository.total_paid i s ->
  raised (PaymentService._update_invoice_payment_status clk i s')
  = raised (PaymentService._update_invoice_payment_status clk i s)
  /\ Store.invoices
       (final_state (PaymentService._update_invoice_payment_status clk i s'))
     = Store.invoices
         (final_state (PaymentService._update_invoice_payment_status clk i s)).
Proof.
  intros Hinv Hpaid. rewrite !derivation_outcome, Hpaid.
  unfold InvoiceRepository.row, InvoiceRepository.update_status. rewrite Hinv.
  destruct (find _ (Store.invoices s)) as [row|]; [|split; [reflexivity|]; exact Hinv].
  destruct (Invoice.client_id row <=? 0); [split; [reflexivity|]; exact Hinv|].
  destruct (PaymentRepository.total_paid i s =? 0)%float;
    [split; [reflexivity|]; exact Hinv|].
  destruct (0 <=? PaymentRepository.total_paid i s)%float;
    [|split; [reflexivity|]; exact Hinv].
  destruct (InvoiceStatus.eqb (Invoice.status row) InvoiceStatus.PAID);
    simpl; [split; [reflexivity|]; exact Hinv|].
  split; reflexivity.
Qed.

(** C3, as amended.  The total paid that the status derivation reads is
    the sum of the amounts of all the payments that the table holds for
    the invoice.  The table keeps no status, so that every payment is read
    as pending, and a payment of the invoice counts with its amount all
    the same; the payments of other invoices do not count.  The
    derivation reads nothing else of the payments: two stores with the
    same invoices and the same total paid for the invoice are given the
    same outcome by [_update_invoice_payment_status], and by
    [record_payment] when it is given no transaction id. *)
Theorem paid_total_counts_every_payment (decimal : Decimal.arithmetic)
    (clk : Clock) (i : Z) (s : Store.t) (r : PaymentRow.t) :
  In r (Store.payments s) ->
  PaymentRow.invoice_id r = i ->
  Payment.status (Payment.of_dict decimal r) = PaymentStatus.PENDING
  /\ In (PaymentRow.amount r) (amounts_paid i (Store.payments s))
  /\ PaymentRepository.get_total_paid_for_invoice i s
     = Return (or_zero (Py.sum (amounts_paid i (Store.payments s)))) s
  /\ (forall s',
        Store.invoices s' = Store.invoices s ->
        sum_paid i s' = sum_paid i s ->
        raised (PaymentService._update_invoice_payment_status clk i s')
        = raised (PaymentService._update_invoice_payment_status clk i s)
        /\ Store.invoices
             (final_state
                (PaymentService._update_invoice_payment_status clk i s'))
           = Store.invoices
               (final_state
                  (PaymentService._update_invoice_payment_status clk i s))
        /\ forall amount payment_date payment_method notes,
             raised (PaymentService.record_payment decimal clk i amount
                       payment_date payment_method None notes s')
             = raised (PaymentService.record_payment decimal clk i amount
                         payment_date payment_method None notes s)).
Proof.
  intros Hin Hi.
  split; [reflexivity|].
  split; [apply amount_is_counted; assumption|].
  split.
  - unfold PaymentRepository.get_total_paid_for_invoice.
    rewrite total_paid_sum. reflexivity.
  - intros s' Hinv Hpaid. rewrite <- !total_paid_sum in Hpaid.
    destruct (derivation_reads_total clk i s s' Hinv Hpaid) as [Hr Hs].
    split; [exact Hr|]. split; [exact Hs|].
    intros amount payment_date payment_method notes.
    rewrite !record_payment_cases. unfold record_checks_pass.
    rewrite <- !total_paid_sum.
    unfold InvoiceRepository.row. rewrite Hinv, Hpaid.
    destruct (find _ (Store.invoices s)) as [row|]; [|reflexivity].
    match goal with
    | |- context [if ?b then _ else _] => destruct b
    end; reflexivity.
Qed.

(** The sent invoice of 2360.00 with the payments 1360.00 and 1000.00:
    the total paid is their sum. *)
Lemma paid_total_counts_every_payment_witness :
  PaymentRepository.get_total_paid_for_invoice 1
    Examples.sent_with_two_payments
  = Return (or_zero (Py.sum [1360%float; 1000%float]))
      Examples.sent_with_two_payments.
Proof.
  refine (proj1 (proj2 (proj2
            (paid_total_counts_every_payment Examples.decimal Examples.clock
               1 Examples.sent_with_two_payments
               (Examples.payment_row 2 1 1000%float) _ _)))).
  - simpl. right. left. reflexivity.
  - reflexivity.
Defined.

(** C3 as stated fails: of the sent invoice of 2360.00 with the payments
    1360.00 and 1000.00, no payment is completed, each being read as
    pending, and yet the total paid is 2360.00, on which the derivation
    marks the invoice paid. *)
Lemma pending_payments_are_counted :
  (forall decimal r,
     In r (Store.payments Examples.sent_with_two_payments) ->
     Payment.status (Payment.of_dict decimal r) = PaymentStatus.PENDING)
  /\ PaymentRepository.get_total_paid_for_invoice 1
       Examples.sent_with_two_payments
     = Return 2360%float Examples.sent_with_two_payments
  /\ stored_status 1
       (final_state
          (PaymentService._update_invoice_payment_status Examples.clock 1
             Examples.sent_with_two_payments))
     = Some InvoiceStatus.PAID.
Proof.
  split; [reflexivity|]. split; vm_compute; reflexivity.
Qed.
(** ** Further properties: the model classes *)

Lemma calculate_totals_consistent (clk : Clock) (inv : Invoice.t) :
  Forall built (Invoice.items inv) ->
  Invoice.subtotal (Invoice.calculate_totals clk inv)
  = Py.sum (map line_total (Invoice.items inv))
  /\ Invoice.tax_amount (Invoice.calculate_totals clk inv)
     = (Invoice.subtotal (Invoice.calculate_totals clk inv)
        * Settings.tax_rate Settings.invoice)%float
  /\ Invoice.total_amount (Invoice.calculate_totals clk inv)
     = (Invoice.subtotal (Invoice.calculate_totals clk inv)
        + Invoice.tax_amount (Invoice.calculate_totals clk inv))%float.
Proof.
  intros Hb. simpl. rewrite (amounts_of_built _ Hb). repeat split.
Qed.

(** X1.  Every invoice that the constructor returned, for items built by
    the item constructor, and that [add_item], [calculate_totals] and
    [mark_as_paid] have changed since, belongs to a client with a positive
    identifier, has a number that is not empty, and has its three totals
    derived from its items: the subtotal is the sum of quantity times rate
    in order, the tax the subtotal times the configured rate, the total
    their sum.  The totals handed to the constructor do not matter. *)
Theorem made_invoice_invariant (inv : Invoice.t) :
  made_invoice inv ->
  0 < Invoice.client_id inv
  /\ Py.nonempty (Invoice.invoice_number inv) = true
  /\ Forall built (Invoice.items inv)
  /\ Invoice.subtotal inv = Py.sum (map line_total (Invoice.items inv))
  /\ Invoice.tax_amount inv
     = (Invoice.subtotal inv * Settings.tax_rate Settings.invoice)%float
  /\ Invoice.total_amount inv
     = (Invoice.subtotal inv + Invoice.tax_amount inv)%float.
Proof.
  induction 1 as [clk self inv Hb Hinit
                 |clk d q r inv inv' Hm IH Hadd
                 |clk inv Hm IH
                 |clk inv Hm IH].
  - unfold Invoice.post_init in Hinit.
    destruct (negb (nonempty (Invoice.invoice_number self))) eqn:Hn.
    + destruct (Invoice.client_id _ <=? 0) eqn:Hc; [discriminate|].
      injection Hinit as <-. apply Z.leb_gt in Hc.
      split; [exact Hc|]. split; [reflexivity|]. split; [exact Hb|].
      apply (calculate_totals_consistent clk
               (Invoice.with_invoice_number _ self) Hb).
    + destruct (Invoice.client_id self <=? 0) eqn:Hc; [discriminate|].
      injection Hinit as <-. apply Z.leb_gt in Hc.
      split; [exact Hc|]. split.
      { simpl. apply negb_false_iff in Hn. exact Hn. }
      split; [exact Hb|].
      apply (calculate_totals_consistent clk self Hb).
  - destruct IH as (Hc & Hn & Hb & _).
    apply add_item_returns in Hadd. subst inv'.
    assert (Hall : Forall built
                     (Invoice.items inv ++ [InvoiceItem.init d q r])%list).
    { apply Forall_app. split; [assumption|].
      constructor; [apply built_init|constructor]. }
    split; [exact Hc|]. split; [exact Hn|]. split; [exact Hall|].
    apply (calculate_totals_consistent clk (Invoice.with_items _ inv) Hall).
  - destruct IH as (Hc & Hn & Hb & _).
    split; [exact Hc|]. split; [exact Hn|]. split; [exact Hb|].
    apply (calculate_totals_consistent clk inv Hb).
  - exact IH.
Qed.

Lemma made_invoice_invariant_witness :
  Invoice.subtotal
    (Invoice.mark_as_paid Examples.clock
       (Invoice.calculate_totals Examples.clock
          (Invoice.with_items Examples.design_and_dev
             (Examples.blank_invoice 1 InvoiceStatus.DRAFT 19902))))
  = Py.sum (map line_total Examples.design_and_dev).
Proof.
  refine (proj1 (proj2 (proj2 (proj2
            (made_invoice_invariant _
               (made_by_mark_as_paid Examples.clock _
                  (made_by_init Examples.clock
                     (Invoice.with_items Examples.design_and_dev
                        (Examples.blank_invoice 1 InvoiceStatus.DRAFT 19902))
                     _ _ _))))))).
  - repeat constructor.
  - reflexivity.
Defined.

Lemma cancel_payment_status_other (clk : Clock) (reason : option string)
    (p : Payment.t) :
  match Payment.status p with
  | PaymentStatus.COMPLETED => True
  | _ =>
      exists p',
        Payment.cancel_payment clk reason p = Return tt p'
        /\ Payment.status p' = PaymentStatus.CANCELLED
  end.
Proof.
  unfold Payment.cancel_payment.
  destruct (Payment.status p) eqn:Hst; simpl; try exact I;
    (eexists; split; [reflexivity|]);
    destruct reason as [r|]; simpl;
      try (destruct (nonempty r); simpl; unfold Payment.annotate;
           try destruct (negb (nonempty_opt (Payment.notes _))); simpl);
      reflexivity.
Qed.

(** X3.  A payment marked as completed cannot be cancelled any more:
    [cancel_payment] raises ValidationError on it and leaves it as it was.
    A payment marked as failed can be cancelled.  [mark_as_completed] has
    no guard: whatever the status of the payment, a cancelled one included,
    it leaves the payment completed. *)
Theorem payment_status_sequences (clk1 clk2 : Clock)
    (ref reason : option string) (p : Payment.t) :
  Payment.cancel_payment clk2 reason (Payment.mark_as_completed clk1 ref p)
  = Raise ValidationError (Payment.mark_as_completed clk1 ref p)
  /\ (exists p',
        Payment.cancel_payment clk2 reason (Payment.mark_as_failed clk1 ref p)
        = Return tt p'
        /\ Payment.status p' = PaymentStatus.CANCELLED)
  /\ Payment.status (Payment.mark_as_completed clk2 ref p)
     = PaymentStatus.COMPLETED.
Proof.
  split; [|split].
  - unfold Payment.cancel_payment, Payment.mark_as_completed.
    destruct (nonempty_opt ref); reflexivity.
  - assert (Hst : Payment.status (Payment.mark_as_failed clk1 ref p)
                  = PaymentStatus.FAILED).
    { unfold Payment.mark_as_failed, Payment.annotate.
      destruct ref as [r|]; [destruct (nonempty r)|]; try reflexivity.
      destruct (negb (nonempty_opt _)); reflexivity. }
    pose proof (cancel_payment_status_other clk2 reason
                  (Payment.mark_as_failed clk1 ref p)) as H.
    rewrite Hst in H. destruct H as (p' & Heq & Hs). eauto.
  - unfold Payment.mark_as_completed.
    destruct (nonempty_opt ref); reflexivity.
Qed.

(** X5.  For a project that the constructor returned, [calculate_amount]
    never falls through to 0.0: it is the fixed rate when that is set
    (neither None nor zero), also when an hourly rate is set as well, and
    otherwise the hourly rate, which is then set, times the hours
    worked. *)
Theorem calculate_amount_of_constructed (p p' : Project.t) :
  Project.init p = Ok p' ->
  (exists f, Project.fixed_rate p' = Some f /\ Py.truthy f = true
             /\ Project.calculate_amount p' = f)
  \/ (Py.truthy_opt (Project.fixed_rate p') = false
      /\ exists r, Project.hourly_rate p' = Some r /\ Py.truthy r = true
                   /\ Project.calculate_amount p'
                      = (r * Project.hours_worked p')%float).
Proof.
  unfold Project.init, Project.post_init, constructed.
  destruct (negb (nonempty (strip (Project.name p)))); [discriminate|].
  destruct (Project.client_id p <=? 0); [discriminate|].
  destruct (negb (truthy_opt (Project.hourly_rate p))
            && negb (truthy_opt (Project.fixed_rate p))) eqn:Hany;
    [discriminate|].
  destruct (Project.set_and_negative (Project.hourly_rate p));
    [discriminate|].
  destruct (Project.set_and_negative (Project.fixed_rate p));
    [discriminate|].
  intros H. injection H as <-.
  unfold Project.calculate_amount, truthy_opt in *.
  destruct (Project.fixed_rate p) as [f|], (Project.hourly_rate p) as [r|];
    simpl in *.
  - destruct (truthy f) eqn:Hf.
    + left. exists f. auto.
    + right. split; [reflexivity|]. exists r.
      destruct (truthy r); [auto|discriminate].
  - destruct (truthy f) eqn:Hf; [|discriminate]. left. exists f. auto.
  - right. split; [reflexivity|]. exists r.
    destruct (truthy r); [auto|discriminate].
  - discriminate.
Qed.

Lemma calculate_amount_of_constructed_witness :
  Project.calculate_amount Examples.doubly_priced = 1000%float.
Proof.
  destruct (calculate_amount_of_constructed Examples.doubly_priced
              Examples.doubly_priced eq_refl)
    as [(f & Hf & _ & Hc)|(Hn & _)].
  - rewrite Hc. injection Hf as <-. reflexivity.
  - discriminate Hn.
Defined.

(** X10.  [add_invoice_item] stores nothing, whatever its arguments: it
    raises and leaves the store as it was.  The exception is AttributeError
    exactly when the invoice exists, is a draft and the item passes the
    checks of [add_item], because the service then asks the repository for
    a method named [update], which it does not have; it is
    InvoiceNotFoundError or ValidationError otherwise. *)
Theorem add_invoice_item_never_stores (clk : Clock) (invoice_id : Z)
    (description : string) (quantity rate : float) (s : Store.t) :
  exists e,
    InvoiceService.add_invoice_item clk invoice_id description quantity
      rate s = Raise e s
    /\ (e = InvoiceNotFoundError \/ e = ValidationError \/ e = AttributeError)
    /\ (e = AttributeError
        <-> exists inv,
              InvoiceRepository.row invoice_id s = Some inv
              /\ Invoice.status inv = InvoiceStatus.DRAFT
              /\ Py.nonempty (Py.strip description) = true
              /\ (quantity <=? 0)%float = false
              /\ (rate <? 0)%float = false).
Proof.
  unfold InvoiceService.add_invoice_item, bind, InvoiceRepository.find_by_id.
  destruct (InvoiceRepository.row invoice_id s) as [inv|] eqn:Hrow.
  2:{ exists InvoiceNotFoundError. split; [reflexivity|]. split; [auto|].
      split; [discriminate|]. intros (inv & H & _). discriminate. }
  destruct (InvoiceStatus.eqb (Invoice.status inv) InvoiceStatus.DRAFT)
    eqn:Hst; simpl.
  2:{ exists ValidationError. split; [reflexivity|]. split; [auto|].
      split; [discriminate|]. intros (inv' & H & Hd & _).
      injection H as <-. apply status_eqb_neq in Hst. contradiction. }
  apply status_eqb_eq in Hst.
  unfold call, Invoice.add_item.
  destruct (nonempty (strip description)) eqn:Hd; simpl.
  2:{ exists ValidationError. split; [reflexivity|]. split; [auto|].
      split; [discriminate|]. intros (_ & _ & _ & H & _). discriminate. }
  destruct (quantity <=? 0)%float eqn:Hq.
  { exists ValidationError. split; [reflexivity|]. split; [auto|].
    split; [discriminate|]. intros (_ & _ & _ & _ & H & _). discriminate. }
  destruct (rate <? 0)%float eqn:Hr.
  { exists ValidationError. split; [reflexivity|]. split; [auto|].
    split; [discriminate|]. intros (_ & _ & _ & _ & _ & H). discriminate. }
  exists AttributeError. split; [reflexivity|]. split; [auto|].
  split; [|reflexivity]. intros _. exists inv. auto.
Qed.

(** ** Further properties: payments *)


Lemma or_zero_is_number (t : float) : PrimFloat.is_nan (or_zero t) = false.
Proof.
  unfold or_zero. destruct (PrimFloat.is_nan t) eqn:Hn; simpl.
  - reflexivity.
  - destruct (t =? 0)%float; [reflexivity|exact Hn].
Qed.

Lemma above_zero (t : float) :
  PrimFloat.is_nan t = false ->
  (if (t =? 0)%float then false else (0 <=? t)%float) = (0 <? t)%float.
Proof.
  unfold PrimFloat.is_nan.
  rewrite !FloatAxioms.eqb_spec, FloatAxioms.leb_spec, FloatAxioms.ltb_spec.
  change (Prim2SF 0) with (S754_zero false).
  unfold SFeqb, SFleb, SFltb.
  destruct (Prim2SF t) as [st|st| |st mt et]; simpl; try destruct st;
    intros H; try discriminate; try reflexivity;
    rewrite ?Z.compare_refl, ?Pos.compare_cont_refl in H; discriminate.
Qed.

(** X30.  What [_update_invoice_payment_status] derives.  For an invoice
    that loads, it sets the stored status to paid as soon as the total
    paid is above zero, whatever the total of the invoice, because it
    compares with the total of the invoice as loaded, which is zero; and
    when the total paid is zero or below it raises AttributeError and
    writes nothing.  It never stores another status than paid. *)
Theorem status_derivation_outcome (clk : Clock) (i : Z) (s : Store.t)
    (row : Invoice.t) :
  InvoiceRepository.row i s = Some row ->
  0 < Invoice.client_id row ->
  if (0 <? sum_paid i s)%float
  then exists s',
         PaymentService._update_invoice_payment_status clk i s = Return tt s'
         /\ stored_status i s' = Some InvoiceStatus.PAID
         /\ Store.payments s' = Store.payments s
  else PaymentService._update_invoice_payment_status clk i s
       = Raise AttributeError s.
Proof.
  intros Hrow Hc. rewrite derivation_outcome, Hrow, total_paid_sum.
  apply Z.leb_gt in Hc. rewrite Hc.
  rewrite <- (above_zero (sum_paid i s) (or_zero_is_number _)).
  destruct (sum_paid i s =? 0)%float; [reflexivity|].
  destruct (0 <=? sum_paid i s)%float; [|reflexivity].
  destruct (InvoiceStatus.eqb (Invoice.status row) InvoiceStatus.PAID) eqn:Hp.
  - exists s. split; [reflexivity|]. split; [|reflexivity].
    unfold stored_status. rewrite Hrow. simpl.
    apply status_eqb_eq in Hp. rewrite Hp. reflexivity.
  - eexists. split; [reflexivity|]. split; [|reflexivity].
    unfold stored_status. rewrite row_update_status, Hrow. reflexivity.
Qed.

(** The sent invoice of 2360.00 with one payment of 1360.00 is marked
    paid. *)
Lemma status_derivation_outcome_witness :
  exists s',
    PaymentService._update_invoice_payment_status Examples.clock 1
      Examples.sent_with_one_payment = Return tt s'
    /\ stored_status 1 s' = Some InvoiceStatus.PAID
    /\ Store.payments s' = Store.payments Examples.sent_with_one_payment.
Proof.
  apply (status_derivation_outcome Examples.clock 1
           Examples.sent_with_one_payment
           (Examples.invoice_of 1 InvoiceStatus.SENT)).
  - reflexivity.
  - reflexivity.
Defined.

(** X11.  [record_payment] raises on every input and stores nothing.  The
    exception is InvoiceNotFoundError when the invoice is missing.  When it
    exists, the exception is ValidationError if a check fails, and
    TypeError if every check passes: the payment object cannot be built,
    because the constructor is called with the keyword [transaction_id],
    which the dataclass does not declare.  The balance that the amount is
    checked against is that of the loaded invoice, whose total is zero:
    for a total paid that is not below zero, every amount that is a number
    fails a check. *)
Theorem record_payment_outcome (decimal : Decimal.arithmetic) (clk : Clock)
    (invoice_id : Z) (amount : float) (payment_date : option Z)
    (payment_method : option PaymentMethod.t)
    (transaction_id notes : option string) (s : Store.t) :
  PaymentService.record_payment decimal clk invoice_id amount payment_date
    payment_method transaction_id notes s
  = match InvoiceRepository.row invoice_id s with
    | None => Raise InvoiceNotFoundError s
    | Some row =>
        if record_checks_pass invoice_id amount transaction_id s row
        then Raise TypeError s
        else Raise ValidationError s
    end
  /\ (forall row,
        InvoiceRepository.row invoice_id s = Some row ->
        (0 <=? sum_paid invoice_id s)%float = true ->
        PrimFloat.is_nan amount = false ->
        record_checks_pass invoice_id amount transaction_id s row = false).
Proof.
  split.
  - apply record_payment_cases.
  - intros row Hrow Hpaid Hnum. unfold record_checks_pass.
    destruct (0 <? Invoice.client_id row); [|reflexivity].
    destruct (negb (InvoiceStatus.eqb _ _)); [|reflexivity].
    destruct (amount <=? 0)%float eqn:Ha; [reflexivity|].
    rewrite (below_zero_exceeded _ _ Hpaid Ha Hnum). reflexivity.
Qed.

(** X31.  No stored payment can be read: for a payment that exists,
    [get_payment] raises ValidationError, because the object that
    [from_dict] builds of a row has no client; for one that does not, it
    raises the class named PaymentNotFoundError.  It writes nothing. *)
Theorem stored_payments_do_not_load (decimal : Decimal.arithmetic)
    (not_found : exn) (clk : Clock) (payment_id : Z) (s : Store.t) :
  (forall data, Payment.from_dict decimal clk data = Err ValidationError)
  /\ PaymentService.get_payment decimal not_found clk payment_id s
     = Raise match PaymentRepository.row payment_id s with
             | Some _ => ValidationError
             | None => not_found
             end s.
Proof.
  split.
  - intros data. apply payment_never_loads.
  - apply (payment_mutation_raises decimal not_found clk payment_id None None
             None None None s).
Qed.

(** X14.  [get_invoice_payment_status] reads and never writes.  It raises
    InvoiceNotFoundError for an invoice that is missing and
    ValidationError for one that does not load.  For one that loads, the
    total it reports is that of the loaded invoice, zero, whatever total
    is stored: the amount remaining is zero less the total paid, and the
    percentage paid is 0. *)
Theorem payment_status_query (clk : Clock) (invoice_id : Z) (s : Store.t) :
  match InvoiceRepository.row invoice_id s with
  | None =>
      PaymentService.get_invoice_payment_status clk invoice_id s
      = Raise InvoiceNotFoundError s
  | Some row =>
      if Invoice.client_id row <=? 0
      then PaymentService.get_invoice_payment_status clk invoice_id s
           = Raise ValidationError s
      else
        exists st,
          PaymentService.get_invoice_payment_status clk invoice_id s
          = Return st s
          /\ PaymentService.invoice_id st = invoice_id
          /\ PaymentService.total_amount st = 0%float
          /\ PaymentService.amount_paid st = sum_paid invoice_id s
          /\ PaymentService.amount_remaining st
             = (0 - sum_paid invoice_id s)%float
          /\ PaymentService.is_fully_paid st
             = (0 - sum_paid invoice_id s <=? 0)%float
          /\ PaymentService.payment_percentage st = 0%float
  end.
Proof.
  unfold PaymentService.get_invoice_payment_status, bind.
  pose proof (load_invoice clk invoice_id s) as Hload.
  destruct (InvoiceRepository.row invoice_id s) as [row|];
    [|rewrite Hload; reflexivity].
  destruct (Invoice.client_id row <=? 0); [rewrite Hload; reflexivity|].
  destruct Hload as (inv & -> & _ & Htotal & _).
  eexists. split; [reflexivity|]. simpl. rewrite Htotal, total_paid_sum.
  repeat split; reflexivity.
Qed.

(** ** Strings: strip and lower *)

Lemma lstrip_idem (s : string) : Py.lstrip (Py.lstrip s) = Py.lstrip s.
Proof.
  induction s as [|c s IH]; simpl; [reflexivity|].
  destruct (Py.isspace c) eqn:Hc; [exact IH|].
  simpl. rewrite Hc. reflexivity.
Qed.

Lemma append_assoc (a b c : string) :
  ((a ++ b) ++ c = a ++ (b ++ c))%string.
Proof.
  induction a as [|x a IH]; simpl; [reflexivity|]. rewrite IH. reflexivity.
Qed.

Lemma reverse_acc (s : string) :
  forall acc, Py.reverse s acc = (Py.reverse s EmptyString ++ acc)%string.
Proof.
  induction s as [|c s IH]; simpl; intros acc; [reflexivity|].
  rewrite (IH (String c acc)), (IH (String c EmptyString)).
  rewrite append_assoc. reflexivity.
Qed.

Lemma reverse_snoc (u : string) (c : ascii) :
  forall acc,
    Py.reverse (u ++ String c EmptyString)%string acc
    = String c (Py.reverse u acc).
Proof.
  induction u as [|a u IH]; simpl; intros acc; [reflexivity|].
  apply IH.
Qed.

Lemma reverse_involutive (s : string) :
  Py.reverse (Py.reverse s EmptyString) EmptyString = s.
Proof.
  induction s as [|c s IH]; simpl; [reflexivity|].
  rewrite (reverse_acc s (String c EmptyString)), reverse_snoc, IH.
  reflexivity.
Qed.

Lemma rstrip_idem (s : string) : Py.rstrip (Py.rstrip s) = Py.rstrip s.
Proof.
  unfold Py.rstrip. rewrite reverse_involutive, lstrip_idem. reflexivity.
Qed.

Lemma lstrip_trimmed (s : string) : Text.trimmed_left (Py.lstrip s) = true.
Proof.
  induction s as [|c s IH]; simpl; [reflexivity|].
  destruct (Py.isspace c) eqn:Hc; [exact IH|].
  simpl. rewrite Hc. reflexivity.
Qed.

Lemma lstrip_of_trimmed (s : string) :
  Text.trimmed_left s = true -> Py.lstrip s = s.
Proof.
  destruct s as [|c s]; simpl; [reflexivity|].
  destruct (Py.isspace c); [discriminate|reflexivity].
Qed.

Lemma lstrip_snoc (x : string) (c : ascii) :
  Py.isspace c = false ->
  exists u, Py.lstrip (x ++ String c EmptyString)%string
            = (u ++ String c EmptyString)%string.
Proof.
  intros Hc. induction x as [|a x IH]; simpl.
  - rewrite Hc. exists EmptyString. reflexivity.
  - destruct (Py.isspace a); [exact IH|].
    exists (String a x). reflexivity.
Qed.

Lemma rstrip_trimmed (s : string) :
  Text.trimmed_left s = true -> Text.trimmed_left (Py.rstrip s) = true.
Proof.
  destruct s as [|c s]; simpl; [reflexivity|].
  intros Hc. apply negb_true_iff in Hc.
  unfold Py.rstrip. simpl.
  rewrite (reverse_acc s (String c EmptyString)).
  destruct (lstrip_snoc (Py.reverse s EmptyString) c Hc) as [u ->].
  rewrite reverse_snoc. simpl. rewrite Hc. reflexivity.
Qed.

Lemma strip_idem (s : string) : Py.strip (Py.strip s) = Py.strip s.
Proof.
  unfold Py.strip.
  rewrite (lstrip_of_trimmed (Py.rstrip (Py.lstrip s))).
  - apply rstrip_idem.
  - apply rstrip_trimmed, lstrip_trimmed.
Qed.

Ltac each_character c :=
  destruct c as [[] [] [] [] [] [] [] []]; vm_compute; reflexivity.

Lemma lower_char_idem (c : ascii) :
  Text.lower_char (Text.lower_char c) = Text.lower_char c.
Proof. each_character c. Qed.

Lemma isspace_lower_char (c : ascii) :
  Py.isspace (Text.lower_char c) = Py.isspace c.
Proof. each_character c. Qed.

Lemma at_lower_char (c : ascii) :
  Ascii.eqb "@" (Text.lower_char c) = Ascii.eqb "@" c.
Proof. each_character c. Qed.

Lemma at_not_space (c : ascii) :
  Py.isspace c = true -> Ascii.eqb "@" c = false.
Proof. destruct c as [[] [] [] [] [] [] [] []]; vm_compute; congruence. Qed.

Lemma lower_idem (s : string) : Text.lower (Text.lower s) = Text.lower s.
Proof.
  induction s as [|c s IH]; simpl; [reflexivity|].
  rewrite lower_char_idem, IH. reflexivity.
Qed.

Lemma lstrip_lower (s : string) :
  Py.lstrip (Text.lower s) = Text.lower (Py.lstrip s).
Proof.
  induction s as [|c s IH]; simpl; [reflexivity|].
  rewrite isspace_lower_char. destruct (Py.isspace c); [exact IH|reflexivity].
Qed.

Lemma reverse_lower (s : string) :
  forall acc,
    Py.reverse (Text.lower s) (Text.lower acc)
    = Text.lower (Py.reverse s acc).
Proof.
  induction s as [|c s IH]; simpl; intros acc; [reflexivity|].
  apply (IH (String c acc)).
Qed.

Lemma rstrip_lower (s : string) :
  Py.rstrip (Text.lower s) = Text.lower (Py.rstrip s).
Proof.
  unfold Py.rstrip.
  change (Py.reverse (Text.lower s) EmptyString)
    with (Py.reverse (Text.lower s) (Text.lower EmptyString)).
  rewrite reverse_lower, lstrip_lower.
  apply (reverse_lower _ EmptyString).
Qed.

Lemma strip_lower (s : string) :
  Py.strip (Text.lower s) = Text.lower (Py.strip s).
Proof.
  unfold Py.strip. rewrite lstrip_lower. apply rstrip_lower.
Qed.

Lemma nonempty_lower (s : string) :
  Py.nonempty (Text.lower s) = Py.nonempty s.
Proof. destruct s; reflexivity. Qed.

Lemma contains_at_lower (s : string) :
  Text.contains "@" (Text.lower s) = Text.contains "@" s.
Proof.
  induction s as [|c s IH]; [reflexivity|].
  cbn [Text.contains Text.lower].
  rewrite at_lower_char, IH. reflexivity.
Qed.

Lemma contains_at_lstrip (s : string) :
  Text.contains "@" (Py.lstrip s) = Text.contains "@" s.
Proof.
  induction s as [|c s IH]; [reflexivity|].
  cbn [Text.contains Py.lstrip].
  destruct (Py.isspace c) eqn:Hc; [|reflexivity].
  rewrite (at_not_space c Hc). exact IH.
Qed.

Lemma contains_reverse (c : ascii) (s : string) :
  forall acc,
    Text.contains c (Py.reverse s acc)
    = Text.contains c s || Text.contains c acc.
Proof.
  induction s as [|a s IH]; intros acc; [reflexivity|].
  cbn [Py.reverse]. rewrite IH. cbn [Text.contains].
  destruct (Ascii.eqb c a), (Text.contains c s); reflexivity.
Qed.

Lemma contains_at_strip (s : string) :
  Text.contains "@" (Py.strip s) = Text.contains "@" s.
Proof.
  unfold Py.strip, Py.rstrip.
  rewrite contains_reverse, contains_at_lstrip, contains_reverse.
  rewrite contains_at_lstrip. cbn [Text.contains].
  rewrite !orb_false_r. reflexivity.
Qed.

Lemma normalise_idem (email : string) :
  ClientService.normalise (ClientService.normalise email)
  = ClientService.normalise email.
Proof.
  unfold ClientService.normalise.
  rewrite strip_lower, lower_idem, strip_idem. reflexivity.
Qed.

(** ** Clients *)

Lemma fold_max_ge (l : list Z) :
  forall a,
    a <= fold_left Z.max l a
    /\ forall x, In x l -> x <= fold_left Z.max l a.
Proof.
  induction l as [|y l IH]; simpl; intros a.
  - split; [lia|tauto].
  - destruct (IH (Z.max a y)) as [H1 H2]. split; [lia|].
    intros x [<-|Hx]; [lia|auto].
Qed.

Lemma max_id_bound (ids : list (option Z)) (j : Z) :
  In (Some j) ids -> j <= Database.max_id ids.
Proof.
  intros H. unfold Database.max_id.
  apply (proj2 (fold_max_ge _ 0)).
  apply (in_map (fun i => match i with Some j => j | None => 0 end)) in H.
  exact H.
Qed.

Lemma find_none_existsb {A : Type} (f : A -> bool) (l : list A) :
  find f l = None -> existsb f l = false.
Proof.
  induction l as [|x l IH]; simpl; [reflexivity|].
  destruct (f x); [discriminate|exact IH].
Qed.

Lemma find_map_write {A : Type} (hit : A -> bool) (write : A -> A)
    (l : list A) :
  (forall r, hit (write r) = hit r) ->
  find hit (map write l) = option_map write (find hit l).
Proof.
  intros Hw. induction l as [|x l IH]; simpl; [reflexivity|].
  rewrite Hw. destruct (hit x); [reflexivity|exact IH].
Qed.

Lemma find_app_fresh {A : Type} (hit : A -> bool) (l : list A) (x : A) :
  existsb hit l = false -> hit x = true -> find hit (l ++ [x]) = Some x.
Proof.
  intros Hl Hx. induction l as [|y l IH]; simpl in *.
  - rewrite Hx. reflexivity.
  - apply orb_false_iff in Hl. destruct Hl as [Hy Hl].
    rewrite Hy. exact (IH Hl).
Qed.

Lemma nodup_map_eq {A B : Type} (f : A -> B) (l : list A) (a b : A) :
  NoDup (map f l) -> In a l -> In b l -> f a = f b -> a = b.
Proof.
  induction l as [|x l IH]; simpl; intros Hn Ha Hb Hf; [tauto|].
  inversion Hn as [|? ? Hx Hn']; subst.
  destruct Ha as [->|Ha], Hb as [->|Hb]; auto.
  - exfalso. apply Hx. rewrite Hf. apply in_map. exact Hb.
  - exfalso. apply Hx. rewrite <- Hf. apply in_map. exact Ha.
Qed.

Lemma filtered_rows_keyed {Row Key : Type} (key : Row -> Key)
    (keep : Row -> bool) (rows : list Row) :
  NoDup (map key rows) -> NoDup (map key (filter keep rows)).
Proof.
  induction rows as [|r rows IH]; simpl; intros Hkeys; [constructor|].
  inversion Hkeys as [|? ? Hr Hrest]; subst.
  destruct (keep r); simpl; [|auto].
  constructor; [|auto].
  intros Hin. apply Hr. apply in_map_iff in Hin.
  destruct Hin as (r' & Hsame & Hin). apply filter_In in Hin.
  rewrite <- Hsame. apply in_map. tauto.
Qed.

Lemma no_email (email : string) (l : list Client.t) :
  existsb (ClientRepository.has_email email) l = false ->
  ~ In email (map Client.email l).
Proof.
  intros H Hin. apply in_map_iff in Hin. destruct Hin as (r & Hr & Hin).
  assert (existsb (ClientRepository.has_email email) l = true) as Ht.
  { apply existsb_exists. exists r. split; [exact Hin|].
    unfold ClientRepository.has_email. rewrite Hr. apply String.eqb_refl. }
  congruence.
Qed.

Lemma client_row_id (i : Z) (d : Database.t) (r : Client.t) :
  ClientRepository.row i d = Some r -> Client.id r = Some i.
Proof.
  intros H. apply find_some in H. destruct H as [_ H].
  unfold Store.has_id in H. destruct (Client.id r) as [j|]; [|discriminate].
  apply Z.eqb_eq in H. congruence.
Qed.

Lemma from_dict_loads (r : Client.t) :
  Client.from_dict r
  = if client_loads r then Ok r else Err ValidationError.
Proof.
  unfold Client.from_dict, Client.init, Client.post_init, client_loads.
  destruct (Py.nonempty (Py.strip (Client.name r))); [|reflexivity].
  destruct (Py.nonempty (Py.strip (Client.email r))); [|reflexivity].
  destruct (Text.contains "@" (Client.email r)); reflexivity.
Qed.

Lemma fetched_loads (found : option Client.t) (d : Database.t) :
  ClientRepository.fetched found d
  = match found with
    | Some r =>
        if client_loads r then Wide.Return (Some r) d
        else Wide.Raise (Wide.Known ValidationError) d
    | None => Wide.Return None d
    end.
Proof.
  destruct found as [r|]; [|reflexivity].
  unfold ClientRepository.fetched, ClientRepository._row_to_model, Wide.bind.
  rewrite from_dict_loads. destruct (client_loads r); reflexivity.
Qed.

Lemma client_of_keywords_loads (clk : Clock) (name email : string)
    (phone company address : option string) :
  client_loads
    (ClientService.client_of_keywords clk name email phone company address)
  = Py.nonempty (Py.strip name) && Py.nonempty (Py.strip email)
    && Text.contains "@" email.
Proof.
  unfold client_loads, ClientService.client_of_keywords,
    ClientService.normalise. cbn [Client.name Client.email].
  rewrite strip_idem, strip_lower, strip_idem, nonempty_lower.
  rewrite contains_at_lower, contains_at_strip. reflexivity.
Qed.

Lemma create_client_eq (clk : Clock) (name email : string)
    (phone company address : option string) (d : Database.t) :
  let taken := fun e =>
    existsb (ClientRepository.has_email e) (Database.clients d) in
  let valid :=
    Py.nonempty (Py.strip name) && Py.nonempty (Py.strip email)
    && Text.contains "@" email in
  ClientService.create_client clk name email phone company address d
  = if taken email || negb valid
    then Wide.Raise (Wide.Known ValidationError) d
    else if taken (ClientService.normalise email)
    then Wide.Raise (Wide.Known DatabaseError) d
    else
      let client :=
        Client.with_id (Some (ClientRepository.next_id d))
          (ClientService.client_of_keywords clk name email phone company
             address) in
      Wide.Return client
        (Database.with_clients (Database.clients d ++ [client])
           (ClientRepository.next_id d) d).
Proof.
  intros taken valid. subst taken valid.
  unfold ClientService.create_client, Wide.bind,
    ClientRepository.find_by_email.
  rewrite fetched_loads.
  destruct (find (ClientRepository.has_email email) (Database.clients d))
    as [r|] eqn:Hfind.
  - rewrite (find_existsb _ _ _ Hfind). simpl.
    destruct (client_loads r); reflexivity.
  - rewrite (find_none_existsb _ _ Hfind). cbn [orb].
    unfold Client.init, Client.post_init.
    rewrite <- (client_of_keywords_loads clk name email phone company address).
    unfold client_loads.
    destruct (Py.nonempty (Py.strip (Client.name _))); [|reflexivity].
    destruct (Py.nonempty (Py.strip (Client.email _))); [|reflexivity].
    destruct (Text.contains "@" (Client.email _)); [|reflexivity].
    cbn [negb andb constructed Wide.new Wide.ret].
    unfold ClientRepository.create.
    cbn [Client.email ClientService.client_of_keywords].
    destruct (existsb _ _); reflexivity.
Qed.

Lemma existsb_find {A : Type} (f : A -> bool) (l : list A) :
  existsb f l = true -> exists x, find f l = Some x.
Proof.
  induction l as [|y l IH]; simpl; [discriminate|].
  destruct (f y); [eauto|exact IH].
Qed.

(** What [update_client] does before it calls the repository: it fails,
    or it hands over the loaded object with the given fields assigned. *)
Lemma update_client_cases (clk : Clock) (i : Z)
    (name email phone company address : option string) (d : Database.t) :
  (ClientRepository.row i d = None
   /\ ClientService.update_client clk i name email phone company address d
      = Wide.Raise Wide.ClientNotFoundError d)
  \/ ClientService.update_client clk i name email phone company address d
     = Wide.Raise (Wide.Known ValidationError) d
  \/ exists r c,
       ClientService.update_client clk i name email phone company address d
       = ClientRepository.update clk c d
       /\ ClientRepository.row i d = Some r
       /\ client_loads r = true
       /\ Client.id c = Some i
       /\ Client.created_at c = Client.created_at r
       /\ Client.updated_at c = Some (now clk)
       /\ Client.name c
          = match name with Some v => Py.strip v | None => Client.name r end
       /\ Client.email c
          = match email with
            | Some v => ClientService.normalise v
            | None => Client.email r
            end
       /\ match email with
          | Some v =>
              forall o,
                find (ClientRepository.has_email (ClientService.normalise v))
                  (Database.clients d) = Some o ->
                Store.has_id i (Client.id o) = true
          | None => True
          end.
Proof.
  unfold ClientService.update_client, Wide.bind,
    ClientRepository.find_by_id, ClientRepository.find_by_email.
  rewrite fetched_loads.
  destruct (ClientRepository.row i d) as [r|] eqn:Hrow; [|left; auto].
  right.
  destruct (client_loads r) eqn:Hload; [|left; reflexivity].
  pose proof (client_row_id _ _ _ Hrow) as Hid.
  destruct email as [v|].
  - rewrite fetched_loads.
    destruct (find _ _) as [o|] eqn:Hfind.
    + destruct (client_loads o); [|left; reflexivity].
      destruct (Store.has_id i (Client.id o)) eqn:Ho; simpl;
        [|left; reflexivity].
      right. eexists r, _. split; [reflexivity|].
      repeat split; try assumption;
        try (destruct name, phone, company, address; simpl;
             solve [reflexivity | assumption]).
      intros o' Ho'. congruence.
    + right. eexists r, _. split; [reflexivity|].
      repeat split; try assumption;
        try (destruct name, phone, company, address; simpl;
             solve [reflexivity | assumption]).
      intros o' Ho'. discriminate.
  - right. eexists r, _. split; [reflexivity|].
    repeat split; try assumption;
      try (destruct name, phone, company, address; simpl;
           solve [reflexivity | assumption]).
Qed.

Lemma emails_after_write (hit : Client.t -> bool) (e : string)
    (write : Client.t -> Client.t) (l : list Client.t) :
  (forall r, Client.email (write r) = if hit r then e else Client.email r) ->
  (forall a b, In a l -> In b l -> hit a = true -> hit b = true -> a = b) ->
  existsb (fun r => negb (hit r) && ClientRepository.has_email e r) l = false ->
  NoDup (map Client.email l) ->
  NoDup (map Client.email (map write l)).
Proof.
  intros Hw. induction l as [|x l IH]; simpl; intros Hone Hclash Hn;
    [constructor|].
  apply orb_false_iff in Hclash. destruct Hclash as [Hx Hclash].
  inversion Hn as [|? ? Hnx Hn']; subst.
  constructor.
  - intros Hin. apply in_map_iff in Hin. destruct Hin as (y' & Hy' & Hin).
    apply in_map_iff in Hin. destruct Hin as (y & <- & Hin).
    rewrite !Hw in Hy'.
    assert (existsb (fun r => negb (hit r) && ClientRepository.has_email e r) l
            = true -> False) as Hno by congruence.
    destruct (hit x) eqn:Hhx, (hit y) eqn:Hhy.
    + assert (x = y) as -> by (apply Hone; auto).
      apply Hnx. apply in_map. exact Hin.
    + apply Hno. apply existsb_exists. exists y. split; [exact Hin|].
      rewrite Hhy. unfold ClientRepository.has_email. rewrite Hy'.
      simpl. apply String.eqb_refl.
    + simpl in Hx. unfold ClientRepository.has_email in Hx.
      rewrite <- Hy', String.eqb_refl in Hx. discriminate.
    + apply Hnx. rewrite <- Hy'. apply in_map. exact Hin.
  - apply IH; auto.
Qed.

Lemma one_hit (i : Z) (l : list Client.t) (a b : Client.t) :
  NoDup (map Client.id l) -> In a l -> In b l ->
  Store.has_id i (Client.id a) = true -> Store.has_id i (Client.id b) = true ->
  a = b.
Proof.
  intros Hn Ha Hb Hia Hib. apply (nodup_map_eq Client.id l); auto.
  unfold Store.has_id in *.
  destruct (Client.id a), (Client.id b); try discriminate.
  apply Z.eqb_eq in Hia, Hib. congruence.
Qed.

Lemma update_keeps_keyed (clk : Clock) (c : Client.t) (d : Database.t) :
  keyed_clients d ->
  keyed_clients (Wide.final_state (ClientRepository.update clk c d)).
Proof.
  intros [Hids Hemails]. unfold ClientRepository.update.
  destruct (existsb _ (Database.clients d)); [|split; assumption].
  destruct (existsb _ (Database.clients d)) eqn:Hclash; [split; assumption|].
  unfold keyed_clients. cbn [Wide.final_state Database.clients
    Database.with_clients].
  split.
  - rewrite map_map.
    erewrite map_ext; [exact Hids|].
    intros r. destruct (match Client.id c with Some _ => _ | None => _ end);
      reflexivity.
  - destruct (Client.id c) as [i|] eqn:Hc.
    + apply (emails_after_write
               (fun r => Store.has_id i (Client.id r)) (Client.email c));
        auto.
      * intros r. destruct (Store.has_id i (Client.id r)); reflexivity.
      * intros a b. apply one_hit. exact Hids.
    + rewrite map_map. simpl. exact Hemails.
Qed.

(** The row of a client after the repository has written an object that
    was loaded from it. *)
Lemma update_returns (clk : Clock) (c r : Client.t) (i : Z)
    (d : Database.t) :
  keyed_clients d ->
  ClientRepository.row i d = Some r ->
  Client.id c = Some i ->
  Client.created_at c = Client.created_at r ->
  Client.updated_at c = Some (now clk) ->
  (Client.email c = Client.email r
   \/ forall o,
        find (ClientRepository.has_email (Client.email c))
          (Database.clients d) = Some o ->
        Store.has_id i (Client.id o) = true) ->
  exists d',
    ClientRepository.update clk c d = Wide.Return c d'
    /\ ClientRepository.row i d' = Some c
    /\ Database.projects d' = Database.projects d
    /\ Database.billing d' = Database.billing d.
Proof.
  intros [Hids Hemails] Hrow Hid Hcr Hup Hmail.
  pose proof (find_some _ _ Hrow) as [Hin Hhit].
  unfold ClientRepository.update. rewrite Hid.
  rewrite (find_existsb _ _ _ Hrow).
  assert (existsb
            (fun r0 => negb (Store.has_id i (Client.id r0))
                       && ClientRepository.has_email (Client.email c) r0)
            (Database.clients d) = false) as ->.
  { destruct (existsb _ _) eqn:Hclash; [|reflexivity]. exfalso.
    apply existsb_exists in Hclash. destruct Hclash as (x & Hx & Hc).
    apply andb_true_iff in Hc. destruct Hc as [Hnot Hsame].
    apply negb_true_iff in Hnot.
    unfold ClientRepository.has_email in Hsame.
    apply String.eqb_eq in Hsame.
    destruct Hmail as [Hmail|Hmail].
    - assert (x = r) as -> by
        (apply (nodup_map_eq Client.email (Database.clients d)); auto;
         congruence).
      congruence.
    - destruct (existsb_find
                  (ClientRepository.has_email (Client.email c))
                  (Database.clients d)) as [o Ho].
      { apply existsb_exists. exists x. split; [exact Hx|].
        unfold ClientRepository.has_email. rewrite Hsame.
        apply String.eqb_refl. }
      pose proof (Hmail o Ho) as Hoi.
      apply find_some in Ho. destruct Ho as [Hino Hoe].
      unfold ClientRepository.has_email in Hoe. apply String.eqb_eq in Hoe.
      assert (x = o) as -> by
        (apply (nodup_map_eq Client.email (Database.clients d)); auto;
         congruence).
      congruence. }
  eexists. split; [reflexivity|]. split; [|split; reflexivity].
  unfold ClientRepository.row. cbn [Database.clients Database.with_clients].
  rewrite find_map_write.
  - fold (ClientRepository.row i d). rewrite Hrow. simpl. f_equal.
    rewrite Hhit. pose proof (client_row_id _ _ _ Hrow) as Hrid.
    clear - Hid Hcr Hup Hrid.
    destruct c, r; simpl in *; subst. reflexivity.
  - intros x. destruct (Store.has_id i (Client.id x)) eqn:Hx;
      exact Hx.
Qed.



Lemma next_client_id_fresh (d : Database.t) :
  existsb (fun r => Store.has_id (ClientRepository.next_id d) (Client.id r))
    (Database.clients d) = false.
Proof.
  destruct (existsb _ _) eqn:H; [|reflexivity]. exfalso.
  apply existsb_exists in H. destruct H as (r & Hin & Hr).
  unfold Store.has_id in Hr.
  destruct (Client.id r) as [j|] eqn:Hj; [|discriminate].
  apply Z.eqb_eq in Hr. subst j.
  assert (ClientRepository.next_id d
          <= Database.max_id (map Client.id (Database.clients d))) as Hle.
  { apply max_id_bound. rewrite <- Hj. apply in_map. exact Hin. }
  unfold ClientRepository.next_id in Hle. lia.
Qed.

Lemma samples_keyed : keyed_clients Samples.database.
Proof.
  split; simpl; repeat constructor; simpl; intuition discriminate.
Qed.

(** X16.  [create_client] looks for the email as it was given, and stores
    it stripped and in lower case.  It raises ValidationError when a row
    has the email as given, or when the name or the email is blank or the
    email has no "@"; it raises DatabaseError, from the UNIQUE column,
    when no row has the email as given but one has its stored form; else
    it returns the new client, appended to the table under the next
    identifier.  When it raises the database is as it was. *)
Theorem create_client_outcome (clk : Clock) (name email : string)
    (phone company address : option string) (d : Database.t) :
  let taken := fun e =>
    existsb (ClientRepository.has_email e) (Database.clients d) in
  let valid :=
    Py.nonempty (Py.strip name) && Py.nonempty (Py.strip email)
    && Text.contains "@" email in
  ClientService.create_client clk name email phone company address d
  = if taken email || negb valid
    then Wide.Raise (Wide.Known ValidationError) d
    else if taken (ClientService.normalise email)
    then Wide.Raise (Wide.Known DatabaseError) d
    else
      let client :=
        Client.with_id (Some (ClientRepository.next_id d))
          (ClientService.client_of_keywords clk name email phone company
             address) in
      Wide.Return client
        (Database.with_clients (Database.clients d ++ [client])
           (ClientRepository.next_id d) d).
Proof. exact (create_client_eq clk name email phone company address d). Qed.

(** X17.  The primary key and the UNIQUE email of the clients table hold
    after [create_client], [update_client] and [delete_client], whatever
    their outcome, when they held before. *)
Theorem clients_stay_keyed (clk : Clock) (d : Database.t) :
  keyed_clients d ->
  (forall name email phone company address,
     keyed_clients
       (Wide.final_state
          (ClientService.create_client clk name email phone company
             address d)))
  /\ (forall i name email phone company address,
        keyed_clients
          (Wide.final_state
             (ClientService.update_client clk i name email phone company
                address d)))
  /\ (forall i,
        keyed_clients (Wide.final_state (ClientService.delete_client i d))).
Proof.
  intros Hk. split; [|split].
  - intros name email phone company address.
    rewrite create_client_eq. cbv zeta.
    destruct (existsb (ClientRepository.has_email email) _); [exact Hk|].
    destruct (Py.nonempty (Py.strip name) && Py.nonempty (Py.strip email)
              && Text.contains "@" email); [|exact Hk].
    cbn [orb negb].
    destruct (existsb _ _) eqn:Htaken; [exact Hk|].
    destruct Hk as [Hids Hemails].
    unfold keyed_clients. cbn [Wide.final_state Database.clients
      Database.with_clients].
    rewrite !map_app. split.
    + apply NoDup_app; [exact Hids|repeat constructor; simpl; tauto|].
      intros a Ha [<-|[]]. apply in_map_iff in Ha.
      destruct Ha as (r & Hr & Hin).
      pose proof (next_client_id_fresh d) as Hfresh.
      assert (existsb
                (fun r => Store.has_id (ClientRepository.next_id d)
                            (Client.id r)) (Database.clients d) = true) as Ht.
      { apply existsb_exists. exists r. split; [exact Hin|].
        simpl in Hr. rewrite Hr. simpl. apply Z.eqb_refl. }
      congruence.
    + apply NoDup_app; [exact Hemails|repeat constructor; simpl; tauto|].
      intros a Ha [<-|[]]. revert Ha. apply no_email. exact Htaken.
  - intros i name email phone company address.
    destruct (update_client_cases clk i name email phone company address d)
      as [[_ ->]|[->|(r & c & -> & _)]]; try exact Hk.
    apply update_keeps_keyed. exact Hk.
  - intros i. unfold ClientService.delete_client, Wide.bind,
      ClientRepository.find_by_id.
    rewrite fetched_loads.
    destruct (ClientRepository.row i d) as [r|]; [|exact Hk].
    destruct (client_loads r); [|exact Hk].
    destruct Hk as [Hids Hemails].
    split; cbn [Wide.final_state ClientRepository.delete Database.clients
      Database.with_clients]; apply filtered_rows_keyed; assumption.
Qed.

Lemma clients_stay_keyed_witness :
  keyed_clients
    (Wide.final_state
       (ClientService.create_client Examples.clock "Mira" "Mira@Dock.example"
          None None None Samples.database)).
Proof.
  exact (proj1 (clients_stay_keyed Examples.clock Samples.database
                  samples_keyed) "Mira" "Mira@Dock.example" None None None).
Defined.

(** X18.  The client that [create_client] returns is the one that
    [get_client] gives back for its identifier, and no other row has this
    identifier. *)
Theorem created_client_is_stored (clk : Clock) (name email : string)
    (phone company address : option string) (d d' : Database.t)
    (c : Client.t) :
  ClientService.create_client clk name email phone company address d
  = Wide.Return c d' ->
  exists i,
    Client.id c = Some i
    /\ ClientService.get_client i d' = Wide.Return c d'
    /\ ClientRepository.row i d = None
    /\ Client.email c = ClientService.normalise email
    /\ ClientService.normalise (Client.email c) = Client.email c.
Proof.
  rewrite create_client_eq. cbv zeta.
  destruct (existsb (ClientRepository.has_email email) _); [discriminate|].
  destruct (Py.nonempty (Py.strip name) && Py.nonempty (Py.strip email)
            && Text.contains "@" email) eqn:Hvalid; [|discriminate].
  cbn [orb negb].
  destruct (existsb _ _); [discriminate|].
  intros H. injection H as <- <-.
  exists (ClientRepository.next_id d).
  pose proof (next_client_id_fresh d) as Hfresh.
  split; [reflexivity|]. split; [|split; [|split]].
  - unfold ClientService.get_client, Wide.bind, ClientRepository.find_by_id.
    rewrite fetched_loads. unfold ClientRepository.row.
    cbn [Database.clients Database.with_clients].
    rewrite find_app_fresh.
    + change (client_loads (Client.with_id _ ?c)) with (client_loads c).
      rewrite client_of_keywords_loads, Hvalid. reflexivity.
    + exact Hfresh.
    + simpl. apply Z.eqb_refl.
  - unfold ClientRepository.row.
    destruct (find _ _) eqn:Hfind; [|reflexivity].
    rewrite (find_existsb _ _ _ Hfind) in Hfresh. discriminate.
  - reflexivity.
  - apply normalise_idem.
Qed.

Lemma created_client_is_stored_witness :
  exists i,
    Client.id Samples.mira = Some i
    /\ ClientService.get_client i Samples.with_mira
       = Wide.Return Samples.mira Samples.with_mira
    /\ ClientRepository.row i Samples.database = None
    /\ Client.email Samples.mira
       = ClientService.normalise " Mira@Dock.example"
    /\ ClientService.normalise (Client.email Samples.mira)
       = Client.email Samples.mira.
Proof.
  apply (created_client_is_stored Examples.clock " Mira "
           " Mira@Dock.example" None None None Samples.database).
  vm_compute. reflexivity.
Defined.

Lemma get_client_row (i : Z) (d : Database.t) :
  ClientService.get_client i d
  = match ClientRepository.row i d with
    | Some r =>
        if client_loads r then Wide.Return r d
        else Wide.Raise (Wide.Known ValidationError) d
    | None => Wide.Raise Wide.ClientNotFoundError d
    end.
Proof.
  unfold ClientService.get_client, Wide.bind, ClientRepository.find_by_id.
  rewrite fetched_loads.
  destruct (ClientRepository.row i d) as [r|]; [|reflexivity].
  destruct (client_loads r); reflexivity.
Qed.

Lemma unloadable_client (i : Z) (d : Database.t) (r : Client.t) :
  ClientRepository.row i d = Some r -> client_loads r = false ->
  ClientService.get_client i d = Wide.Raise (Wide.Known ValidationError) d
  /\ ClientService.delete_client i d
     = Wide.Raise (Wide.Known ValidationError) d
  /\ forall clk name email phone company address,
       ClientService.update_client clk i name email phone company address d
       = Wide.Raise (Wide.Known ValidationError) d.
Proof.
  intros Hrow Hload. split; [|split].
  - rewrite get_client_row, Hrow, Hload. reflexivity.
  - unfold ClientService.delete_client, Wide.bind,
      ClientRepository.find_by_id.
    rewrite fetched_loads, Hrow, Hload. reflexivity.
  - intros. unfold ClientService.update_client, Wide.bind,
      ClientRepository.find_by_id.
    rewrite fetched_loads, Hrow, Hload. reflexivity.
Qed.

(** X19.  On a table that keeps its key and its UNIQUE email,
    [update_client] raises ClientNotFoundError or ValidationError and
    leaves the database as it was, or it returns the client and has
    written it to its row, the projects, invoices and payments untouched.
    It never raises DatabaseError.  The written client is not validated:
    [get_client] gives it back when it passes the checks of the
    constructor and raises ValidationError when it does not. *)
Theorem update_client_outcome (clk : Clock) (i : Z)
    (name email phone company address : option string) (d : Database.t) :
  keyed_clients d ->
  match ClientService.update_client clk i name email phone company address d
  with
  | Wide.Return c d' =>
      ClientRepository.row i d' = Some c
      /\ Client.id c = Some i
      /\ Database.projects d' = Database.projects d
      /\ Database.billing d' = Database.billing d
      /\ ClientService.get_client i d'
         = if client_loads c then Wide.Return c d'
           else Wide.Raise (Wide.Known ValidationError) d'
  | Wide.Raise e d' =>
      d' = d
      /\ (e = Wide.ClientNotFoundError \/ e = Wide.Known ValidationError)
  end.
Proof.
  intros Hk.
  destruct (update_client_cases clk i name email phone company address d)
    as [[_ ->]|[->|(r & c & -> & Hrow & _ & Hid & Hcr & Hup & _ & Hmail & Hno)]];
    [auto|auto|].
  destruct (update_returns clk c r i d Hk Hrow Hid Hcr Hup)
    as (d' & -> & Hrow' & Hp & Hb).
  - destruct email as [v|]; [right|left; exact Hmail].
    rewrite Hmail. exact Hno.
  - repeat split; auto. rewrite get_client_row, Hrow'. reflexivity.
Qed.

Lemma update_client_outcome_witness :
  match ClientService.update_client Examples.clock 2 (Some "Lee Ann")
          (Some "ASHA@acme.example") None None None Samples.database
  with
  | Wide.Return c d' =>
      ClientRepository.row 2 d' = Some c
      /\ Client.id c = Some 2
      /\ Database.projects d' = Database.projects Samples.database
      /\ Database.billing d' = Database.billing Samples.database
      /\ ClientService.get_client 2 d'
         = if client_loads c then Wide.Return c d'
           else Wide.Raise (Wide.Known ValidationError) d'
  | Wide.Raise e d' =>
      d' = Samples.database
      /\ (e = Wide.ClientNotFoundError \/ e = Wide.Known ValidationError)
  end.
Proof.
  exact (update_client_outcome Examples.clock 2 (Some "Lee Ann")
           (Some "ASHA@acme.example") None None None Samples.database
           samples_keyed).
Defined.

(** X20.  [update_client] accepts a name that is blank: for a client that
    loads, on a table that keeps its key and its UNIQUE email, the update
    returns and stores the empty name, and from then on [get_client],
    [delete_client] and every further [update_client] of this client
    raise ValidationError. *)
Theorem update_client_blank_name (clk : Clock) (i : Z) (name : string)
    (phone company address : option string) (d : Database.t)
    (c0 : Client.t) :
  keyed_clients d ->
  ClientService.get_client i d = Wide.Return c0 d ->
  Py.nonempty (Py.strip name) = false ->
  exists c d',
    ClientService.update_client clk i (Some name) None phone company address d
    = Wide.Return c d'
    /\ Client.name c = EmptyString
    /\ ClientService.get_client i d'
       = Wide.Raise (Wide.Known ValidationError) d'
    /\ ClientService.delete_client i d'
       = Wide.Raise (Wide.Known ValidationError) d'
    /\ forall clk' name' email' phone' company' address',
         ClientService.update_client clk' i name' email' phone' company'
           address' d'
         = Wide.Raise (Wide.Known ValidationError) d'.
Proof.
  intros Hk Hget Hblank.
  rewrite get_client_row in Hget.
  destruct (ClientRepository.row i d) as [r|] eqn:Hrow; [|discriminate].
  destruct (client_loads r) eqn:Hload; [|discriminate].
  pose proof (client_row_id _ _ _ Hrow) as Hid.
  assert (Py.strip name = EmptyString) as Hname
    by (destruct (Py.strip name); [reflexivity|discriminate]).
  set (c := Client.update_timestamp clk
              (ClientService.assign address Client.with_address
                 (ClientService.assign company Client.with_company
                    (ClientService.assign phone Client.with_phone
                       (Client.with_name (Py.strip name) r))))).
  assert (ClientService.update_client clk i (Some name) None phone company
            address d = ClientRepository.update clk c d) as Heq.
  { unfold ClientService.update_client, Wide.bind,
      ClientRepository.find_by_id.
    rewrite fetched_loads, Hrow, Hload. reflexivity. }
  destruct (update_returns clk c r i d Hk Hrow) as (d' & Hup & Hrow' & _).
  - subst c. destruct phone, company, address; exact Hid.
  - subst c. destruct phone, company, address; reflexivity.
  - reflexivity.
  - left. subst c. destruct phone, company, address; reflexivity.
  - assert (Client.name c = EmptyString) as Hcn
      by (subst c; destruct phone, company, address; exact Hname).
    assert (client_loads c = false) as Hcl
      by (unfold client_loads; rewrite Hcn; reflexivity).
    exists c, d'. rewrite Heq. split; [exact Hup|]. split; [exact Hcn|].
    exact (unloadable_client i d' c Hrow' Hcl).
Qed.

Lemma update_client_blank_name_witness :
  exists c d',
    ClientService.update_client Examples.clock 1 (Some "  ") None None None
      None Samples.database
    = Wide.Return c d'
    /\ Client.name c = EmptyString
    /\ ClientService.get_client 1 d'
       = Wide.Raise (Wide.Known ValidationError) d'
    /\ ClientService.delete_client 1 d'
       = Wide.Raise (Wide.Known ValidationError) d'
    /\ forall clk' name' email' phone' company' address',
         ClientService.update_client clk' 1 name' email' phone' company'
           address' d'
         = Wide.Raise (Wide.Known ValidationError) d'.
Proof.
  apply (update_client_blank_name Examples.clock 1 "  " None None None
           Samples.database Samples.asha samples_keyed).
  - vm_compute. reflexivity.
  - vm_compute. reflexivity.
Defined.


(** ** Projects *)

Lemma nan_is_truthy (v : float) :
  PrimFloat.is_nan v = true -> Py.truthy v = true.
Proof.
  unfold PrimFloat.is_nan, Py.truthy.
  rewrite !FloatAxioms.eqb_spec.
  change (Prim2SF 0) with (S754_zero false).
  unfold SFeqb.
  destruct (Prim2SF v) as [[]|[]| |[] ? ?]; simpl; intros H;
    try reflexivity; try discriminate.
  all: rewrite Z.compare_refl, Pos.compare_cont_refl in H; discriminate.
Qed.

Lemma real_of_number (x : option float) :
  nan_rate x = false -> ProjectRepository.real x = x.
Proof.
  destruct x as [v|]; simpl; [|reflexivity].
  intros ->. reflexivity.
Qed.

Lemma real_of_nan (x : option float) :
  nan_rate x = true -> ProjectRepository.real x = None.
Proof.
  destruct x as [v|]; simpl; [|reflexivity].
  intros ->. reflexivity.
Qed.

Lemma truthy_real (x : option float) :
  Py.truthy_opt x = false -> Py.truthy_opt (ProjectRepository.real x) = false.
Proof.
  destruct x as [v|]; simpl; [|reflexivity].
  destruct (PrimFloat.is_nan v); [reflexivity|]. simpl. tauto.
Qed.

Lemma columns_of_real (p : Project.t) :
  real_rates p = true -> ProjectRepository.columns p = p.
Proof.
  unfold real_rates. intros H. apply andb_true_iff in H.
  destruct H as [Hh Hf]. apply negb_true_iff in Hh, Hf.
  unfold ProjectRepository.columns, ProjectFields.with_fixed_rate,
    ProjectFields.with_hourly_rate. simpl.
  rewrite (real_of_number _ Hh), (real_of_number _ Hf).
  destruct p; reflexivity.
Qed.

Lemma project_from_dict_loads (r : Project.t) :
  ProjectFields.from_dict r
  = if project_loads r then Ok r else Err ValidationError.
Proof.
  unfold ProjectFields.from_dict, Project.init, Project.post_init,
    project_loads.
  destruct (Py.nonempty (Py.strip (Project.name r))); [|reflexivity].
  rewrite (Z.ltb_antisym (Project.client_id r) 0).
  destruct (Project.client_id r <=? 0); [reflexivity|].
  destruct (Py.truthy_opt (Project.hourly_rate r)),
    (Py.truthy_opt (Project.fixed_rate r)),
    (Project.set_and_negative (Project.hourly_rate r)),
    (Project.set_and_negative (Project.fixed_rate r)); reflexivity.
Qed.

Lemma project_fetched_loads (found : option Project.t) (d : Database.t) :
  ProjectRepository.fetched found d
  = match found with
    | Some r =>
        if project_loads r then Wide.Return (Some r) d
        else Wide.Raise (Wide.Known ValidationError) d
    | None => Wide.Return None d
    end.
Proof.
  destruct found as [r|]; [|reflexivity].
  unfold ProjectRepository.fetched, ProjectRepository._row_to_model,
    Wide.bind.
  rewrite project_from_dict_loads. destruct (project_loads r); reflexivity.
Qed.

Lemma get_project_row (i : Z) (d : Database.t) :
  ProjectService.get_project i d
  = match ProjectRepository.row i d with
    | Some r =>
        if project_loads r then Wide.Return r d
        else Wide.Raise (Wide.Known ValidationError) d
    | None => Wide.Raise Wide.ProjectNotFoundError d
    end.
Proof.
  unfold ProjectService.get_project, Wide.bind, ProjectRepository.find_by_id.
  rewrite project_fetched_loads.
  destruct (ProjectRepository.row i d) as [r|]; [|reflexivity].
  destruct (project_loads r); reflexivity.
Qed.

Lemma project_row_id (i : Z) (d : Database.t) (r : Project.t) :
  ProjectRepository.row i d = Some r -> Project.id r = Some i.
Proof.
  intros H. apply find_some in H. destruct H as [_ H].
  unfold Store.has_id in H. destruct (Project.id r) as [j|]; [|discriminate].
  apply Z.eqb_eq in H. congruence.
Qed.

Lemma find_app_miss {A : Type} (hit : A -> bool) (l : list A) (x : A) :
  hit x = false -> find hit (l ++ [x]) = find hit l.
Proof.
  intros Hx. induction l as [|y l IH]; simpl.
  - rewrite Hx. reflexivity.
  - destruct (hit y); [reflexivity|exact IH].
Qed.

Lemma next_project_id_fresh (d : Database.t) :
  existsb (fun r => Store.has_id (ProjectRepository.next_id d) (Project.id r))
    (Database.projects d) = false.
Proof.
  destruct (existsb _ _) eqn:H; [|reflexivity]. exfalso.
  apply existsb_exists in H. destruct H as (r & Hin & Hr).
  unfold Store.has_id in Hr.
  destruct (Project.id r) as [j|] eqn:Hj; [|discriminate].
  apply Z.eqb_eq in Hr. subst j.
  assert (ProjectRepository.next_id d
          <= Database.max_id (map Project.id (Database.projects d))) as Hle.
  { apply max_id_bound. rewrite <- Hj. apply in_map. exact Hin. }
  unfold ProjectRepository.next_id in Hle. lia.
Qed.

(** A project that passed the constructor with one rate set, the other
    not: its row loads unless the rate is NaN. *)
Lemma created_row_loads (p : Project.t) :
  project_loads p = true ->
  xorb (Py.truthy_opt (Project.hourly_rate p))
       (Py.truthy_opt (Project.fixed_rate p)) = true ->
  project_loads (ProjectRepository.columns p)
  = negb (nan_rate (Project.hourly_rate p) || nan_rate (Project.fixed_rate p)).
Proof.
  intros Hload Hxor.
  destruct (nan_rate (Project.hourly_rate p)) eqn:Hh.
  - assert (Py.truthy_opt (Project.hourly_rate p) = true) as Hth.
    { destruct (Project.hourly_rate p) as [v|]; [|discriminate].
      apply nan_is_truthy. exact Hh. }
    rewrite Hth in Hxor. simpl in Hxor. apply negb_true_iff in Hxor.
    unfold project_loads, ProjectRepository.columns. simpl.
    rewrite (real_of_nan _ Hh), (truthy_real _ Hxor). simpl.
    rewrite !andb_false_r. reflexivity.
  - destruct (nan_rate (Project.fixed_rate p)) eqn:Hf.
    + assert (Py.truthy_opt (Project.fixed_rate p) = true) as Htf.
      { destruct (Project.fixed_rate p) as [v|]; [|discriminate].
        apply nan_is_truthy. exact Hf. }
      rewrite Htf in Hxor. rewrite xorb_true_r in Hxor.
      apply negb_true_iff in Hxor.
      unfold project_loads, ProjectRepository.columns. simpl.
      rewrite (real_of_nan _ Hf), (truthy_real _ Hxor). simpl.
      rewrite !andb_false_r. reflexivity.
    + rewrite columns_of_real; [exact Hload|].
      unfold real_rates. rewrite Hh, Hf. reflexivity.
Qed.

Lemma create_project_cases (clk : Clock) (client_id : Z) (name : string)
    (description : option string) (hourly_rate fixed_rate : option float)
    (d : Database.t) :
  let p0 := ProjectService.project_of_keywords clk client_id name description
              hourly_rate fixed_rate in
  ProjectService.create_project clk client_id name description hourly_rate
    fixed_rate d
  = match ClientRepository.row client_id d with
    | None => Wide.Raise Wide.ClientNotFoundError d
    | Some c =>
        if client_loads c
           && xorb (Py.truthy_opt hourly_rate) (Py.truthy_opt fixed_rate)
           && negb (ProjectService.set_and_nonpositive hourly_rate)
           && negb (ProjectService.set_and_nonpositive fixed_rate)
           && project_loads p0
        then ProjectRepository.create p0 d
        else Wide.Raise (Wide.Known ValidationError) d
    end.
Proof.
  intros p0. subst p0.
  unfold ProjectService.create_project, Wide.bind,
    ClientRepository.find_by_id.
  rewrite fetched_loads.
  destruct (ClientRepository.row client_id d) as [c|]; [|reflexivity].
  destruct (client_loads c); [|reflexivity].
  destruct (Py.truthy_opt hourly_rate), (Py.truthy_opt fixed_rate);
    try reflexivity; cbn [negb andb orb xorb].
  - destruct (ProjectService.set_and_nonpositive hourly_rate); [reflexivity|].
    destruct (ProjectService.set_and_nonpositive fixed_rate); [reflexivity|].
    cbn [negb andb]. fold (ProjectFields.from_dict
      (ProjectService.project_of_keywords clk client_id name description
         hourly_rate fixed_rate)).
    rewrite project_from_dict_loads. destruct (project_loads _); reflexivity.
  - destruct (ProjectService.set_and_nonpositive hourly_rate); [reflexivity|].
    destruct (ProjectService.set_and_nonpositive fixed_rate); [reflexivity|].
    cbn [negb andb]. fold (ProjectFields.from_dict
      (ProjectService.project_of_keywords clk client_id name description
         hourly_rate fixed_rate)).
    rewrite project_from_dict_loads. destruct (project_loads _); reflexivity.
Qed.

(** X22.  [create_project] raises ClientNotFoundError or ValidationError
    and leaves the database as it was, or it returns the project built
    from its arguments under the next identifier, which no row had: then
    the client loads, exactly one of the two rates is set, the project is
    active with no hours, and the clients, the invoices, the payments and
    the other projects are untouched.  [get_project] gives the project
    back, unless the rate is NaN: the row then holds no rate, and loading
    it raises ValidationError. *)
Theorem create_project_outcome (clk : Clock) (client_id : Z) (name : string)
    (description : option string) (hourly_rate fixed_rate : option float)
    (d : Database.t) :
  match ProjectService.create_project clk client_id name description
          hourly_rate fixed_rate d with
  | Wide.Return p d' =>
      let i := ProjectRepository.next_id d in
      p = ProjectFields.with_id (Some i)
            (ProjectService.project_of_keywords clk client_id name
               description hourly_rate fixed_rate)
      /\ xorb (Py.truthy_opt hourly_rate) (Py.truthy_opt fixed_rate) = true
      /\ (exists c, ClientService.get_client client_id d = Wide.Return c d)
      /\ ProjectRepository.row i d = None
      /\ Database.clients d' = Database.clients d
      /\ Database.billing d' = Database.billing d
      /\ (forall j, j <> i ->
            ProjectRepository.row j d' = ProjectRepository.row j d)
      /\ ProjectService.get_project i d'
         = if nan_rate hourly_rate || nan_rate fixed_rate
           then Wide.Raise (Wide.Known ValidationError) d'
           else Wide.Return p d'
  | Wide.Raise e d' =>
      d' = d
      /\ (e = Wide.ClientNotFoundError \/ e = Wide.Known ValidationError)
  end.
Proof.
  rewrite create_project_cases. cbv zeta.
  destruct (ClientRepository.row client_id d) as [c|] eqn:Hc; [|auto].
  destruct (client_loads c) eqn:Hcl; [|simpl; auto].
  destruct (xorb _ _) eqn:Hxor; [|simpl; auto].
  destruct (ProjectService.set_and_nonpositive hourly_rate); [simpl; auto|].
  destruct (ProjectService.set_and_nonpositive fixed_rate); [simpl; auto|].
  destruct (project_loads _) eqn:Hload; [|simpl; auto].
  cbn [andb negb]. unfold ProjectRepository.create.
  pose proof (next_project_id_fresh d) as Hfresh.
  split; [reflexivity|]. split; [reflexivity|].
  split; [exists c; rewrite get_client_row, Hc, Hcl; reflexivity|].
  split.
  { unfold ProjectRepository.row.
    destruct (find _ _) eqn:Hfind; [|reflexivity].
    rewrite (find_existsb _ _ _ Hfind) in Hfresh. discriminate. }
  split; [reflexivity|]. split; [reflexivity|]. split.
  { intros j Hj. unfold ProjectRepository.row.
    cbn [Database.projects Database.with_projects].
    apply find_app_miss. simpl. apply Z.eqb_neq. congruence. }
  rewrite get_project_row. unfold ProjectRepository.row.
  cbn [Database.projects Database.with_projects].
  rewrite find_app_fresh; [|exact Hfresh|simpl; apply Z.eqb_refl].
  rewrite (created_row_loads
             (ProjectFields.with_id (Some (ProjectRepository.next_id d)) _)
             Hload Hxor).
  cbn [Project.hourly_rate Project.fixed_rate ProjectFields.with_id
       ProjectService.project_of_keywords].
  destruct (nan_rate hourly_rate) eqn:Hh; [reflexivity|].
  destruct (nan_rate fixed_rate) eqn:Hf; [reflexivity|].
  cbn [orb negb]. rewrite columns_of_real; [reflexivity|].
  unfold real_rates. simpl. rewrite Hh, Hf. reflexivity.
Qed.

Lemma project_update_returns (clk : Clock) (p r : Project.t) (i : Z)
    (d : Database.t) :
  ProjectRepository.row i d = Some r ->
  Project.id p = Some i ->
  Project.created_at p = Project.created_at r ->
  Project.client_id p = Project.client_id r ->
  Project.updated_at p = Some (now clk) ->
  exists d',
    ProjectRepository.update clk p d = Wide.Return p d'
    /\ ProjectRepository.row i d' = Some (ProjectRepository.columns p)
    /\ (forall j, j <> i ->
          ProjectRepository.row j d' = ProjectRepository.row j d)
    /\ Database.clients d' = Database.clients d
    /\ Database.billing d' = Database.billing d.
Proof.
  intros Hrow Hid Hcr Hcl Hup.
  pose proof (find_some _ _ Hrow) as [Hin Hhit].
  pose proof (project_row_id _ _ _ Hrow) as Hrid.
  unfold ProjectRepository.update. rewrite Hid.
  rewrite (find_existsb _ _ _ Hrow).
  eexists. split; [reflexivity|].
  split; [|split; [|split; reflexivity]].
  - unfold ProjectRepository.row.
    cbn [Database.projects Database.with_projects].
    rewrite find_map_write.
    + fold (ProjectRepository.row i d). rewrite Hrow. simpl. f_equal.
      rewrite Hhit. clear - Hid Hcr Hcl Hup Hrid.
      unfold ProjectRepository.columns.
      destruct p, r; simpl in *; subst. reflexivity.
    + intros x. destruct (Store.has_id i (Project.id x)) eqn:Hx; exact Hx.
  - intros j Hj. unfold ProjectRepository.row.
    cbn [Database.projects Database.with_projects].
    rewrite find_map_write.
    + destruct (find _ (Database.projects d)) as [x|] eqn:Hx; [|reflexivity].
      simpl. f_equal. apply find_some in Hx. destruct Hx as [_ Hx].
      assert (Store.has_id i (Project.id x) = false) as ->; [|reflexivity].
      unfold Store.has_id in *. destruct (Project.id x) as [k|];
        [|reflexivity].
      apply Z.eqb_eq in Hx. subst k. apply Z.eqb_neq. exact Hj.
    + intros x. destruct (Store.has_id i (Project.id x)); reflexivity.
Qed.

Lemma transition_eq (clk : Clock) (i : Z) (refused : ProjectStatus.t -> bool)
    (target : ProjectStatus.t) (d : Database.t) :
  ProjectService.transition clk i refused target d
  = match ProjectRepository.row i d with
    | None => Wide.Raise Wide.ProjectNotFoundError d
    | Some r =>
        if project_loads r && negb (refused (Project.status r))
        then ProjectRepository.update clk
               (Project.update_timestamp clk
                  (ProjectFields.with_status target r)) d
        else Wide.Raise (Wide.Known ValidationError) d
    end.
Proof.
  unfold ProjectService.transition, Wide.bind, ProjectRepository.find_by_id.
  rewrite project_fetched_loads.
  destruct (ProjectRepository.row i d) as [r|]; [|reflexivity].
  destruct (project_loads r); [|reflexivity].
  destruct (refused (Project.status r)); reflexivity.
Qed.

Lemma transition_moves (clk : Clock) (i : Z)
    (refused : ProjectStatus.t -> bool) (target : ProjectStatus.t)
    (d : Database.t) (p : Project.t) :
  ProjectService.get_project i d = Wide.Return p d ->
  if refused (Project.status p)
  then ProjectService.transition clk i refused target d
       = Wide.Raise (Wide.Known ValidationError) d
  else moved clk i p target d
         (ProjectService.transition clk i refused target d).
Proof.
  rewrite get_project_row, transition_eq.
  destruct (ProjectRepository.row i d) as [r|] eqn:Hrow; [|discriminate].
  destruct (project_loads r) eqn:Hload; [|discriminate].
  intros H. injection H as <-.
  destruct (refused (Project.status r)); [reflexivity|].
  cbn [andb negb].
  destruct (project_update_returns clk
              (Project.update_timestamp clk
                 (ProjectFields.with_status target r)) r i d Hrow)
    as (d' & Hup & Hrow' & Hothers & Hc & Hb);
    try reflexivity.
  - exact (project_row_id _ _ _ Hrow).
  - exists d'. rewrite Hup, Hrow'. repeat split; auto.
Qed.

(** X23.  The three transitions of a project that loads.  [pause_project]
    moves an active project to on hold and refuses every other;
    [resume_project] moves a project on hold to active and refuses every
    other; [complete_project] refuses a completed project and moves every
    other to completed, a cancelled one included.  A refusal is a
    ValidationError with the database as it was; a move returns the
    project with the new status, writes it to the row, and leaves the
    other projects, the clients, the invoices and the payments alone. *)
Theorem project_transitions (clk : Clock) (i : Z) (d : Database.t)
    (p : Project.t) :
  ProjectService.get_project i d = Wide.Return p d ->
  let refused := fun o => o = Wide.Raise (Wide.Known ValidationError) d in
  (if ProjectFields.status_eqb (Project.status p) ProjectStatus.ACTIVE
   then moved clk i p ProjectStatus.ON_HOLD d
          (ProjectService.pause_project clk i d)
   else refused (ProjectService.pause_project clk i d))
  /\ (if ProjectFields.status_eqb (Project.status p) ProjectStatus.ON_HOLD
      then moved clk i p ProjectStatus.ACTIVE d
             (ProjectService.resume_project clk i d)
      else refused (ProjectService.resume_project clk i d))
  /\ (if ProjectFields.status_eqb (Project.status p) ProjectStatus.COMPLETED
      then refused (ProjectService.complete_project clk i d)
      else moved clk i p ProjectStatus.COMPLETED d
             (ProjectService.complete_project clk i d)).
Proof.
  intros Hget refused. subst refused. cbv beta.
  unfold ProjectService.pause_project, ProjectService.resume_project,
    ProjectService.complete_project.
  split; [|split].
  - pose proof (transition_moves clk i
                  (fun s => negb (ProjectFields.status_eqb s
                                    ProjectStatus.ACTIVE))
                  ProjectStatus.ON_HOLD d p Hget) as H.
    cbv beta in H.
    destruct (ProjectFields.status_eqb _ _); exact H.
  - pose proof (transition_moves clk i
                  (fun s => negb (ProjectFields.status_eqb s
                                    ProjectStatus.ON_HOLD))
                  ProjectStatus.ACTIVE d p Hget) as H.
    cbv beta in H.
    destruct (ProjectFields.status_eqb _ _); exact H.
  - pose proof (transition_moves clk i
                  (fun s => ProjectFields.status_eqb s
                              ProjectStatus.COMPLETED)
                  ProjectStatus.COMPLETED d p Hget) as H.
    cbv beta in H.
    destruct (ProjectFields.status_eqb _ _); exact H.
Qed.

Lemma project_transitions_witness :
  moved Examples.clock 1 Samples.website ProjectStatus.ON_HOLD
    Samples.database (ProjectService.pause_project Examples.clock 1
                        Samples.database)
  /\ ProjectService.resume_project Examples.clock 1 Samples.database
     = Wide.Raise (Wide.Known ValidationError) Samples.database
  /\ moved Examples.clock 1 Samples.website ProjectStatus.COMPLETED
       Samples.database (ProjectService.complete_project Examples.clock 1
                           Samples.database).
Proof.
  apply (project_transitions Examples.clock 1 Samples.database
           Samples.website).
  vm_compute. reflexivity.
Defined.

Lemma moved_row (clk : Clock) (i : Z) (p : Project.t)
    (target : ProjectStatus.t) (d : Database.t) :
  ProjectService.get_project i d = Wide.Return p d ->
  real_rates p = true ->
  forall refused,
    refused (Project.status p) = false ->
    let p' := Project.update_timestamp clk
                (ProjectFields.with_status target p) in
    exists d',
      ProjectService.transition clk i refused target d = Wide.Return p' d'
      /\ ProjectService.get_project i d' = Wide.Return p' d'.
Proof.
  intros Hget Hreal refused Href p'.
  pose proof Hget as Hget0.
  rewrite get_project_row in Hget.
  destruct (ProjectRepository.row i d) as [r|] eqn:Hrow; [|discriminate].
  destruct (project_loads r) eqn:Hload; [|discriminate].
  injection Hget as <-.
  rewrite transition_eq, Hrow, Hload, Href. cbn [andb negb].
  destruct (project_update_returns clk p' r i d Hrow)
    as (d' & Hup & Hrow' & _); try reflexivity.
  - exact (project_row_id _ _ _ Hrow).
  - exists d'. split; [exact Hup|].
    rewrite get_project_row, Hrow'.
    rewrite (columns_of_real p') by exact Hreal.
    change (project_loads p') with (project_loads r).
    rewrite Hload. reflexivity.
Qed.

(** X24.  Pausing and resuming is a round trip.  For an active project
    that loads and whose rates are numbers, [pause_project] and then
    [resume_project] both return, and [get_project] then gives the
    project as it was but for the timestamp of the update; in between,
    the project is on hold and a second [pause_project] is refused. *)
Theorem pause_resume_round_trip (clk1 clk2 : Clock) (i : Z)
    (d : Database.t) (p : Project.t) :
  ProjectService.get_project i d = Wide.Return p d ->
  real_rates p = true ->
  Project.status p = ProjectStatus.ACTIVE ->
  exists p1 d1 d2,
    ProjectService.pause_project clk1 i d = Wide.Return p1 d1
    /\ Project.status p1 = ProjectStatus.ON_HOLD
    /\ ProjectService.pause_project clk2 i d1
       = Wide.Raise (Wide.Known ValidationError) d1
    /\ ProjectService.resume_project clk2 i d1
       = Wide.Return (Project.with_updated_at (Some (now clk2)) p) d2
    /\ ProjectService.get_project i d2
       = Wide.Return (Project.with_updated_at (Some (now clk2)) p) d2.
Proof.
  intros Hget Hreal Hactive.
  destruct (moved_row clk1 i p ProjectStatus.ON_HOLD d Hget Hreal
              (fun s => negb (ProjectFields.status_eqb s
                                ProjectStatus.ACTIVE)))
    as (d1 & Hpause & Hget1).
  { rewrite Hactive. reflexivity. }
  destruct (moved_row clk2 i _ ProjectStatus.ACTIVE d1 Hget1 Hreal
              (fun s => negb (ProjectFields.status_eqb s
                                ProjectStatus.ON_HOLD)))
    as (d2 & Hresume & Hget2).
  { reflexivity. }
  assert (Project.update_timestamp clk2
            (ProjectFields.with_status ProjectStatus.ACTIVE
               (Project.update_timestamp clk1
                  (ProjectFields.with_status ProjectStatus.ON_HOLD p)))
          = Project.with_updated_at (Some (now clk2)) p) as Hsame.
  { clear - Hactive. destruct p; simpl in *; subst. reflexivity. }
  rewrite Hsame in Hresume, Hget2.
  eexists _, d1, d2. split; [exact Hpause|]. split; [reflexivity|].
  split; [|split; assumption].
  pose proof (transition_moves clk2 i
                (fun s => negb (ProjectFields.status_eqb s
                                  ProjectStatus.ACTIVE))
                ProjectStatus.ON_HOLD d1 _ Hget1) as H.
  exact H.
Qed.

Lemma pause_resume_round_trip_witness :
  exists p1 d1 d2,
    ProjectService.pause_project Examples.clock 1 Samples.database
    = Wide.Return p1 d1
    /\ Project.status p1 = ProjectStatus.ON_HOLD
    /\ ProjectService.pause_project Examples.clock 1 d1
       = Wide.Raise (Wide.Known ValidationError) d1
    /\ ProjectService.resume_project Examples.clock 1 d1
       = Wide.Return
           (Project.with_updated_at (Some (now Examples.clock))
              Samples.website) d2
    /\ ProjectService.get_project 1 d2
       = Wide.Return
           (Project.with_updated_at (Some (now Examples.clock))
              Samples.website) d2.
Proof.
  apply (pause_resume_round_trip Examples.clock Examples.clock 1
           Samples.database Samples.website).
  - vm_compute. reflexivity.
  - vm_compute. reflexivity.
  - reflexivity.
Defined.

Lemma negative_is_nonpositive (h : float) :
  (h <=? 0)%float = false -> (h <? 0)%float = false.
Proof.
  rewrite FloatAxioms.leb_spec, FloatAxioms.ltb_spec.
  change (Prim2SF 0) with (S754_zero false).
  unfold SFleb, SFltb.
  destruct (Prim2SF h) as [[]|[]| |[] ? ?]; simpl; intros H;
    try discriminate; reflexivity.
Qed.

(** X25.  [add_hours_to_project] on a project that loads.  It is refused
    with ValidationError, the database as it was, unless the project has
    an hourly rate, the hours are not zero or below, and the project is
    active.  Else it returns the project reloaded, its hours the sum of
    the hours of the row and the hours given, and only this row has
    changed.  When the sum is a number the returned project is the one
    that the method [add_hours] of the model makes of the loaded
    project. *)
Theorem add_hours_to_project_outcome (clk : Clock) (i : Z) (hours : float)
    (d : Database.t) (p : Project.t) :
  ProjectService.get_project i d = Wide.Return p d ->
  if Py.truthy_opt (Project.hourly_rate p) && negb (hours <=? 0)%float
     && ProjectFields.status_eqb (Project.status p) ProjectStatus.ACTIVE
  then
    let p' := Project.with_updated_at (Some (now clk))
                (Project.with_hours_worked
                   (Project.hours_worked p + hours)%float p) in
    exists d',
      ProjectService.add_hours_to_project clk i hours d = Wide.Return p' d'
      /\ ProjectRepository.row i d' = Some p'
      /\ (forall j, j <> i ->
            ProjectRepository.row j d' = ProjectRepository.row j d)
      /\ Database.clients d' = Database.clients d
      /\ Database.billing d' = Database.billing d
      /\ (PrimFloat.is_nan (Project.hours_worked p + hours)%float = false ->
          Project.add_hours clk hours p = Return tt p')
  else
    ProjectService.add_hours_to_project clk i hours d
    = Wide.Raise (Wide.Known ValidationError) d.
Proof.
  intros Hget. rewrite get_project_row in Hget.
  destruct (ProjectRepository.row i d) as [r|] eqn:Hrow; [|discriminate].
  destruct (project_loads r) eqn:Hload; [|discriminate].
  injection Hget as <-.
  unfold ProjectService.add_hours_to_project, Wide.bind.
  change (ProjectRepository.find_by_id i d)
    with (ProjectRepository.fetched (ProjectRepository.row i d) d).
  rewrite project_fetched_loads, Hrow, Hload.
  destruct (Py.truthy_opt (Project.hourly_rate r)); [|reflexivity].
  destruct (hours <=? 0)%float eqn:Hpos; [reflexivity|].
  destruct (ProjectFields.status_eqb _ _); [|reflexivity].
  cbn [andb negb]. cbv zeta.
  unfold ProjectRepository.update_hours_worked,
    ProjectRepository.find_by_id.
  rewrite project_fetched_loads.
  pose proof (find_some _ _ Hrow) as [_ Hhit].
  assert (forall x,
            Store.has_id i
              (Project.id
                 (if Store.has_id i (Project.id x)
                  then Project.with_updated_at (Some (now clk))
                         (Project.with_hours_worked
                            (Project.hours_worked x + hours)%float x)
                  else x))
            = Store.has_id i (Project.id x)) as Hkeep.
  { intros x. destruct (Store.has_id i (Project.id x)) eqn:Hx; exact Hx. }
  assert (ProjectRepository.row i
            (Database.with_projects
               (map (fun r0 =>
                       if Store.has_id i (Project.id r0)
                       then Project.with_updated_at (Some (now clk))
                              (Project.with_hours_worked
                                 (Project.hours_worked r0 + hours)%float r0)
                       else r0) (Database.projects d))
               (Database.project_seq d) d)
          = Some (Project.with_updated_at (Some (now clk))
                    (Project.with_hours_worked
                       (Project.hours_worked r + hours)%float r))) as Hrow'.
  { unfold ProjectRepository.row.
    cbn [Database.projects Database.with_projects].
    rewrite (find_map_write _ _ _ Hkeep).
    fold (ProjectRepository.row i d). rewrite Hrow. simpl.
    rewrite Hhit. reflexivity. }
  rewrite Hrow'.
  change (project_loads (Project.with_updated_at _ _))
    with (project_loads r).
  rewrite Hload.
  eexists. split; [reflexivity|]. split; [exact Hrow'|].
  split; [|split; [reflexivity|split; [reflexivity|]]].
  - intros j Hj. unfold ProjectRepository.row.
    cbn [Database.projects Database.with_projects].
    rewrite find_map_write.
    + destruct (find _ (Database.projects d)) as [x|] eqn:Hx; [|reflexivity].
      simpl. f_equal. apply find_some in Hx. destruct Hx as [_ Hx].
      assert (Store.has_id i (Project.id x) = false) as ->; [|reflexivity].
      unfold Store.has_id in *. destruct (Project.id x) as [k|];
        [|reflexivity].
      apply Z.eqb_eq in Hx. subst k. apply Z.eqb_neq. exact Hj.
    + intros x. destruct (Store.has_id i (Project.id x)); reflexivity.
  - intros _. unfold Project.add_hours.
    rewrite (negative_is_nonpositive _ Hpos). reflexivity.
Qed.

Lemma add_hours_to_project_outcome_witness :
  let p' := Project.with_updated_at (Some (now Examples.clock))
              (Project.with_hours_worked (12 + 3)%float Samples.website) in
  exists d',
    ProjectService.add_hours_to_project Examples.clock 1 3%float
      Samples.database = Wide.Return p' d'
    /\ ProjectRepository.row 1 d' = Some p'
    /\ (forall j, j <> 1 ->
          ProjectRepository.row j d' = ProjectRepository.row j Samples.database)
    /\ Database.clients d' = Database.clients Samples.database
    /\ Database.billing d' = Database.billing Samples.database
    /\ (PrimFloat.is_nan (12 + 3)%float = false ->
        Project.add_hours Examples.clock 3%float Samples.website
        = Return tt p').
Proof.
  apply (add_hours_to_project_outcome Examples.clock 1 3%float
           Samples.database Samples.website).
  vm_compute. reflexivity.
Defined.

(** X26.  [update_project] raises ProjectNotFoundError or ValidationError
    and leaves the database as it was, or it returns the loaded project
    with the given fields assigned and has written it to its row; it
    never raises DatabaseError.  A rate that is given clears the other
    rate, and when both are given the fixed rate stays; with no rate
    given both are kept.  The status given is assigned whatever the
    status was.  The hours are kept, and the other projects, the clients,
    the invoices and the payments are untouched. *)
Theorem update_project_outcome (clk : Clock) (i : Z)
    (name description : option string) (hourly_rate fixed_rate : option float)
    (status : option ProjectStatus.t) (d : Database.t) :
  match ProjectService.update_project clk i name description hourly_rate
          fixed_rate status d with
  | Wide.Return p' d' =>
      exists p,
        ProjectService.get_project i d = Wide.Return p d
        /\ (Project.hourly_rate p', Project.fixed_rate p')
           = match fixed_rate, hourly_rate with
             | Some f, _ => (None, Some f)
             | None, Some h => (Some h, None)
             | None, None => (Project.hourly_rate p, Project.fixed_rate p)
             end
        /\ Project.status p'
           = match status with Some v => v | None => Project.status p end
        /\ Project.hours_worked p' = Project.hours_worked p
        /\ Project.name p'
           = match name with Some v => Py.strip v | None => Project.name p end
        /\ ProjectRepository.row i d' = Some (ProjectRepository.columns p')
        /\ (forall j, j <> i ->
              ProjectRepository.row j d' = ProjectRepository.row j d)
        /\ Database.clients d' = Database.clients d
        /\ Database.billing d' = Database.billing d
  | Wide.Raise e d' =>
      d' = d
      /\ (e = Wide.ProjectNotFoundError \/ e = Wide.Known ValidationError)
  end.
Proof.
  unfold ProjectService.update_project, Wide.bind,
    ProjectRepository.find_by_id.
  rewrite project_fetched_loads. rewrite get_project_row.
  destruct (ProjectRepository.row i d) as [r|] eqn:Hrow;
    [|simpl; solve [auto]].
  destruct (project_loads r) eqn:Hload; [|simpl; solve [auto]].
  pose proof (project_row_id _ _ _ Hrow) as Hid.
  assert (forall q,
            Project.id q = Some i ->
            Project.created_at q = Project.created_at r ->
            Project.client_id q = Project.client_id r ->
            (Project.hourly_rate q, Project.fixed_rate q)
            = match fixed_rate, hourly_rate with
              | Some f, _ => (None, Some f)
              | None, Some h => (Some h, None)
              | None, None => (Project.hourly_rate r, Project.fixed_rate r)
              end ->
            Project.status q
            = match status with Some v => v | None => Project.status r end ->
            Project.hours_worked q = Project.hours_worked r ->
            Project.name q
            = match name with
              | Some v => Py.strip v
              | None => Project.name r
              end ->
            match ProjectRepository.update clk
                    (Project.update_timestamp clk q) d with
            | Wide.Return p' d' =>
                exists p,
                  Wide.Return r d = Wide.Return p d
                  /\ (Project.hourly_rate p', Project.fixed_rate p')
                     = match fixed_rate, hourly_rate with
                       | Some f, _ => (None, Some f)
                       | None, Some h => (Some h, None)
                       | None, None =>
                           (Project.hourly_rate p, Project.fixed_rate p)
                       end
                  /\ Project.status p'
                     = match status with
                       | Some v => v
                       | None => Project.status p
                       end
                  /\ Project.hours_worked p' = Project.hours_worked p
                  /\ Project.name p'
                     = match name with
                       | Some v => Py.strip v
                       | None => Project.name p
                       end
                  /\ ProjectRepository.row i d'
                     = Some (ProjectRepository.columns p')
                  /\ (forall j, j <> i ->
                        ProjectRepository.row j d' = ProjectRepository.row j d)
                  /\ Database.clients d' = Database.clients d
                  /\ Database.billing d' = Database.billing d
            | Wide.Raise e d' =>
                d' = d
                /\ (e = Wide.ProjectNotFoundError
                    \/ e = Wide.Known ValidationError)
            end) as Hdone.
  { intros q Hq Hcr Hcl Hrates Hst Hh Hn.
    destruct (project_update_returns clk (Project.update_timestamp clk q)
                r i d Hrow)
      as (d' & -> & Hrow' & Hothers & Hc & Hb); try assumption;
      try reflexivity.
    exists r. repeat split; assumption. }
  unfold Wide.ret, Wide.raise.
  destruct hourly_rate as [h|], fixed_rate as [f|];
    try (destruct (h <=? 0)%float; cbv beta iota; [solve [auto]|]);
    try (destruct (f <=? 0)%float; cbv beta iota; [solve [auto]|]);
    cbv beta iota;
    apply Hdone; destruct name, description, status; simpl;
    solve [reflexivity | assumption].
Qed.

(** X27.  [get_project_earnings] of the repository and [calculate_amount]
    of the model agree: for a project that loads and whose hours are a
    number, the earnings are the amount of the loaded project. *)
Theorem project_earnings_agree (i : Z) (d : Database.t) (p : Project.t) :
  ProjectService.get_project i d = Wide.Return p d ->
  PrimFloat.is_nan (Project.hours_worked p) = false ->
  ProjectService.get_project_earnings i d
  = Wide.Return (Project.calculate_amount p) d.
Proof.
  rewrite get_project_row.
  destruct (ProjectRepository.row i d) as [r|] eqn:Hrow; [|discriminate].
  destruct (project_loads r) eqn:Hload; [|discriminate].
  intros H Hnan. injection H as <-.
  unfold ProjectService.get_project_earnings,
    ProjectRepository.get_project_earnings, Wide.bind,
    ProjectRepository.find_by_id.
  rewrite project_fetched_loads, Hrow, Hload.
  unfold Project.calculate_amount, ProjectRepository.hourly_amount.
  rewrite Hnan.
  destruct (Project.fixed_rate r) as [f|], (Project.hourly_rate r) as [h|];
    try destruct (Py.truthy f); try destruct (Py.truthy h); reflexivity.
Qed.

Lemma project_earnings_agree_witness :
  ProjectService.get_project_earnings 1 Samples.database
  = Wide.Return (Project.calculate_amount Samples.website) Samples.database.
Proof.
  apply (project_earnings_agree 1 Samples.database Samples.website).
  - vm_compute. reflexivity.
  - vm_compute. reflexivity.
Defined.

(** ** Creating and loading invoices *)

Lemma rstrip_head (c : ascii) (s : string) :
  Py.isspace c = false -> exists u, Py.rstrip (String c s) = String c u.
Proof.
  intros Hc. unfold Py.rstrip. simpl.
  rewrite (reverse_acc s (String c EmptyString)).
  destruct (lstrip_snoc (Py.reverse s EmptyString) c Hc) as [u ->].
  rewrite reverse_snoc. eexists. reflexivity.
Qed.

Lemma strip_head (c : ascii) (s : string) :
  Py.isspace c = false -> Py.nonempty (Py.strip (String c s)) = true.
Proof.
  intros Hc. unfold Py.strip. simpl. rewrite Hc.
  destruct (rstrip_head c s Hc) as [u ->]. reflexivity.
Qed.

Lemma work_description_not_blank (hours_at_rate : float -> float -> string)
    (p : Project.t) :
  Py.nonempty (Py.strip (InvoiceCreation.work_description hours_at_rate p))
  = true.
Proof.
  unfold InvoiceCreation.work_description.
  destruct (Project.hourly_rate p) as [r|]; [destruct (Py.truthy r)|];
    simpl; apply strip_head; reflexivity.
Qed.

Lemma positive_is_not_negative (a : float) :
  (0 <? a)%float = true -> (a <? 0)%float = false.
Proof.
  rewrite !FloatAxioms.ltb_spec.
  change (Prim2SF 0) with (S754_zero false).
  unfold SFltb.
  destruct (Prim2SF a) as [[]|[]| |[] ? ?]; simpl; intros H;
    try discriminate; reflexivity.
Qed.

Lemma due_before_today (t n : Z) : (t + n <? t) = (n <? 0).
Proof.
  destruct (Z.ltb_spec (t + n) t), (Z.ltb_spec n 0); lia.
Qed.

(** X28.  [create_invoice] stores one new invoice or nothing.  When it
    returns, the client loads, the invoice is a draft under the next
    identifier with the number of the clock, issued today and due
    [due_days] later, no check being made on [due_days], so that it is
    overdue at once exactly when [due_days] is negative; its totals are
    those of its items; and it has no item, or the one item of the project
    given, which then loads, belongs to the client and has an amount above
    zero: quantity 1 at the amount of the project.  The invoice is
    appended to the invoices; payments, clients and projects are
    untouched.  When it raises, the database is as it was, and the
    exception is ClientNotFoundError when the client does not exist; for a
    project that does not exist it is ValidationError. *)
Theorem create_invoice_outcome (hours_at_rate : float -> float -> string)
    (clk : Clock) (client_id : Z) (project_id : option Z) (due_days : Z)
    (notes : option string) (d : Database.t) :
  match InvoiceCreation.create_invoice hours_at_rate clk client_id project_id
          due_days notes d with
  | Wide.Return inv d' =>
      (exists c, ClientService.get_client client_id d = Wide.Return c d)
      /\ Invoice.id inv
         = Some (InvoiceRepository.next_id
                   (Store.invoices (Database.billing d)))
      /\ Invoice.status inv = InvoiceStatus.DRAFT
      /\ Invoice.client_id inv = client_id
      /\ Invoice.project_id inv = project_id
      /\ Invoice.invoice_number inv
         = Invoice.generate_invoice_number clk inv
      /\ Invoice.issue_date inv = today clk
      /\ Invoice.due_date inv = today clk + due_days
      /\ Invoice.is_overdue clk inv = (due_days <? 0)
      /\ Invoice.subtotal inv
         = Py.sum (map InvoiceItem.amount (Invoice.items inv))
      /\ Invoice.tax_amount inv
         = (Invoice.subtotal inv * Settings.tax_rate Settings.invoice)%float
      /\ Invoice.total_amount inv
         = (Invoice.subtotal inv + Invoice.tax_amount inv)%float
      /\ (Invoice.items inv = []
          \/ exists pid p,
               project_id = Some pid
               /\ ProjectService.get_project pid d = Wide.Return p d
               /\ Project.client_id p = client_id
               /\ (0 <? Project.calculate_amount p)%float = true
               /\ Invoice.items inv
                  = [InvoiceItem.init
                       (InvoiceCreation.work_description hours_at_rate p)
                       1%float (Project.calculate_amount p)])
      /\ Store.invoices (Database.billing d')
         = (Store.invoices (Database.billing d) ++ [inv])%list
      /\ Store.payments (Database.billing d')
         = Store.payments (Database.billing d)
      /\ Database.clients d' = Database.clients d
      /\ Database.projects d' = Database.projects d
  | Wide.Raise e d' =>
      d' = d
      /\ e <> Wide.ProjectNotFoundError
      /\ (ClientRepository.row client_id d = None ->
          e = Wide.ClientNotFoundError)
      /\ (forall pid,
            project_id = Some pid -> pid <> 0 ->
            ClientRepository.row client_id d <> None ->
            ProjectRepository.row pid d = None ->
            e = Wide.Known ValidationError)
  end.
Proof.
  unfold InvoiceCreation.create_invoice, Wide.bind,
    ClientRepository.find_by_id.
  rewrite fetched_loads.
  destruct (ClientRepository.row client_id d) as [c|] eqn:Hc.
  2:{ repeat split; try discriminate; congruence. }
  destruct (client_loads c) eqn:Hcl.
  2:{ repeat split; discriminate. }
  assert (exists c0, ClientService.get_client client_id d = Wide.Return c0 d)
    as Hclient by (exists c; rewrite get_client_row, Hc, Hcl; reflexivity).
  assert (forall (e : Wide.exn),
            e = Wide.Known ValidationError ->
            d = d
            /\ e <> Wide.ProjectNotFoundError
            /\ (Some c = None -> e = Wide.ClientNotFoundError)
            /\ (forall pid,
                  project_id = Some pid -> pid <> 0 -> Some c <> None ->
                  ProjectRepository.row pid d = None ->
                  e = Wide.Known ValidationError)) as Hval.
  { intros e ->. repeat split; try discriminate. }
  assert (forall (e : Wide.exn) (p : option Project.t),
            e <> Wide.ProjectNotFoundError ->
            (forall pid, project_id = Some pid -> pid <> 0 ->
               ProjectRepository.row pid d <> None) ->
            d = d
            /\ e <> Wide.ProjectNotFoundError
            /\ (Some c = None -> e = Wide.ClientNotFoundError)
            /\ (forall pid,
                  project_id = Some pid -> pid <> 0 -> Some c <> None ->
                  ProjectRepository.row pid d = None ->
                  e = Wide.Known ValidationError)) as Hother.
  { intros e p He Hp. repeat split; try discriminate; try assumption.
    intros pid H1 H2 _ H3. destruct (Hp pid H1 H2 H3). }
  (* the project *)
  assert (exists project,
            (InvoiceCreation.project_of client_id project_id d
             = Wide.Return project d
             /\ (forall pid, project_id = Some pid -> pid <> 0 ->
                   ProjectRepository.row pid d <> None)
             /\ match project with
                | Some p =>
                    exists pid,
                      project_id = Some pid
                      /\ ProjectService.get_project pid d = Wide.Return p d
                      /\ Project.client_id p = client_id
                | None => True
                end)
            \/ InvoiceCreation.project_of client_id project_id d
               = Wide.Raise (Wide.Known ValidationError) d) as Hproject.
  { unfold InvoiceCreation.project_of.
    destruct project_id as [pid|].
    - destruct (pid =? 0) eqn:Hz.
      + exists None. left. split; [reflexivity|]. split; [|exact I].
        intros pid' H Hnz. injection H as <-. apply Z.eqb_eq in Hz.
        contradiction.
      + unfold Wide.bind, ProjectRepository.find_by_id.
        rewrite project_fetched_loads.
        destruct (ProjectRepository.row pid d) as [r|] eqn:Hr.
        * destruct (project_loads r) eqn:Hl.
          -- destruct (Project.client_id r =? client_id) eqn:Hcid.
             ++ exists (Some r). left. split; [reflexivity|]. split.
                ** intros pid' H _. injection H as <-. congruence.
                ** exists pid. split; [reflexivity|]. split.
                   --- rewrite get_project_row, Hr, Hl. reflexivity.
                   --- apply Z.eqb_eq. exact Hcid.
             ++ exists None. right. reflexivity.
          -- exists None. right. reflexivity.
        * exists None. right. reflexivity.
    - exists None. left. split; [reflexivity|]. split; [|exact I].
      intros pid H. discriminate. }
  destruct Hproject as (project & [(-> & Hrows & Hp)| ->]).
  2:{ apply Hval. reflexivity. }
  (* the due date *)
  unfold Dates.add_days.
  destruct ((due_days <? - Dates.max_delta) || (Dates.max_delta <? due_days)).
  { apply (Hother _ project); [discriminate|exact Hrows]. }
  destruct ((today clk + due_days <? Dates.min_day)
            || (Dates.max_day <? today clk + due_days)).
  { apply (Hother _ project); [discriminate|exact Hrows]. }
  cbn [Wide.ret].
  (* the constructor *)
  unfold Invoice.post_init.
  cbn [InvoiceCreation.invoice_of_keywords Invoice.invoice_number
       Py.nonempty negb Invoice.client_id Invoice.with_invoice_number].
  destruct (client_id <=? 0).
  { apply Hval. reflexivity. }
  cbn [constructed Wide.new Wide.ret].
  (* the item *)
  destruct project as [p|].
  - destruct Hp as (pid & Hpid & Hget & Hcid).
    unfold InvoiceCreation.calculate_amount.
    destruct (negb (Py.truthy_opt (Project.fixed_rate p))
              && Py.truthy_opt (Project.hourly_rate p)
              && PrimFloat.is_nan (Project.hours_worked p)).
    { apply (Hother _ (Some p)); [discriminate|exact Hrows]. }
    cbn [Wide.ret].
    destruct (0 <? Project.calculate_amount p)%float eqn:Hpos.
    + unfold Invoice.add_item.
      rewrite work_description_not_blank.
      rewrite (positive_is_not_negative _ Hpos).
      cbn [negb].
      change (1 <=? 0)%float with false.
      cbn [Wide.call Wide.ret snd].
      unfold InvoiceCreation.create.
      destruct (existsb _ _ || _ || _).
      { apply (Hother _ (Some p)); [discriminate|exact Hrows]. }
      unfold Database.on_billing, InvoiceRepository.create.
      split; [exact Hclient|].
      repeat (split; [reflexivity|]).
      split; [|split; [reflexivity|]].
      * unfold Invoice.is_overdue. simpl. apply due_before_today.
      * split; [reflexivity|]. split; [reflexivity|].
        split; [|repeat split; reflexivity].
        right. exists pid, p. repeat split; auto.
    + cbn [Wide.ret]. unfold InvoiceCreation.create.
      destruct (existsb _ _ || _ || _).
      { apply (Hother _ (Some p)); [discriminate|exact Hrows]. }
      unfold Database.on_billing, InvoiceRepository.create.
      split; [exact Hclient|].
      repeat (split; [reflexivity|]).
      split; [|split; [reflexivity|]].
      * unfold Invoice.is_overdue. simpl. apply due_before_today.
      * split; [reflexivity|]. split; [reflexivity|].
        split; [|repeat split; reflexivity].
        left. reflexivity.
  - cbn [Wide.ret]. unfold InvoiceCreation.create.
    destruct (existsb _ _ || _ || _).
    { apply (Hother _ None); [discriminate|exact Hrows]. }
    unfold Database.on_billing, InvoiceRepository.create.
    split; [exact Hclient|].
    repeat (split; [reflexivity|]).
    split; [|split; [reflexivity|]].
    * unfold Invoice.is_overdue. simpl. apply due_before_today.
    * split; [reflexivity|]. split; [reflexivity|].
      split; [|repeat split; reflexivity].
      left. reflexivity.
Qed.

(** X29.  An invoice as the repository loads it.  [from_dict] calls the
    constructor without the items, so that [__post_init__] computes the
    totals of no items, and [_row_to_model] assigns the items afterwards
    without computing again: whatever subtotal, tax and total the row
    holds, and whatever the items, the loaded invoice has a subtotal, a
    tax and a total of zero.  Loading raises ValidationError exactly for a
    client identifier of zero or below. *)
Theorem loaded_invoice_totals (clk : Clock) (row : Invoice.t)
    (item_rows : list (string * float * float)) :
  match InvoiceCreation._row_to_model clk row item_rows with
  | Ok inv =>
      Invoice.subtotal inv = 0%float
      /\ Invoice.tax_amount inv = 0%float
      /\ Invoice.total_amount inv = 0%float
      /\ map InvoiceItem.description (Invoice.items inv)
         = map (fun r => fst (fst r)) item_rows
      /\ map InvoiceItem.amount (Invoice.items inv)
         = map (fun r => (snd (fst r) * snd r)%float) item_rows
      /\ Invoice.id inv = Invoice.id row
      /\ Invoice.status inv = Invoice.status row
      /\ 0 < Invoice.client_id row
  | Err e => e = ValidationError /\ Invoice.client_id row <= 0
  end.
Proof.
  unfold InvoiceCreation._row_to_model, InvoiceLoader._row_to_model,
    Invoice.from_dict, Invoice.post_init.
  assert (forall self : Invoice.t,
            Invoice.client_id
              (if negb (Py.nonempty (Invoice.invoice_number
                                       (Invoice.with_items [] self)))
               then Invoice.with_invoice_number
                      (Invoice.generate_invoice_number clk
                         (Invoice.with_items [] self))
                      (Invoice.with_items [] self)
               else Invoice.with_items [] self)
            = Invoice.client_id self) as Hcid.
  { intros self. destruct (negb _); reflexivity. }
  rewrite Hcid.
  destruct (Z.leb_spec (Invoice.client_id row) 0) as [Hle|Hlt].
  - simpl. split; [reflexivity|exact Hle].
  - cbn [constructed].
    destruct (negb (Py.nonempty (Invoice.invoice_number
                                   (Invoice.with_items [] row))));
      cbn [Invoice.subtotal Invoice.tax_amount Invoice.total_amount
           Invoice.items Invoice.id Invoice.status Invoice.with_items
           Invoice.calculate_totals Invoice.update_timestamp
           Invoice.with_updated_at Invoice.with_totals
           Invoice.with_invoice_number map Py.sum fold_left];
      rewrite !map_map; cbn [InvoiceItem.description InvoiceItem.amount
                             InvoiceItem.init];
      repeat split; try reflexivity; try exact Hlt.
Qed.

